(** * gitai: the diff-to-prompt pipeline and commit-message post-processing

    A shallow embedding of [gitai.py] (the main script of the repository)
    and statements about its diff reducers ([truncate_diff],
    [simplify_diff_for_local]), its message post-processor
    ([ensure_topic_line] and the subject/body split performed in [main]),
    its cost estimator ([estimate_cost_usd]) and the control flow of [main].

    Conventions of the embedding.

    - A Python [str] is a [list ascii]; a character is read as the code
      point of the same number, so the strings covered are those over
      U+0000..U+00FF.  [isspace], [is_linebreak] and [lower_char] are
      Python's tables restricted to that range.
    - A Python [int] is a [Z]; a [float] is kept abstract ([PyRuntime]).
    - A [dict] decoded from JSON is a [gmap] from strings to [json] values.
    - Effects of [main] are a trace of [event]s together with an [outcome]
      (normal return, [sys.exit], or an uncaught exception); the answers of
      the collaborators (git, the HTTP endpoint, the local backend, the
      terminal) are read from a [world] record. *)

From Stdlib Require Import List Ascii String ZArith NArith QArith Lia Bool DecimalString.
From stdpp Require Import gmap strings.
Import ListNotations.
Local Open Scope Z_scope.

(* ================================================================== *)
(** * Part I: definitions                                              *)
(* ================================================================== *)

(** ** Python strings *)

Definition str := list ascii.

(** [lit "abc"] is the Python literal ['abc'] (no escape sequences). *)
Definition lit (s : string) : str := list_ascii_of_string s.

Definition LF : ascii := "010"%char.
Definition CR : ascii := "013"%char.

(** The one-character string ['\n']. *)
Definition nl : str := [LF].

(** [str.isspace] on one character: U+0009..U+000D, U+001C..U+0020,
    U+0085 and U+00A0. *)
Definition isspace (c : ascii) : bool :=
  let n := N_of_ascii c in
  ((9 <=? n) && (n <=? 13) || (28 <=? n) && (n <=? 32)
   || (n =? 133) || (n =? 160))%N.

(** The line boundaries of [str.splitlines]: \n \v \f \r, U+001C..U+001E
    and U+0085. *)
Definition is_linebreak (c : ascii) : bool :=
  let n := N_of_ascii c in
  ((10 <=? n) && (n <=? 13) || (28 <=? n) && (n <=? 30) || (n =? 133))%N.

(** [str.lower] on one character: A..Z and the upper-case letters of
    U+00C0..U+00DE (all but the multiplication sign U+00D7). *)
Definition lower_char (c : ascii) : ascii :=
  let n := N_of_ascii c in
  if ((65 <=? n) && (n <=? 90)
      || (192 <=? n) && (n <=? 222) && negb (n =? 215))%N
  then ascii_of_N (n + 32) else c.

Definition lower (s : str) : str := map lower_char s.

(** [s.startswith(prefix)] *)
Fixpoint startswith (s prefix : str) {struct prefix} : bool :=
  match prefix with
  | [] => true
  | p :: prefix' =>
      match s with
      | [] => false
      | c :: s' => Ascii.eqb c p && startswith s' prefix'
      end
  end.

Fixpoint str_eqb (a b : str) : bool :=
  match a, b with
  | [], [] => true
  | x :: a', y :: b' => Ascii.eqb x y && str_eqb a' b'
  | _, _ => false
  end.

(** Truth value of a string: non-empty. *)
Definition truthy (s : str) : bool :=
  match s with [] => false | _ :: _ => true end.

Fixpoint lstrip (s : str) : str :=
  match s with
  | [] => []
  | c :: s' => if isspace c then lstrip s' else s
  end.

Fixpoint rstrip (s : str) : str :=
  match s with
  | [] => []
  | c :: s' =>
      match rstrip s' with
      | [] => if isspace c then [] else [c]
      | r => c :: r
      end
  end.

(** [s.strip()] *)
Definition strip (s : str) : str := rstrip (lstrip s).

(** A line is blank when [line.strip()] is falsy. *)
Definition is_blank (line : str) : bool := negb (truthy (strip line)).

(** Put a character in front of the first line. *)
Definition push_char (c : ascii) (ls : list str) : list str :=
  match ls with
  | [] => [[c]]
  | l :: ls' => (c :: l) :: ls'
  end.

(** [s.splitlines()]: lines without their terminators; "\r\n" is one
    terminator; a terminator at the very end opens no further line. *)
Fixpoint splitlines (s : str) : list str :=
  match s with
  | [] => []
  | c :: s' =>
      if is_linebreak c then
        match s' with
        | d :: s'' =>
            if Ascii.eqb c CR && Ascii.eqb d LF
            then [] :: splitlines s''
            else [] :: splitlines s'
        | [] => [[]]
        end
      else push_char c (splitlines s')
  end.

(** [sep.join(ls)] *)
Fixpoint join (sep : str) (ls : list str) : str :=
  match ls with
  | [] => []
  | l :: ls' =>
      match ls' with
      | [] => l
      | _ :: _ => l ++ sep ++ join sep ls'
      end
  end.

(** [l[:k]] for an arbitrary integer [k]: a negative [k] counts from the
    end. *)
Definition slice_to {A} (l : list A) (k : Z) : list A :=
  if k <? 0 then firstn (length l - Z.to_nat (- k)) l
  else firstn (Z.to_nat k) l.

(** [str(z)] / [f"{z}"] for an integer. *)
Definition str_of_Z (z : Z) : str :=
  lit (NilZero.string_of_int (Z.to_int z)).

(** ** Exceptions and results *)

Inductive exn :=
| RuntimeError (msg : str)
| AttributeError
| TypeError
| KeyError (key : str)
| ValueError
| OverflowError.

(** Result of a computation that may raise, or leave through [sys.exit]. *)
Inductive outcome (A : Type) :=
| Ret (a : A)
| Exit (code : Z)
| Raise (e : exn).
Arguments Ret {A} a.
Arguments Exit {A} code.
Arguments Raise {A} e.

Definition obind {A B} (o : outcome A) (k : A -> outcome B) : outcome B :=
  match o with
  | Ret a => k a
  | Exit c => Exit c
  | Raise e => Raise e
  end.

Declare Scope outcome_scope.
Delimit Scope outcome_scope with outcome.
Notation "'let*' x ':=' m 'in' k" := (obind m (fun x => k))
  (at level 10, x name, m at level 100, k at level 200, only parsing)
  : outcome_scope.

(** ** Values decoded from JSON, and the Python run time *)

(** What the embedding takes from the Python run time without defining
    it: IEEE doubles with their arithmetic, and the conversions [float(i)],
    [int(x)] of a float and [int(s)] of a string ([None]: the conversion
    raises; [int] of a float raises OverflowError on an infinity and
    ValueError on a NaN). *)
Class PyRuntime := {
  float : Type;
  float_1e6 : float;
  float_of_int : Z -> option float;
  int_of_float : float -> outcome Z;
  int_of_str : str -> option Z;
  float_truthy : float -> bool;
  fdiv : float -> float -> float;
  fmul : float -> float -> float;
  fadd : float -> float -> float
}.

#[warnings="-register-all"]
Inductive json `{PyRuntime} : Type :=
| JNull
| JBool (b : bool)
| JInt (z : Z)
| JFloat (f : float)
| JStr (s : str)
| JArr (l : list json)
| JObj (m : gmap str json).

(** Python truth value of a decoded value ([not pricing]). *)
Definition json_truthy `{PyRuntime} (v : json) : bool :=
  match v with
  | JNull => false
  | JBool b => b
  | JInt z => negb (z =? 0)
  | JFloat f => float_truthy f
  | JStr s => truthy s
  | JArr l => match l with [] => false | _ :: _ => true end
  | JObj m => negb (bool_decide (m = ∅))
  end.

Definition of_option {A} (e : exn) (o : option A) : outcome A :=
  match o with Some a => Ret a | None => Raise e end.

(** [int(v)] *)
Definition py_int `{PyRuntime} (v : json) : outcome Z :=
  match v with
  | JInt z => Ret z
  | JBool b => Ret (if b then 1 else 0)
  | JFloat f => int_of_float f
  | JStr s => of_option ValueError (int_of_str s)
  | JNull | JArr _ | JObj _ => Raise TypeError
  end.

(** [d.get(key, default)] on a decoded value: only a dict has [get]. *)
Definition py_get `{PyRuntime} (d : json) (key : str) (default : json)
  : outcome json :=
  match d with
  | JObj m => Ret (match m !! key with Some v => v | None => default end)
  | _ => Raise AttributeError
  end.

(** [d[key]] for a string key. *)
Definition py_getitem `{PyRuntime} (d : json) (key : str) : outcome json :=
  match d with
  | JObj m => of_option (KeyError key) (m !! key)
  | _ => Raise TypeError
  end.

(** [x * v] for a float [x]. *)
Definition py_float_mul `{PyRuntime} (x : float) (v : json) : outcome float :=
  match v with
  | JFloat f => Ret (fmul x f)
  | JInt z => (let* y := of_option OverflowError (float_of_int z) in Ret (fmul x y))%outcome
  | JBool b =>
      (let* y := of_option OverflowError (float_of_int (if b then 1 else 0)) in
       Ret (fmul x y))%outcome
  | JNull | JStr _ | JArr _ | JObj _ => Raise TypeError
  end.

(** [i / 1e6] for an integer [i]. *)
Definition py_div_1e6 `{PyRuntime} (i : Z) : outcome float :=
  (let* x := of_option OverflowError (float_of_int i) in Ret (fdiv x float_1e6))%outcome.

(** ** Configuration (the module-level globals of gitai.py) *)

(** A prompt template, as [str.format] sees it: literal text and the
    four named fields. *)
Inductive tmpl_piece :=
| Text (s : str)
| Field_manual_rules
| Field_files_list
| Field_manual_block
| Field_diff_content.

Record config `{PyRuntime} := {
  API_URL : str;
  API_MODEL : str;
  API_KEY_ENV_NAME : str;
  LOCAL_MODEL : str;
  DEFAULT_BACKEND : str;
  MAX_DIFF_LINES : Z;
  MAX_LOCAL_CHANGED_LINES : Z;
  (** what the pricing file decodes to ([json.load]), whatever its shape;
      the empty mapping when there is no such file or it does not parse *)
  OPENAI_API_PRICING_PER_1M : json;
  prompt_tmpl : list tmpl_piece
}.

(** ** Diff reducers *)

Definition truncate_marker (omitted : Z) : str :=
  lit "[... truncated " ++ str_of_Z omitted ++ lit " diff lines ...]".

(** [truncate_diff]: returns [(text, truncated, total, kept)]. *)
Definition truncate_diff `{PyRuntime} (cfg : config) (diff_text : str)
  : str * bool * Z * Z :=
  let lines := splitlines diff_text in
  let total := Z.of_nat (length lines) in
  if total <=? MAX_DIFF_LINES cfg then (diff_text, false, total, total)
  else
    let kept := slice_to lines (MAX_DIFF_LINES cfg) in
    let omitted := total - MAX_DIFF_LINES cfg in
    let kept := kept ++ [lit ""] in
    let kept := kept ++ [truncate_marker omitted] in
    (join nl kept, true, total, MAX_DIFF_LINES cfg).

Definition simplify_marker (max_changed_lines : Z) : str :=
  lit "[... truncated after " ++ str_of_Z max_changed_lines
  ++ lit " changed lines ...]".

(** The test of the last [elif] of the loop. *)
Definition is_changed_line (line : str) : bool :=
  (startswith line (lit "+") || startswith line (lit "-"))
  && negb (startswith line (lit "+++") || startswith line (lit "---")).

(** The [for] loop of [simplify_diff_for_local], threading [out] and
    [changed]; the value is [out] when the loop is left. *)
Fixpoint simplify_loop (max_changed_lines : Z) (lines out : list str)
    (changed : Z) : list str :=
  match lines with
  | [] => out
  | line :: rest =>
      if startswith line (lit "diff --git ") then
        simplify_loop max_changed_lines rest (out ++ [line]) changed
      else if startswith line (lit "index ") || startswith line (lit "--- ")
              || startswith line (lit "+++ ") then
        simplify_loop max_changed_lines rest (out ++ [line]) changed
      else if startswith line (lit "@@") then
        simplify_loop max_changed_lines rest (out ++ [line]) changed
      else if is_changed_line line then
        let out := out ++ [line] in
        let changed := changed + 1 in
        if changed >=? max_changed_lines then
          let out := out ++ [lit ""] in
          out ++ [simplify_marker max_changed_lines]
        else simplify_loop max_changed_lines rest out changed
      else simplify_loop max_changed_lines rest out changed
  end.

Definition simplify_diff_for_local (diff_text : str) (max_changed_lines : Z)
  : str :=
  join nl (simplify_loop max_changed_lines (splitlines diff_text) [] 0).

(** ** Cost estimator *)

Definition estimate_cost_usd `{PyRuntime} (cfg : config) (model : str)
    (usage : json) : outcome (option (Z * Z * Z * float)) :=
  (let* pricing := py_get (OPENAI_API_PRICING_PER_1M cfg) model JNull in
   if negb (json_truthy pricing) then Ret None
   else
     let* v := py_get usage (lit "prompt_tokens") (JInt 0) in
     let* pt := py_int v in
     let* v := py_get usage (lit "completion_tokens") (JInt 0) in
     let* ct := py_int v in
     let* v := py_get usage (lit "total_tokens") (JInt (pt + ct)) in
     let* tt := py_int v in
     let* x := py_div_1e6 pt in
     let* p_in := py_getitem pricing (lit "input") in
     let* a := py_float_mul x p_in in
     let* y := py_div_1e6 ct in
     let* p_out := py_getitem pricing (lit "output") in
     let* b := py_float_mul y p_out in
     Ret (Some (pt, ct, tt, fadd a b)))%outcome.

(** ** Prompt builder *)

Definition render_piece (manual_rules files_list manual_block diff_content : str)
    (p : tmpl_piece) : str :=
  match p with
  | Text s => s
  | Field_manual_rules => manual_rules
  | Field_files_list => files_list
  | Field_manual_block => manual_block
  | Field_diff_content => diff_content
  end.

(** [build_prompt]; [prompt_tmpl cfg] is the template in force (the
    built-in one, or the content of prompt.txt). *)
Definition build_prompt `{PyRuntime} (cfg : config) (files : list str)
    (diff manual_topic : str) : str :=
  let manual_topic := strip manual_topic in
  let manual_rules :=
    if truthy manual_topic then
      lit "- You MUST include a one-line 'Topic:' line immediately AFTER the subject line."
      ++ nl ++ lit "- Format exactly: Topic: <manual_topic>" ++ nl
    else lit "" in
  let manual_block :=
    if truthy manual_topic then
      nl ++ lit "Manual commit message topic:" ++ nl ++ manual_topic ++ nl
    else lit "" in
  concat (map (render_piece manual_rules (join nl files) manual_block diff)
              (prompt_tmpl cfg)).

(** ** Message post-processor *)

(** The loops [for i, ln in enumerate(lines): if ln.strip(): ...; break],
    started at index [i]: the index and the line at the [break], [None]
    when the loop runs to its end. *)
Fixpoint first_nonblank (lines : list str) (i : nat) : option (nat * str) :=
  match lines with
  | [] => None
  | ln :: rest =>
      if truthy (strip ln) then Some (i, ln) else first_nonblank rest (S i)
  end.

(** The test [lines[j].strip().lower().startswith("topic:")]. *)
Definition is_topic_line (line : str) : bool :=
  startswith (lower (strip line)) (lit "topic:").

(** The [while] loop of [ensure_topic_line] over [lines[j:]]: [true] when
    the function returns from inside the loop. *)
Fixpoint topic_scan (lines_from_j : list str) : bool :=
  match lines_from_j with
  | [] => false
  | ln :: rest =>
      if truthy (strip ln) then
        if is_topic_line ln then true else topic_scan rest
      else false
  end.

Definition ensure_topic_line (msg manual_topic : str) : str :=
  let manual_topic := strip manual_topic in
  if negb (truthy manual_topic) then strip msg
  else
    let lines := splitlines msg in
    match lines with
    | [] => strip msg
    | _ :: _ =>
        match first_nonblank lines 0 with
        | None => strip msg
        | Some (subject_idx, _) =>
            if topic_scan (skipn (subject_idx + 1) lines) then strip msg
            else
              let new_lines :=
                firstn (subject_idx + 1) lines
                ++ [lit "Topic: " ++ manual_topic]
                ++ skipn (subject_idx + 1) lines in
              strip (join nl new_lines)
        end
    end.

(** The subject/body split of [main] (from [lines = msg.splitlines()] to
    [body = ...rstrip()]); [None] is the branch that reports an empty
    subject and leaves with [sys.exit(1)]. *)
Definition split_message (msg : str) : option (str * str) :=
  let lines := splitlines msg in
  let '(subject, subject_idx) :=
    match first_nonblank lines 0 with
    | Some (i, ln) => (ln, Some i)
    | None => (lit "", None)
    end in
  if negb (truthy (strip subject)) then None
  else
    let body_lines :=
      match subject_idx with
      | Some i => skipn (i + 1) lines
      | None => []
      end in
    let body_lines :=
      match body_lines with
      | first :: rest => if negb (truthy (strip first)) then rest else body_lines
      | [] => body_lines
      end in
    Some (subject, rstrip (join nl body_lines)).

(** ** Effects: traces of events *)

Inductive event `{PyRuntime} :=
| Stdout (text : str)
| Stderr (text : str)
| StdoutTiming (label : str)
| StdoutCost (cost : float)
| PrintHelp
| GitRead (cmd : list str)
| ApiCall (api_key prompt : str)
| LocalCall (prompt model : str)
| Input (prompt : str)
| GitCommit (cmd : list str) (git_editor : option str).

Definition prog `{PyRuntime} (A : Type) : Type := (list event * outcome A)%type.

Definition ret `{PyRuntime} {A} (a : A) : prog A := ([], Ret a).

Definition bind `{PyRuntime} {A B} (m : prog A) (k : A -> prog B) : prog B :=
  match m with
  | (t, Ret a) => let '(t', o) := k a in (t ++ t', o)
  | (t, Exit c) => (t, Exit c)
  | (t, Raise e) => (t, Raise e)
  end.

Definition emit `{PyRuntime} (e : event) : prog unit := ([e], Ret tt).
Definition sys_exit `{PyRuntime} {A} (code : Z) : prog A := ([], Exit code).
Definition raise `{PyRuntime} {A} (e : exn) : prog A := ([], Raise e).
Definition lift `{PyRuntime} {A} (o : outcome A) : prog A := ([], o).

Declare Scope prog_scope.
Delimit Scope prog_scope with prog.
Notation "'let!' x ':=' m 'in' k" := (bind m (fun x => k))
  (at level 10, x name, m at level 100, k at level 200, only parsing)
  : prog_scope.
Notation "'do!' m 'in' k" := (bind m (fun _ => k))
  (at level 10, m at level 100, k at level 200, only parsing)
  : prog_scope.

Definition info `{PyRuntime} (msg : str) : prog unit :=
  emit (Stdout (lit "[info] " ++ msg)).
Definition warn `{PyRuntime} (msg : str) : prog unit :=
  emit (Stdout (lit "[warn] " ++ msg)).
Definition error `{PyRuntime} (msg : str) : prog unit :=
  emit (Stderr (lit "[error] " ++ msg)).

(** ** The collaborators *)

(** The answers of everything outside the script during one run. *)
Record world `{PyRuntime} := {
  arg_command : option str;
  arg_local : bool;
  arg_api : bool;
  arg_manual_message : str;
  git_diff_cached : option str;
  git_diff_name_only : option str;
  getenv : str -> option str;
  api_reply : str -> str -> str + (str * json);
  local_reply : str -> str -> exn + (str * json * bool);
  stdin_line : str;
  os_name : str;
  git_commit_returncode : list str -> option str -> Z
}.

(** [run(cmd)] inside [try ... except CalledProcessError]: the reply is
    [None] when git fails. *)
Definition get_staged_diff `{PyRuntime} (w : world) : prog str :=
  (do! emit (GitRead [lit "git"; lit "diff"; lit "--cached"]) in
   ret (match git_diff_cached w with Some out => out | None => lit "" end))%prog.

Definition get_staged_files `{PyRuntime} (w : world) : prog (list str) :=
  (do! emit (GitRead [lit "git"; lit "diff"; lit "--cached"; lit "--name-only"]) in
   ret (match git_diff_name_only w with
        | Some out => List.filter (fun f => truthy (strip f)) (splitlines out)
        | None => []
        end))%prog.

(** [call_api]: one POST; every failure surfaces as a [RuntimeError]; the
    content of the first choice is stripped. *)
Definition call_api `{PyRuntime} (w : world) (api_key prompt : str)
  : prog (str * json) :=
  (do! emit (ApiCall api_key prompt) in
   match api_reply w api_key prompt with
   | inl err => raise (RuntimeError err)
   | inr (content, usage) => ret (strip content, usage)
   end)%prog.

(** [generate_commit_message_local] of ollama_backend.py, as one call of
    the local collaborator; the content is stripped by [call_ollama_chat]. *)
Definition generate_commit_message_local `{PyRuntime} (w : world)
    (prompt model : str) : prog (str * json * bool) :=
  (do! emit (LocalCall prompt model) in
   match local_reply w prompt model with
   | inl e => raise e
   | inr (content, usage, started) => ret (strip content, usage, started)
   end)%prog.

(** ** main *)

(** The tail of [main]: ask for confirmation, split the message and run
    [git commit]. *)
Definition confirm_and_commit `{PyRuntime} (w : world) (msg : str) : prog unit :=
  (do! emit (Input (lit "Accept this commit message? [y]es/[n]o/[e]dit: ")) in
   let choice := lower (strip (stdin_line w)) in
   if str_eqb choice (lit "y") || str_eqb choice (lit "e") then
     match split_message msg with
     | None =>
         do! error (lit "Empty commit subject from model output") in
         sys_exit 1
     | Some (subject, body) =>
         let cmd := [lit "git"; lit "commit"; lit "-m"; subject] in
         let cmd := if truthy (strip body) then cmd ++ [lit "-m"; body] else cmd in
         let cmd :=
           if str_eqb choice (lit "e")
           then (cmd ++ [lit "--edit"]) ++ [lit "--cleanup=strip"]
           else cmd in
         let git_editor :=
           if str_eqb choice (lit "e") && str_eqb (os_name w) (lit "nt")
           then Some (lit "notepad") else None in
         do! emit (GitCommit cmd git_editor) in
         let returncode := git_commit_returncode w cmd git_editor in
         if negb (returncode =? 0) then
           do! error (lit "git commit failed with code " ++ str_of_Z returncode) in
           sys_exit returncode
         else info (lit "Commit created")
     end
   else warn (lit "Commit aborted"))%prog.

Definition main `{PyRuntime} (cfg : config) (w : world) : prog unit :=
  (if negb (match arg_command w with
            | Some c => str_eqb c (lit "commit")
            | None => false
            end)
   then
     do! emit PrintHelp in
     sys_exit 0
   else
     let use_local :=
       if arg_local w then true
       else if arg_api w then false
       else str_eqb (DEFAULT_BACKEND cfg) (lit "local") in
     let! diff := get_staged_diff w in
     let! files := get_staged_files w in
     if negb (truthy (strip diff)) then
       do! error (lit "No staged changes. Run: git add <files>") in
       sys_exit 1
     else
       let '(diff_used, truncated, total, kept) := truncate_diff cfg diff in
       do! (if truncated
            then warn (lit "Large diff: " ++ str_of_Z total
                       ++ lit " lines, using first " ++ str_of_Z kept)
            else info (lit "Staged diff size: " ++ str_of_Z total ++ lit " lines")) in
       let diff_for_prompt :=
         if use_local
         then simplify_diff_for_local diff (MAX_LOCAL_CHANGED_LINES cfg)
         else diff_used in
       let prompt := build_prompt cfg files diff_for_prompt (arg_manual_message w) in
       do! info (lit "Generating commit message... Please be patient, this may take 1-3 minutes depending on context length.") in
       let! reply :=
         (if use_local then
            do! info (lit "Using local Ollama backend (" ++ LOCAL_MODEL cfg ++ lit ")") in
            let! r := generate_commit_message_local w prompt (LOCAL_MODEL cfg) in
            let '(msg, usage, started) := r in
            do! (if started : bool
                 then info (lit "Ollama server started in a separate cmd window")
                 else ret tt) in
            do! emit (StdoutTiming (lit "Local timing (s)")) in
            ret (msg, usage)
          else
            match getenv w (API_KEY_ENV_NAME cfg) with
            | Some api_key =>
                if truthy api_key then
                  do! info (lit "Using remote API backend (" ++ API_MODEL cfg ++ lit ")") in
                  call_api w api_key prompt
                else
                  do! error (lit "Environment variable '" ++ API_KEY_ENV_NAME cfg
                             ++ lit "' not set. Please set it or change 'api_key_env_name' in config.txt") in
                  sys_exit 1
            | None =>
                do! error (lit "Environment variable '" ++ API_KEY_ENV_NAME cfg
                           ++ lit "' not set. Please set it or change 'api_key_env_name' in config.txt") in
                sys_exit 1
            end) in
       let '(msg, usage) := reply in
       let msg := ensure_topic_line msg (arg_manual_message w) in
       do! emit (Stdout (nl ++ lit "========== AI-generated commit message ==========" ++ nl)) in
       do! emit (Stdout msg) in
       do! emit (Stdout (nl ++ lit "================================================" ++ nl)) in
       do! emit (StdoutTiming (lit "LLM Inference time")) in
       do! (if negb use_local then
              let! est := lift (estimate_cost_usd cfg (API_MODEL cfg) usage) in
              match est with
              | Some (pt, ct, total_tokens, cost) =>
                  do! info (lit "Tokens: prompt=" ++ str_of_Z pt
                            ++ lit ", completion=" ++ str_of_Z ct
                            ++ lit ", total=" ++ str_of_Z total_tokens) in
                  emit (StdoutCost cost)
              | None => ret tt
              end
            else ret tt) in
       confirm_and_commit w msg)%prog.

(** A backend call: the remote API or the local backend. *)
Definition is_backend_call `{PyRuntime} (e : event) : bool :=
  match e with
  | ApiCall _ _ | LocalCall _ _ => true
  | _ => false
  end.

Definition is_git_commit `{PyRuntime} (e : event) : bool :=
  match e with
  | GitCommit _ _ => true
  | _ => false
  end.

(* ================================================================== *)
(** * Part II: vocabulary of the statements                            *)
(* ================================================================== *)

(** ** Lines *)

(** A line holds no line terminator. *)
Definition nobreak (l : str) : Prop := Forall (fun c => is_linebreak c = false) l.

(** The lines of [lstrip s], from the lines of [s]: leading blank lines
    go, and the first other line loses its leading whitespace. *)
Fixpoint lstrip_lines (ls : list str) : list str :=
  match ls with
  | [] => []
  | l :: ls' => if is_blank l then lstrip_lines ls' else lstrip l :: ls'
  end.

(** The lines of [rstrip s], from the lines of [s]. *)
Fixpoint rstrip_lines (ls : list str) : list str :=
  match ls with
  | [] => []
  | l :: ls' =>
      match rstrip_lines ls' with
      | [] => if is_blank l then [] else [rstrip l]
      | r => l :: r
      end
  end.

(** At most one leading blank line removed. *)
Definition drop_leading_blank (lines : list str) : list str :=
  match lines with
  | l :: rest => if is_blank l then rest else lines
  | [] => []
  end.

(** ** Topic lines *)

(** A "Topic:" line sits among the contiguous non-blank lines at the head
    of [rest] (the lines that follow the subject). *)
Definition topic_in_block (rest : list str) : Prop :=
  exists block l tail,
    rest = block ++ l :: tail
    /\ Forall (fun x => is_blank x = false) block
    /\ is_topic_line l = true.

(** There is a subject, and no "Topic:" line in the block after it. *)
Fixpoint topic_missing (lines : list str) : bool :=
  match lines with
  | [] => false
  | l :: ls => if is_blank l then topic_missing ls else negb (topic_scan ls)
  end.

(** ** Diff lines *)

Definition is_file_header (line : str) : bool :=
  startswith line (lit "diff --git ") || startswith line (lit "index ")
  || startswith line (lit "--- ") || startswith line (lit "+++ ").

Definition is_hunk_header (line : str) : bool := startswith line (lit "@@").

Definition is_header_line (line : str) : bool :=
  is_file_header line || is_hunk_header line.

(** The lines the digest takes over from the diff. *)
Definition is_kept_line (line : str) : bool :=
  is_header_line line || is_changed_line line.

(** Number of lines that pass the last test of the loop. *)
Definition count_changed (lines : list str) : nat :=
  length (List.filter is_changed_line lines).

(** The lines up to and including the [k]-th line that passes that test
    (all of them when there are fewer; the first such line ends it when
    [k] is 0). *)
Fixpoint upto_changed (k : nat) (lines : list str) : list str :=
  match lines with
  | [] => []
  | l :: rest =>
      if is_changed_line l then
        match k with
        | S (S _ as k') => l :: upto_changed k' rest
        | _ => [l]
        end
      else l :: upto_changed k rest
  end.

(** The two marker lines, present when there is a [k]-th such line. *)
Definition marker_lines (m : Z) (k : nat) (lines : list str) : list str :=
  if (Nat.max 1 k <=? count_changed lines)%nat
  then [lit ""; simplify_marker m] else [].

(** *** Added and removed lines, in the words of the description

    These do not come from the loop of [simplify_diff_for_local]; they
    say, character by character, which lines of a diff the statements
    call content lines and which of them the digest counts. *)

(** The add marker or the remove marker. *)
Definition is_marker (c : ascii) : bool :=
  Ascii.eqb c "+" || Ascii.eqb c "-".

(** An added or removed content line: it starts with a marker and is not
    one of the two path-header lines ("--- " and "+++ "). *)
Definition is_content_line (line : str) : bool :=
  match line with
  | c :: _ =>
      is_marker c
      && negb (startswith line (lit "--- ") || startswith line (lit "+++ "))
  | [] => false
  end.

(** A counted line: it starts with a marker that is not followed by two
    more of the same, that is, with "+" or "-" but not with "+++" or
    "---".  A removed line whose own text starts with "--" (it reads
    "---..." in the diff) is a content line that is not counted. *)
Definition is_counted_line (line : str) : bool :=
  match line with
  | c :: rest =>
      is_marker c
      && negb match rest with
              | c2 :: c3 :: _ => Ascii.eqb c2 c && Ascii.eqb c3 c
              | _ => false
              end
  | [] => false
  end.

(** A header line or a counted line. *)
Definition is_digest_line (line : str) : bool :=
  is_header_line line || is_counted_line line.

(** How many lines satisfy [P]. *)
Definition count_lines (P : str -> bool) (lines : list str) : nat :=
  length (List.filter P lines).

(** ** Runs of main *)

(** What [get_staged_diff] returns in world [w]. *)
Definition staged_diff `{PyRuntime} (w : world) : str :=
  match git_diff_cached w with Some out => out | None => lit "" end.

(** The user answers "y" or "e". *)
Definition accepted `{PyRuntime} (w : world) : bool :=
  let choice := lower (strip (stdin_line w)) in
  str_eqb choice (lit "y") || str_eqb choice (lit "e").

(** ** A sample run time, configuration and world

    Used to run the definitions on concrete inputs: exact rational
    arithmetic stands in for doubles, and [int] of a string reads an
    optional minus sign and decimal digits. *)

Definition sample_runtime : PyRuntime := {|
  float := Q;
  float_1e6 := inject_Z 1000000;
  float_of_int := fun z => Some (inject_Z z);
  int_of_float := fun q => Ret (Z.quot (Qnum q) (Zpos (Qden q)));
  int_of_str := fun s =>
    option_map Z.of_int (NilZero.int_of_string (string_of_list_ascii (strip s)));
  float_truthy := fun q => negb (Qeq_bool q 0);
  fdiv := Qdiv;
  fmul := Qmult;
  fadd := Qplus
|}.

Definition sample_pricing : gmap str (@json sample_runtime) :=
  <[lit "gpt-5-mini" :=
      @JObj sample_runtime
        (<[lit "input" := @JFloat sample_runtime (25 # 100)]>
           (<[lit "output" := @JFloat sample_runtime (2 # 1)]> ∅))]> ∅.

(** The defaults of the script, with a given line limit and a given
    content of the pricing file. *)
Definition sample_config_with (max_diff_lines : Z)
    (pricing_file : @json sample_runtime) : @config sample_runtime := {|
  API_URL := lit "https://api.openai.com/v1/chat/completions";
  API_MODEL := lit "gpt-5-mini";
  API_KEY_ENV_NAME := lit "OPENAI_API_KEY";
  LOCAL_MODEL := lit "gpt-oss:20b";
  DEFAULT_BACKEND := lit "api";
  MAX_DIFF_LINES := max_diff_lines;
  MAX_LOCAL_CHANGED_LINES := 180;
  OPENAI_API_PRICING_PER_1M := pricing_file;
  prompt_tmpl := [Field_manual_rules; Text (lit "Files:"); Text nl;
                  Field_files_list; Field_manual_block;
                  Text (lit "STAGED DIFF:"); Text nl; Field_diff_content]
|}.

Definition sample_config (max_diff_lines : Z) : @config sample_runtime :=
  sample_config_with max_diff_lines (@JObj sample_runtime sample_pricing).

(** A run of "gitai commit" with nothing staged ([staged] is what
    "git diff --cached" prints) and a user who answers [answer]. *)
Definition sample_world (staged answer : str) : @world sample_runtime := {|
  arg_command := Some (lit "commit");
  arg_local := false;
  arg_api := false;
  arg_manual_message := lit "";
  git_diff_cached := Some staged;
  git_diff_name_only := Some (lit "");
  getenv := fun _ => Some (lit "sk-test");
  api_reply := fun _ _ => inr (lit "fix: x", @JNull sample_runtime);
  local_reply := fun _ _ => inr (lit "fix: x", @JNull sample_runtime, false);
  stdin_line := answer;
  os_name := lit "posix";
  git_commit_returncode := fun _ _ => 0
|}.

(** ** Runs of main, continued *)

(** The backend choice of [main]: an explicit flag wins, then the
    configured default. *)
Definition uses_local `{PyRuntime} (cfg : config) (w : world) : bool :=
  if arg_local w then true
  else if arg_api w then false
  else str_eqb (DEFAULT_BACKEND cfg) (lit "local").

Definition is_api_call `{PyRuntime} (e : event) : bool :=
  match e with ApiCall _ _ => true | _ => false end.

Definition is_local_call `{PyRuntime} (e : event) : bool :=
  match e with LocalCall _ _ => true | _ => false end.

Definition is_input `{PyRuntime} (e : event) : bool :=
  match e with Input _ => true | _ => false end.

(** The trace of [m] holds at most [n] events selected by [P]. *)
Definition at_most `{PyRuntime} {A} (P : event -> bool) (n : nat) (m : prog A)
  : Prop :=
  (length (List.filter P (fst m)) <= n)%nat.

(** ** The local backend (ollama_backend.py)

    The module talks to three collaborators: the [ollama] command line
    (list, pull, stop), the liveness endpoint of the server and its chat
    endpoint.  Their answers are read from [Ollama.world]; the liveness
    probes are answered in order from a list that the run consumes, so
    that a server can come up while the script waits. *)

(** [s.split()]: the maximal runs of non-whitespace characters. *)
Fixpoint split_ws (s : str) : list str :=
  match s with
  | [] => []
  | c :: s' =>
      if isspace c then split_ws s'
      else
        match s' with
        | [] => [[c]]
        | d :: _ => if isspace d then [c] :: split_ws s' else push_char c (split_ws s')
        end
  end.

Module Ollama.

Inductive error :=
| CalledProcessError
| RuntimeError (msg : str)
| OtherError (name : str).

Inductive result (A : Type) :=
| Ok (a : A)
| Err (e : error).
Arguments Ok {A} a.
Arguments Err {A} e.

Inductive event :=
| ListModels
| Pull (model : str)
| Probe
| StartServer
| Sleep
| Chat (prompt model : str)
| Stop (model : str).

Record world `{PyRuntime} := {
  (** output of "ollama list"; [None]: the command exits with a non-zero
      status (CalledProcessError, the one failure the code catches) *)
  list_reply : option str;
  (** "ollama pull" succeeds *)
  pull_ok : bool;
  (** how many rounds of the waiting loop fit before its deadline *)
  wait_rounds : nat;
  (** the chat endpoint: an error, or the content of the first choice and
      the usage entry of the reply, if it has one *)
  chat_reply : str -> str -> error + (str * option json)
}.

(** The state of a run: the answers the coming liveness probes will get
    (an HTTP status, or [None] when the request fails). *)
Definition probes := list (option Z).

Definition prog (A : Type) : Type :=
  probes -> list event * probes * result A.

Definition ret {A} (a : A) : prog A := fun s => ([], s, Ok a).

Definition bind {A B} (m : prog A) (k : A -> prog B) : prog B :=
  fun s =>
    let '(t, s', r) := m s in
    match r with
    | Ok a => let '(t', s'', r') := k a s' in (t ++ t', s'', r')
    | Err e => (t, s', Err e)
    end.

Definition emit (e : event) : prog unit := fun s => ([e], s, Ok tt).
Definition raise {A} (e : error) : prog A := fun s => ([], s, Err e).

Declare Scope ollama_scope.
Delimit Scope ollama_scope with ollama.
Notation "'let^' x ':=' m 'in' k" := (bind m (fun x => k))
  (at level 10, x name, m at level 100, k at level 200, only parsing)
  : ollama_scope.
Notation "'do^' m 'in' k" := (bind m (fun _ => k))
  (at level 10, m at level 100, k at level 200, only parsing)
  : ollama_scope.

(** [_is_server_up]: one probe; up when the status is 2xx; any failure of
    the request counts as down.  A run that has used up its list of
    answers finds the server down. *)
Definition _is_server_up : prog bool :=
  fun s =>
    match s with
    | [] => ([Probe], [], Ok false)
    | Some status :: s' => ([Probe], s', Ok ((200 <=? status) && (status <? 300)))
    | None :: s' => ([Probe], s', Ok false)
    end.

Definition _start_server_cmd_window : prog unit := emit StartServer.

(** [_wait_for_server]: the loop runs while the clock is within the
    deadline, [rounds] times at most. *)
Fixpoint _wait_for_server (rounds : nat) : prog unit :=
  match rounds with
  | O =>
      raise (RuntimeError
               (lit "Ollama server did not become ready (http://localhost:11434)"))
  | S rounds' =>
      (let^ up := _is_server_up in
       if up : bool then ret tt
       else do^ emit Sleep in _wait_for_server rounds')%ollama
  end.

(** The set [have] built by [_pull_if_missing]: the first field of every
    line of the listing but the first. *)
Definition installed (out : str) : gset str :=
  fold_right
    (fun line have =>
       match split_ws line with
       | part :: _ => {[ strip part ]} ∪ have
       | [] => have
       end)
    ∅ (tl (splitlines out)).

Definition _pull_if_missing `{PyRuntime} (w : world) (model : str) : prog unit :=
  (do^ emit ListModels in
   let out := match list_reply w with Some out => out | None => lit "" end in
   let have := installed out in
   if bool_decide (model ∈ have) then ret tt
   else
     do^ emit (Pull model) in
     if pull_ok w then ret tt else raise CalledProcessError)%ollama.

(** [call_ollama_chat]: the content is stripped; a missing or falsy usage
    entry becomes the empty mapping. *)
Definition call_ollama_chat `{PyRuntime} (w : world) (prompt model : str)
  : prog (str * json) :=
  (do^ emit (Chat prompt model) in
   match chat_reply w prompt model with
   | inl e => raise e
   | inr (content, usage) =>
       let usage :=
         match usage with
         | Some u => if json_truthy u then u else JObj ∅
         | None => JObj ∅
         end in
       ret (strip content, usage)
   end)%ollama.

(** [generate_commit_message_local], without the timing record: the
    message, the usage and whether the server was started. *)
Definition generate_commit_message_local `{PyRuntime} (w : world)
    (prompt model : str) : prog (str * json * bool) :=
  (do^ _pull_if_missing w model in
   let^ up := _is_server_up in
   let^ started_server :=
     (if negb up then
        do^ _start_server_cmd_window in
        do^ _wait_for_server (wait_rounds w) in
        ret true
      else ret false) in
   let^ reply := call_ollama_chat w prompt model in
   let '(msg, usage) := reply in
   do^ emit (Stop model) in
   ret (msg, usage, started_server))%ollama.

End Ollama.

(** A line of the listing names [model] in its first field. *)
Definition listed (out model : str) : Prop :=
  exists line, In line (tl (splitlines out)) /\ hd_error (split_ws line) = Some model.

(** The answer of a liveness probe counts as up. *)
Definition probe_up (answer : option Z) : bool :=
  match answer with
  | Some status => (200 <=? status) && (status <? 300)
  | None => false
  end.

(** The events of [n] rounds of the waiting loop that find the server
    down. *)
Definition rounds_trace (n : nat) : list Ollama.event :=
  concat (repeat [Ollama.Probe; Ollama.Sleep] n).

(** ** Sample worlds for the further properties *)

(** A run of "gitai commit" with one added line staged. *)
Definition sample_world_with (use_local : bool) (api_key : option str)
    (api_answer : str + (str * @json sample_runtime))
    (local_answer : exn + (str * @json sample_runtime * bool))
    (answer : str) : @world sample_runtime := {|
  arg_command := Some (lit "commit");
  arg_local := use_local;
  arg_api := false;
  arg_manual_message := lit "";
  git_diff_cached := Some (lit "+a");
  git_diff_name_only := Some (lit "a.txt");
  getenv := fun _ => api_key;
  api_reply := fun _ _ => api_answer;
  local_reply := fun _ _ => local_answer;
  stdin_line := answer;
  os_name := lit "posix";
  git_commit_returncode := fun _ _ => 1
|}.

Definition sample_ollama (listing : option str) (pull : bool) (rounds : nat)
    (answer : Ollama.error + (str * option (@json sample_runtime)))
  : @Ollama.world sample_runtime := {|
  Ollama.list_reply := listing;
  Ollama.pull_ok := pull;
  Ollama.wait_rounds := rounds;
  Ollama.chat_reply := fun _ _ => answer
|}.

(** A listing as "ollama list" prints it. *)
Definition sample_listing : str :=
  lit "NAME           ID      SIZE" ++ nl ++ lit "llama3:8b      365c0b  4.7 GB" ++ nl
  ++ lit "gpt-oss:20b    aa4295  13 GB".

(* ================================================================== *)
(** * Part III: lemmas                                                 *)
(* ================================================================== *)

(** ** Characters *)

Ltac each_char c := destruct c as [[] [] [] [] [] [] [] []].

Lemma linebreak_isspace c : is_linebreak c = true -> isspace c = true.
Proof. each_char c; vm_compute; congruence. Qed.

Lemma isspace_not_linebreak c : isspace c = false -> is_linebreak c = false.
Proof.
  intros H. destruct (is_linebreak c) eqn:E; [|reflexivity].
  apply linebreak_isspace in E. congruence.
Qed.

(** ** lstrip, rstrip, strip *)

Lemma rstrip_nonspace c s : isspace c = false -> rstrip (c :: s) = c :: rstrip s.
Proof. intros H. simpl. rewrite H. destruct (rstrip s); reflexivity. Qed.

Lemma rstrip_space c s :
  isspace c = true ->
  rstrip (c :: s) = match rstrip s with [] => [] | _ :: _ => c :: rstrip s end.
Proof. intros H. simpl. rewrite H. destruct (rstrip s); reflexivity. Qed.

Lemma rstrip_nil_iff s : rstrip s = [] <-> forallb isspace s = true.
Proof.
  induction s as [|c s IH]; simpl; [tauto|].
  destruct (rstrip s) eqn:E, (isspace c); simpl; split; intros H; try discriminate;
    try reflexivity; try (apply IH; reflexivity).
  - apply IH in H. discriminate.
Qed.

Lemma lstrip_nil_iff s : lstrip s = [] <-> forallb isspace s = true.
Proof.
  induction s as [|c s IH]; simpl; [tauto|].
  destruct (isspace c); simpl; [exact IH|]. split; discriminate.
Qed.

Lemma lstrip_idem s : lstrip (lstrip s) = lstrip s.
Proof.
  induction s as [|c s IH]; simpl; [reflexivity|].
  destruct (isspace c) eqn:E; [exact IH|]. simpl. rewrite E. reflexivity.
Qed.

Lemma rstrip_idem s : rstrip (rstrip s) = rstrip s.
Proof.
  induction s as [|c s IH]; simpl; [reflexivity|].
  destruct (rstrip s) as [|d r] eqn:E.
  - destruct (isspace c) eqn:Ec; simpl; [reflexivity|]. rewrite Ec. reflexivity.
  - destruct (isspace c) eqn:Ec.
    + rewrite (rstrip_space c _ Ec), IH. reflexivity.
    + rewrite (rstrip_nonspace c _ Ec), IH. reflexivity.
Qed.

Lemma lstrip_nonspace c s : isspace c = false -> lstrip (c :: s) = c :: s.
Proof. intros H. simpl. rewrite H. reflexivity. Qed.

Lemma lstrip_space c s : isspace c = true -> lstrip (c :: s) = lstrip s.
Proof. intros H. simpl. rewrite H. reflexivity. Qed.

Lemma lstrip_rstrip s : lstrip (rstrip s) = rstrip (lstrip s).
Proof.
  induction s as [|c s IH]; [reflexivity|].
  destruct (isspace c) eqn:Ec.
  - rewrite (lstrip_space c s Ec), <- IH, (rstrip_space c s Ec).
    destruct (rstrip s); [reflexivity|]. rewrite (lstrip_space c _ Ec). reflexivity.
  - rewrite (lstrip_nonspace c s Ec), (rstrip_nonspace c s Ec).
    apply (lstrip_nonspace c _ Ec).
Qed.

Lemma strip_idem s : strip (strip s) = strip s.
Proof.
  unfold strip. rewrite lstrip_rstrip, lstrip_idem, rstrip_idem. reflexivity.
Qed.

Lemma strip_nil_iff s : strip s = [] <-> forallb isspace s = true.
Proof.
  unfold strip. rewrite rstrip_nil_iff.
  induction s as [|c s IH]; simpl; [tauto|].
  destruct (isspace c) eqn:E; simpl; [exact IH|]. rewrite E. simpl. tauto.
Qed.

Lemma is_blank_forallb l : is_blank l = forallb isspace l.
Proof.
  unfold is_blank. destruct (strip l) eqn:E; simpl.
  - symmetry. apply strip_nil_iff. exact E.
  - destruct (forallb isspace l) eqn:F; [|reflexivity].
    apply strip_nil_iff in F. congruence.
Qed.

Lemma truthy_strip l : truthy (strip l) = negb (is_blank l).
Proof. unfold is_blank. rewrite negb_involutive. reflexivity. Qed.

Lemma strip_lstrip s : strip (lstrip s) = strip s.
Proof. unfold strip. rewrite lstrip_idem. reflexivity. Qed.

Lemma strip_rstrip s : strip (rstrip s) = strip s.
Proof. unfold strip. rewrite lstrip_rstrip, rstrip_idem. reflexivity. Qed.

Lemma is_blank_lstrip s : is_blank (lstrip s) = is_blank s.
Proof. unfold is_blank. rewrite strip_lstrip. reflexivity. Qed.

Lemma is_blank_rstrip s : is_blank (rstrip s) = is_blank s.
Proof. unfold is_blank. rewrite strip_rstrip. reflexivity. Qed.

(** ** splitlines and join *)

Lemma splitlines_crlf s : splitlines (CR :: LF :: s) = [] :: splitlines s.
Proof. reflexivity. Qed.

Lemma splitlines_break c s :
  is_linebreak c = true -> (c = CR -> hd_error s <> Some LF) ->
  splitlines (c :: s) = [] :: splitlines s.
Proof.
  intros Hb Hcr. simpl. rewrite Hb. destruct s as [|d s]; [reflexivity|].
  destruct (Ascii.eqb c CR) eqn:E1; [|reflexivity].
  destruct (Ascii.eqb d LF) eqn:E2; [|reflexivity].
  apply Ascii.eqb_eq in E1, E2. subst. exfalso. apply Hcr; reflexivity.
Qed.

Lemma splitlines_char c s :
  is_linebreak c = false -> splitlines (c :: s) = push_char c (splitlines s).
Proof. intros H. simpl. rewrite H. reflexivity. Qed.

Lemma splitlines_ind (P : str -> Prop) :
  P [] ->
  (forall s, P s -> P (CR :: LF :: s)) ->
  (forall c s, is_linebreak c = true -> (c = CR -> hd_error s <> Some LF) ->
               P s -> P (c :: s)) ->
  (forall c s, is_linebreak c = false -> P s -> P (c :: s)) ->
  forall s, P s.
Proof.
  intros Hnil Hcrlf Hbrk Hchr s.
  assert (H : P s /\ forall c, P (c :: s)); [|exact (proj1 H)].
  induction s as [|d s [IH1 IH2]].
  - split; [exact Hnil|]. intros c. destruct (is_linebreak c) eqn:E.
    + apply Hbrk; [exact E | discriminate | exact Hnil].
    + apply Hchr; [exact E | exact Hnil].
  - split; [apply IH2|]. intros c. destruct (is_linebreak c) eqn:E.
    + destruct (ascii_dec c CR) as [->|Hc].
      * destruct (ascii_dec d LF) as [->|Hd].
        -- apply Hcrlf, IH1.
        -- apply Hbrk; [exact E | simpl; congruence | apply IH2].
      * apply Hbrk; [exact E | congruence | apply IH2].
    + apply Hchr; [exact E | apply IH2].
Qed.

Lemma push_char_not_nil c ls : push_char c ls <> [].
Proof. destruct ls; discriminate. Qed.

Lemma splitlines_nil_iff s : splitlines s = [] <-> s = [].
Proof.
  split; [|intros ->; reflexivity].
  destruct s as [|c s]; [reflexivity|]. simpl.
  destruct (is_linebreak c).
  - destruct s as [|d s]; [discriminate|].
    destruct (Ascii.eqb c CR && Ascii.eqb d LF); discriminate.
  - intros H. exfalso. exact (push_char_not_nil _ _ H).
Qed.

Lemma splitlines_nobreak s : Forall nobreak (splitlines s).
Proof.
  induction s as [| s IH | c s Hb Hcr IH | c s Hc IH] using splitlines_ind.
  - constructor.
  - rewrite splitlines_crlf. constructor; [constructor | exact IH].
  - rewrite splitlines_break by assumption. constructor; [constructor | exact IH].
  - rewrite splitlines_char by assumption.
    destruct (splitlines s) as [|l ls]; simpl.
    + repeat constructor. exact Hc.
    + inversion IH; subst. constructor; [constructor; assumption | assumption].
Qed.

(** A line without terminators, followed by "\n", is the first line. *)
Lemma splitlines_line l s :
  nobreak l -> splitlines (l ++ LF :: s) = l :: splitlines s.
Proof.
  intros Hl. induction Hl as [|c l Hc Hl IH]; simpl app.
  - apply splitlines_break; [reflexivity | discriminate].
  - rewrite splitlines_char, IH by assumption. reflexivity.
Qed.

Lemma splitlines_one l : nobreak l -> l <> [] -> splitlines l = [l].
Proof.
  intros Hl. induction Hl as [|c l Hc Hl IH]; intros Hne; [congruence|].
  rewrite splitlines_char by assumption.
  destruct l as [|d l]; [reflexivity|]. rewrite IH by discriminate. reflexivity.
Qed.

Lemma join_cons_nl l ls : ls <> [] -> join nl (l :: ls) = l ++ LF :: join nl ls.
Proof. destruct ls; [congruence | reflexivity]. Qed.

(** Lines without terminators survive a round trip through "\n".join and
    splitlines, provided the last one is not empty. *)
Lemma splitlines_join ls :
  Forall nobreak ls -> List.last ls [LF] <> [] -> splitlines (join nl ls) = ls.
Proof.
  induction ls as [|l ls IH]; intros Hnb Hlast; [reflexivity|].
  inversion Hnb as [|? ? Hl Hls]; subst.
  destruct ls as [|l' ls].
  - simpl join. apply splitlines_one; assumption.
  - rewrite join_cons_nl by discriminate.
    rewrite splitlines_line by assumption. f_equal. apply IH; assumption.
Qed.

Lemma splitlines_join_app pre x xs :
  Forall nobreak pre ->
  splitlines (join nl (pre ++ x :: xs)) = pre ++ splitlines (join nl (x :: xs)).
Proof.
  induction pre as [|l pre IH]; intros Hnb; [reflexivity|].
  inversion Hnb; subst.
  replace ((l :: pre) ++ x :: xs) with (l :: (pre ++ x :: xs)) by reflexivity.
  rewrite join_cons_nl by (destruct pre; discriminate).
  rewrite splitlines_line, IH by assumption. reflexivity.
Qed.

(** ** The lines of a stripped string *)

Lemma is_blank_nil : is_blank [] = true.
Proof. reflexivity. Qed.

Lemma is_blank_cons c l : is_blank (c :: l) = isspace c && is_blank l.
Proof. rewrite !is_blank_forallb. reflexivity. Qed.

Lemma is_blank_rstrip_nil l : is_blank l = true -> rstrip l = [].
Proof. rewrite is_blank_forallb. apply rstrip_nil_iff. Qed.

Lemma nonblank_rstrip l : is_blank l = false -> rstrip l <> [].
Proof.
  rewrite is_blank_forallb. intros H E. apply rstrip_nil_iff in E. congruence.
Qed.

Lemma lstrip_lines_push c ls :
  is_linebreak c = false ->
  lstrip_lines (push_char c ls) =
  if isspace c then lstrip_lines ls else push_char c ls.
Proof.
  intros _. destruct ls as [|l ls]; cbn [push_char lstrip_lines];
    rewrite is_blank_cons; destruct (isspace c) eqn:Ec; cbn [andb].
  - reflexivity.
  - rewrite (lstrip_nonspace c _ Ec). reflexivity.
  - destruct (is_blank l); [reflexivity|].
    rewrite (lstrip_space c _ Ec). reflexivity.
  - rewrite (lstrip_nonspace c _ Ec). reflexivity.
Qed.

Lemma splitlines_lstrip s : splitlines (lstrip s) = lstrip_lines (splitlines s).
Proof.
  induction s as [| s IH | c s Hb Hcr IH | c s Hc IH] using splitlines_ind.
  - reflexivity.
  - rewrite splitlines_crlf. exact IH.
  - rewrite splitlines_break by assumption.
    rewrite (lstrip_space c s (linebreak_isspace c Hb)). exact IH.
  - rewrite splitlines_char, lstrip_lines_push by assumption.
    destruct (isspace c) eqn:Ec.
    + rewrite (lstrip_space c s Ec). exact IH.
    + rewrite (lstrip_nonspace c s Ec). apply splitlines_char, Hc.
Qed.

Lemma rstrip_lines_push c ls :
  rstrip_lines (push_char c ls) =
  match rstrip_lines ls with
  | [] => if isspace c then [] else [[c]]
  | r => push_char c r
  end.
Proof.
  destruct ls as [|l ls]; cbn [push_char rstrip_lines].
  - rewrite is_blank_cons, is_blank_nil, andb_true_r.
    destruct (isspace c) eqn:Ec; [reflexivity|].
    rewrite (rstrip_nonspace c _ Ec). reflexivity.
  - destruct (rstrip_lines ls) as [|r rs]; [|reflexivity].
    rewrite is_blank_cons. destruct (is_blank l) eqn:El.
    + rewrite andb_true_r. destruct (isspace c) eqn:Ec; [reflexivity|].
      rewrite (rstrip_nonspace c l Ec), (is_blank_rstrip_nil l El). reflexivity.
    + rewrite andb_false_r. cbn [push_char].
      destruct (isspace c) eqn:Ec.
      * rewrite (rstrip_space c l Ec).
        destruct (rstrip l) eqn:Er; [|reflexivity].
        exfalso. exact (nonblank_rstrip l El Er).
      * rewrite (rstrip_nonspace c l Ec). reflexivity.
Qed.

Lemma rstrip_hd s d r : rstrip s = d :: r -> hd_error s = Some d.
Proof.
  destruct s as [|c s]; [discriminate|]. simpl.
  destruct (rstrip s); [destruct (isspace c)|]; congruence.
Qed.

Lemma splitlines_rstrip s : splitlines (rstrip s) = rstrip_lines (splitlines s).
Proof.
  induction s as [| s IH | c s Hb Hcr IH | c s Hc IH] using splitlines_ind.
  - reflexivity.
  - rewrite splitlines_crlf. cbn [rstrip_lines]. rewrite is_blank_nil, <- IH.
    rewrite (rstrip_space CR), (rstrip_space LF) by reflexivity.
    destruct (rstrip s) as [|d r]; [reflexivity|].
    rewrite splitlines_crlf.
    destruct (splitlines (d :: r)) eqn:E; [|reflexivity].
    apply splitlines_nil_iff in E. discriminate.
  - rewrite splitlines_break by assumption. cbn [rstrip_lines].
    rewrite is_blank_nil, <- IH.
    rewrite (rstrip_space c s (linebreak_isspace c Hb)).
    destruct (rstrip s) as [|d r] eqn:Er; [reflexivity|].
    rewrite splitlines_break; [| exact Hb |].
    + destruct (splitlines (d :: r)) eqn:E; [|reflexivity].
      apply splitlines_nil_iff in E. discriminate.
    + intros Hc E. simpl in E. injection E as ->.
      apply Hcr; [exact Hc|]. exact (rstrip_hd s LF r Er).
  - rewrite splitlines_char, rstrip_lines_push, <- IH by assumption.
    simpl rstrip. destruct (rstrip s) as [|d r] eqn:Er.
    + simpl splitlines at 2. destruct (isspace c); [reflexivity|].
      simpl. rewrite Hc. reflexivity.
    + rewrite splitlines_char by assumption.
      destruct (splitlines (d :: r)) eqn:E; [|reflexivity].
      apply splitlines_nil_iff in E. discriminate.
Qed.

Lemma splitlines_strip s :
  splitlines (strip s) = rstrip_lines (lstrip_lines (splitlines s)).
Proof. unfold strip. rewrite splitlines_rstrip, splitlines_lstrip. reflexivity. Qed.

(** ** ensure_topic_line and split_message *)

Lemma firstn_subject {A} (pre : list A) x rest :
  firstn (length pre + 1) (pre ++ x :: rest) = pre ++ [x].
Proof. induction pre as [|a pre IH]; simpl; [reflexivity | rewrite IH; reflexivity]. Qed.

Lemma skipn_subject {A} (pre : list A) x rest :
  skipn (length pre + 1) (pre ++ x :: rest) = rest.
Proof. induction pre as [|a pre IH]; simpl; [reflexivity | exact IH]. Qed.

Lemma first_nonblank_spec lines i0 :
  match first_nonblank lines i0 with
  | Some (i, ln) =>
      exists pre rest, lines = pre ++ ln :: rest /\ forallb is_blank pre = true
                       /\ is_blank ln = false /\ i = (i0 + length pre)%nat
  | None => forallb is_blank lines = true
  end.
Proof.
  revert i0. induction lines as [|l ls IH]; intros i0; simpl; [reflexivity|].
  rewrite truthy_strip. destruct (is_blank l) eqn:El; simpl.
  - specialize (IH (S i0)). destruct (first_nonblank ls (S i0)) as [[i ln]|].
    + destruct IH as (pre & rest & -> & Hpre & Hln & ->).
      exists (l :: pre), rest. simpl. rewrite El, Hpre.
      repeat split; [exact Hln | lia].
    + exact IH.
  - exists [], ls. simpl. repeat split; [exact El | lia].
Qed.

Lemma first_nonblank_app pre ln rest i0 :
  forallb is_blank pre = true -> is_blank ln = false ->
  first_nonblank (pre ++ ln :: rest) i0 = Some ((i0 + length pre)%nat, ln).
Proof.
  revert i0. induction pre as [|l pre IH]; intros i0 Hpre Hln; simpl.
  - rewrite truthy_strip, Hln. simpl. f_equal. f_equal. lia.
  - simpl in Hpre. apply andb_prop in Hpre as [Hl Hpre].
    rewrite truthy_strip, Hl. simpl. rewrite IH by assumption.
    f_equal. f_equal. lia.
Qed.

Lemma first_nonblank_none lines i0 :
  forallb is_blank lines = true -> first_nonblank lines i0 = None.
Proof.
  revert i0. induction lines as [|l ls IH]; intros i0 H; simpl; [reflexivity|].
  simpl in H. apply andb_prop in H as [Hl Hls].
  rewrite truthy_strip, Hl. simpl. apply IH, Hls.
Qed.

Lemma topic_missing_app pre ln rest :
  forallb is_blank pre = true -> is_blank ln = false ->
  topic_missing (pre ++ ln :: rest) = negb (topic_scan rest).
Proof.
  induction pre as [|l pre IH]; intros Hpre Hln; simpl.
  - rewrite Hln. reflexivity.
  - simpl in Hpre. apply andb_prop in Hpre as [Hl Hpre]. rewrite Hl. auto.
Qed.

Lemma topic_missing_blank lines :
  forallb is_blank lines = true -> topic_missing lines = false.
Proof.
  induction lines as [|l ls IH]; simpl; [reflexivity|].
  intros H. apply andb_prop in H as [-> H]. auto.
Qed.

Lemma topic_scan_blank lines :
  forallb is_blank lines = true -> topic_scan lines = false.
Proof.
  destruct lines as [|l ls]; simpl; [reflexivity|].
  intros H. apply andb_prop in H as [Hl _]. rewrite truthy_strip, Hl. reflexivity.
Qed.

(** The two ways out of [ensure_topic_line]. *)
Lemma ensure_topic_line_noop msg manual_topic :
  truthy (strip manual_topic) && topic_missing (splitlines msg) = false ->
  ensure_topic_line msg manual_topic = strip msg.
Proof.
  unfold ensure_topic_line. destruct (truthy (strip manual_topic)); simpl; [|reflexivity].
  generalize (splitlines msg). intros lines Hm.
  destruct lines as [|l0 ls0]; [reflexivity|].
  revert Hm. generalize (l0 :: ls0). clear l0 ls0. intros lines Hm.
  pose proof (first_nonblank_spec lines 0) as Hs.
  destruct (first_nonblank lines 0) as [[i ln]|]; [|reflexivity].
  destruct Hs as (pre & rest & -> & Hpre & Hln & ->).
  rewrite topic_missing_app in Hm by assumption.
  simpl Nat.add. rewrite skipn_subject.
  destruct (topic_scan rest); [reflexivity | discriminate].
Qed.

Lemma ensure_topic_line_insert msg manual_topic pre subject rest :
  truthy (strip manual_topic) = true ->
  splitlines msg = pre ++ subject :: rest ->
  forallb is_blank pre = true -> is_blank subject = false ->
  topic_scan rest = false ->
  ensure_topic_line msg manual_topic =
  strip (join nl (pre ++ subject :: (lit "Topic: " ++ strip manual_topic) :: rest)).
Proof.
  intros Ht E Hpre Hsub Hscan. unfold ensure_topic_line. rewrite Ht, E. simpl negb. cbv iota.
  destruct (pre ++ subject :: rest) as [|l0 ls0] eqn:E0; [destruct pre; discriminate|].
  rewrite <- E0. clear E.
  rewrite first_nonblank_app by assumption. simpl Nat.add.
  rewrite skipn_subject, firstn_subject, Hscan.
  rewrite <- app_assoc. reflexivity.
Qed.

Lemma topic_scan_cons l ls :
  topic_scan (l :: ls) =
  if is_blank l then false else if is_topic_line l then true else topic_scan ls.
Proof. simpl. rewrite truthy_strip. destruct (is_blank l); reflexivity. Qed.

Lemma topic_missing_cons l ls :
  topic_missing (l :: ls) =
  if is_blank l then topic_missing ls else negb (topic_scan ls).
Proof. reflexivity. Qed.

Lemma is_topic_line_rstrip l : is_topic_line (rstrip l) = is_topic_line l.
Proof. unfold is_topic_line. rewrite strip_rstrip. reflexivity. Qed.

Lemma topic_scan_rstrip_lines lines :
  topic_scan (rstrip_lines lines) = topic_scan lines.
Proof.
  induction lines as [|l ls IH]; [reflexivity|]. cbn [rstrip_lines].
  destruct (rstrip_lines ls) as [|r rs].
  - rewrite (topic_scan_cons l ls), <- IH.
    destruct (is_blank l) eqn:El; [reflexivity|].
    rewrite topic_scan_cons, is_blank_rstrip, El, is_topic_line_rstrip.
    reflexivity.
  - rewrite (topic_scan_cons l ls), (topic_scan_cons l (r :: rs)), IH. reflexivity.
Qed.

Lemma topic_missing_rstrip_lines lines :
  topic_missing (rstrip_lines lines) = topic_missing lines.
Proof.
  induction lines as [|l ls IH]; [reflexivity|].
  pose proof (topic_scan_rstrip_lines ls) as Hscan. cbn [rstrip_lines].
  destruct (rstrip_lines ls) as [|r rs].
  - rewrite (topic_missing_cons l ls), <- IH, <- Hscan.
    destruct (is_blank l) eqn:El; [reflexivity|].
    rewrite topic_missing_cons, is_blank_rstrip, El. reflexivity.
  - rewrite (topic_missing_cons l ls), (topic_missing_cons l (r :: rs)), IH, Hscan.
    reflexivity.
Qed.

Lemma topic_missing_lstrip_lines lines :
  topic_missing (lstrip_lines lines) = topic_missing lines.
Proof.
  induction lines as [|l ls IH]; [reflexivity|]. cbn [lstrip_lines topic_missing].
  destruct (is_blank l) eqn:El; [exact IH|].
  cbn [topic_missing]. rewrite is_blank_lstrip, El. reflexivity.
Qed.

Lemma topic_missing_strip msg :
  topic_missing (splitlines (strip msg)) = topic_missing (splitlines msg).
Proof.
  rewrite splitlines_strip, topic_missing_rstrip_lines, topic_missing_lstrip_lines.
  reflexivity.
Qed.

Lemma topic_prefix_line y :
  is_blank (lit "Topic: " ++ y) = false /\ is_topic_line (lit "Topic: " ++ y) = true.
Proof.
  assert (E : strip (lit "Topic: " ++ y) = lit "Topic:" ++ rstrip (" "%char :: y)).
  { unfold strip. change (lit "Topic: " ++ y)
      with ("T"%char :: "o"%char :: "p"%char :: "i"%char :: "c"%char :: ":"%char
            :: " "%char :: y).
    rewrite lstrip_nonspace by reflexivity.
    rewrite !rstrip_nonspace by reflexivity. reflexivity. }
  unfold is_blank, is_topic_line. rewrite E. split; reflexivity.
Qed.

Lemma splitlines_topic_prefix y :
  exists l ls, splitlines (lit "Topic: " ++ y) = (lit "Topic: " ++ l) :: ls.
Proof.
  change (lit "Topic: " ++ y)
    with ("T"%char :: "o"%char :: "p"%char :: "i"%char :: "c"%char :: ":"%char
          :: " "%char :: y).
  rewrite !splitlines_char by reflexivity.
  destruct (splitlines y) as [|l ls].
  - exists [], []. reflexivity.
  - exists l, ls. reflexivity.
Qed.

Lemma topic_missing_after_insert pre subject topic rest :
  Forall nobreak pre -> nobreak subject ->
  forallb is_blank pre = true -> is_blank subject = false ->
  topic_missing
    (splitlines (join nl (pre ++ subject :: (lit "Topic: " ++ topic) :: rest)))
  = false.
Proof.
  intros Hpre Hsub Bpre Bsub.
  rewrite splitlines_join_app by assumption.
  rewrite join_cons_nl by discriminate.
  rewrite splitlines_line by assumption.
  rewrite topic_missing_app by assumption.
  assert (Hy : exists y, join nl ((lit "Topic: " ++ topic) :: rest) = lit "Topic: " ++ y).
  { destruct rest as [|r rs].
    - exists topic. reflexivity.
    - rewrite join_cons_nl by discriminate. rewrite <- app_assoc. eauto. }
  destruct Hy as [y ->].
  destruct (splitlines_topic_prefix y) as (l & ls & ->).
  rewrite topic_scan_cons.
  destruct (topic_prefix_line l) as [-> ->]. reflexivity.
Qed.

Lemma topic_missing_split lines :
  topic_missing lines = true ->
  exists pre subject rest,
    lines = pre ++ subject :: rest /\ forallb is_blank pre = true
    /\ is_blank subject = false /\ topic_scan rest = false.
Proof.
  intros Hm. pose proof (first_nonblank_spec lines 0) as Hs.
  destruct (first_nonblank lines 0) as [[i ln]|].
  - destruct Hs as (pre & rest & -> & Hpre & Hln & _).
    exists pre, ln, rest. rewrite topic_missing_app in Hm by assumption.
    repeat split; try assumption. destruct (topic_scan rest); [discriminate|reflexivity].
  - rewrite topic_missing_blank in Hm by assumption. discriminate.
Qed.

(** ** Decimal numerals and markers *)

Lemma nobreak_app a b : nobreak a -> nobreak b -> nobreak (a ++ b).
Proof. intros Ha Hb. apply Forall_app. split; assumption. Qed.

Lemma nobreak_lit_uint d : nobreak (lit (NilEmpty.string_of_uint d)).
Proof. induction d; simpl; try constructor; try reflexivity; assumption. Qed.

Lemma nobreak_str_of_Z z : nobreak (str_of_Z z).
Proof.
  unfold str_of_Z, NilZero.string_of_int, NilZero.string_of_uint.
  destruct (Z.to_int z) as [d|d]; destruct d; simpl;
    repeat (constructor; try reflexivity); apply nobreak_lit_uint.
Qed.

Lemma nobreak_truncate_marker n : nobreak (truncate_marker n).
Proof.
  unfold truncate_marker. repeat apply nobreak_app; try apply nobreak_str_of_Z;
    repeat (constructor; try reflexivity).
Qed.

Lemma nobreak_simplify_marker n : nobreak (simplify_marker n).
Proof.
  unfold simplify_marker. repeat apply nobreak_app; try apply nobreak_str_of_Z;
    repeat (constructor; try reflexivity).
Qed.

(** ** simplify_diff_for_local *)

Lemma startswith_cons s c p :
  startswith s (c :: p) = true -> exists s', s = c :: s' /\ startswith s' p = true.
Proof.
  destruct s as [|d s]; simpl; [discriminate|].
  destruct (Ascii.eqb d c) eqn:E; simpl; [|discriminate].
  apply Ascii.eqb_eq in E. subst. eauto.
Qed.

Ltac peel_prefix H :=
  repeat (apply startswith_cons in H; destruct H as (? & -> & H)).

Lemma header_not_changed line :
  is_header_line line = true -> is_changed_line line = false.
Proof.
  unfold is_header_line, is_file_header, is_hunk_header. intros H.
  repeat (apply orb_prop in H; destruct H as [H|H]);
    unfold lit in H; simpl list_ascii_of_string in H; peel_prefix H; reflexivity.
Qed.

Lemma simplify_loop_step m line rest out changed :
  simplify_loop m (line :: rest) out changed =
  if is_header_line line then simplify_loop m rest (out ++ [line]) changed
  else if is_changed_line line then
    if changed + 1 >=? m then out ++ [line; lit ""; simplify_marker m]
    else simplify_loop m rest (out ++ [line]) (changed + 1)
  else simplify_loop m rest out changed.
Proof.
  cbn [simplify_loop]. unfold is_header_line, is_file_header, is_hunk_header.
  destruct (startswith line (lit "diff --git ")); [reflexivity|].
  destruct (startswith line (lit "index ")); [reflexivity|].
  destruct (startswith line (lit "--- ")); [reflexivity|].
  destruct (startswith line (lit "+++ ")); [reflexivity|].
  destruct (startswith line (lit "@@")); [reflexivity|].
  cbn [orb]. destruct (is_changed_line line); [|reflexivity].
  destruct (changed + 1 >=? m); [|reflexivity].
  rewrite <- !app_assoc. reflexivity.
Qed.

Lemma filter_cons_if {A} (f : A -> bool) x l :
  List.filter f (x :: l) = if f x then x :: List.filter f l else List.filter f l.
Proof. reflexivity. Qed.

Lemma count_changed_cons l rest :
  count_changed (l :: rest) =
  if is_changed_line l then S (count_changed rest) else count_changed rest.
Proof. unfold count_changed. simpl. destruct (is_changed_line l); reflexivity. Qed.

Lemma upto_changed_cons k l rest :
  upto_changed k (l :: rest) =
  if is_changed_line l then
    match k with
    | S (S _ as k') => l :: upto_changed k' rest
    | _ => [l]
    end
  else l :: upto_changed k rest.
Proof. reflexivity. Qed.

Lemma simplify_loop_spec m lines : forall out changed,
  simplify_loop m lines out changed =
  out ++ List.filter is_kept_line (upto_changed (Z.to_nat (m - changed)) lines)
      ++ marker_lines m (Z.to_nat (m - changed)) lines.
Proof.
  induction lines as [|line rest IH]; intros out changed.
  - simpl. unfold marker_lines. simpl.
    destruct (Z.to_nat (m - changed)); simpl; rewrite app_nil_r; reflexivity.
  - rewrite simplify_loop_step, upto_changed_cons. unfold marker_lines.
    rewrite count_changed_cons.
    assert (Hk : is_kept_line line = is_header_line line || is_changed_line line)
      by reflexivity.
    destruct (is_header_line line) eqn:Hh.
    + rewrite (header_not_changed line Hh) in *.
      rewrite IH, filter_cons_if, Hk. cbn [orb].
      rewrite <- app_assoc. reflexivity.
    + destruct (is_changed_line line) eqn:Hc.
      * destruct (Z.geb_spec (changed + 1) m) as [Hge|Hlt].
        -- assert (Hle : (Z.to_nat (m - changed) <= 1)%nat) by lia.
           destruct (Z.to_nat (m - changed)) as [|[|k]]; try lia;
             rewrite filter_cons_if, Hk; reflexivity.
        -- rewrite IH.
           replace (Z.to_nat (m - changed)) with (S (Z.to_nat (m - (changed + 1)))) by lia.
           destruct (Z.to_nat (m - (changed + 1))) as [|k] eqn:Ek; [lia|].
           rewrite filter_cons_if, Hk. cbn [orb]. rewrite <- app_assoc.
           replace (Nat.max 1 (S (S k)) <=? S (count_changed rest))%nat
             with (Nat.max 1 (S k) <=? count_changed rest)%nat; [reflexivity|].
           destruct (Nat.leb_spec (Nat.max 1 (S k)) (count_changed rest));
           destruct (Nat.leb_spec (Nat.max 1 (S (S k))) (S (count_changed rest)));
             try reflexivity; lia.
      * rewrite IH, filter_cons_if, Hk. reflexivity.
Qed.

Lemma count_changed_app a b :
  count_changed (a ++ b) = (count_changed a + count_changed b)%nat.
Proof. unfold count_changed. rewrite List.filter_app, length_app. reflexivity. Qed.

Lemma upto_changed_all k lines :
  (count_changed lines < Nat.max 1 k)%nat -> upto_changed k lines = lines.
Proof.
  revert k. induction lines as [|l rest IH]; intros k H; [reflexivity|].
  rewrite upto_changed_cons. rewrite count_changed_cons in H.
  destruct (is_changed_line l).
  - destruct k as [|[|k]]; try lia. f_equal. apply IH. lia.
  - f_equal. apply IH, H.
Qed.

Lemma upto_changed_kth k pre l post :
  is_changed_line l = true ->
  (count_changed pre + 1 = Nat.max 1 k)%nat ->
  upto_changed k (pre ++ l :: post) = pre ++ [l].
Proof.
  intros Hl. revert k. induction pre as [|p pre IH]; intros k H.
  - simpl app. rewrite upto_changed_cons, Hl.
    destruct k as [|[|k]]; try reflexivity. simpl in H. lia.
  - simpl app. rewrite upto_changed_cons. rewrite count_changed_cons in H.
    destruct (is_changed_line p).
    + destruct k as [|[|k]]; try lia. f_equal. apply IH. lia.
    + f_equal. apply IH, H.
Qed.


Lemma upto_changed_Forall (P : str -> Prop) k lines :
  Forall P lines -> Forall P (upto_changed k lines).
Proof.
  intros H. revert k. induction H as [|l rest Hl Hrest IH]; intros k; [constructor|].
  rewrite upto_changed_cons. destruct (is_changed_line l).
  - destruct k as [|[|k]]; repeat constructor; auto.
  - constructor; auto.
Qed.


Lemma count_changed_kept lines :
  count_changed (List.filter is_kept_line lines) = count_changed lines.
Proof.
  induction lines as [|l rest IH]; [reflexivity|].
  rewrite (filter_cons_if is_kept_line). unfold is_kept_line at 1.
  destruct (is_changed_line l) eqn:Hc.
  - rewrite orb_true_r, !count_changed_cons, Hc, IH. reflexivity.
  - rewrite orb_false_r. destruct (is_header_line l);
      rewrite ?count_changed_cons, Hc; exact IH.
Qed.

Lemma marker_lines_header m k lines :
  List.filter is_header_line (marker_lines m k lines) = [].
Proof. unfold marker_lines. destruct (_ <=? _)%nat; reflexivity. Qed.


Lemma kept_line_nonempty l : is_kept_line l = true -> l <> [].
Proof. intros H ->. discriminate. Qed.

Lemma last_nonempty (ls : list str) :
  Forall (fun l => l <> []) ls -> List.last ls [LF] <> [].
Proof.
  induction 1 as [|l ls Hl Hls IH]; [discriminate|].
  destruct ls; [exact Hl | exact IH].
Qed.

Lemma last_app_two {A} (l : list A) a b d : List.last (l ++ [a; b]) d = b.
Proof.
  change (l ++ [a; b]) with (l ++ [a] ++ [b]). rewrite app_assoc. apply last_last.
Qed.

(** The digest, as a list of lines, is what [splitlines] reads back. *)
Lemma simplify_lines_roundtrip diff m :
  splitlines (simplify_diff_for_local diff m)
  = simplify_loop m (splitlines diff) [] 0.
Proof.
  unfold simplify_diff_for_local. apply splitlines_join.
  - rewrite simplify_loop_spec. simpl app. apply Forall_app. split.
    + apply incl_Forall with (l1 := upto_changed (Z.to_nat (m - 0)) (splitlines diff)).
      * intros x Hx. apply List.filter_In in Hx. tauto.
      * apply upto_changed_Forall, splitlines_nobreak.
    + unfold marker_lines. destruct (_ <=? _)%nat; [|constructor].
      constructor; [constructor|].
      constructor; [apply nobreak_simplify_marker | constructor].
  - rewrite simplify_loop_spec. simpl app. unfold marker_lines.
    destruct (_ <=? _)%nat.
    + rewrite last_app_two. discriminate.
    + rewrite app_nil_r. apply last_nonempty.
      apply List.Forall_forall. intros x Hx. apply List.filter_In in Hx.
      apply kept_line_nonempty. tauto.
Qed.

(** ** truncate_diff *)

Lemma slice_to_nonneg {A} (l : list A) k : 0 <= k -> slice_to l k = firstn (Z.to_nat k) l.
Proof. intros H. unfold slice_to. destruct (Z.ltb_spec k 0); [lia | reflexivity]. Qed.

Lemma firstn_Forall {A} (P : A -> Prop) n l : Forall P l -> Forall P (firstn n l).
Proof.
  intros H. revert n. induction H; intros [|n]; simpl; constructor; auto.
Qed.

(** ** Topic blocks, split_message and confirm_and_commit *)

Lemma topic_line_nonblank l : is_topic_line l = true -> is_blank l = false.
Proof.
  unfold is_topic_line, is_blank. destruct (strip l); [discriminate | reflexivity].
Qed.

Lemma topic_scan_true_iff rest : topic_scan rest = true <-> topic_in_block rest.
Proof.
  split.
  - induction rest as [|l rest IH]; [discriminate|].
    rewrite topic_scan_cons. destruct (is_blank l) eqn:Bl; [discriminate|].
    destruct (is_topic_line l) eqn:Tl.
    + intros _. exists [], l, rest. repeat split; [constructor | exact Tl].
    + intros Hs. destruct (IH Hs) as (block & t & tail & -> & Hb & Ht).
      exists (l :: block), t, tail. repeat split; [constructor; assumption | exact Ht].
  - intros (block & t & tail & -> & Hb & Ht).
    induction Hb as [|l block Hl Hb IH]; simpl app; rewrite topic_scan_cons.
    + rewrite (topic_line_nonblank t Ht), Ht. reflexivity.
    + rewrite Hl, IH. destruct (is_topic_line l); reflexivity.
Qed.

Lemma topic_scan_false_iff rest : topic_scan rest = false <-> ~ topic_in_block rest.
Proof.
  rewrite <- topic_scan_true_iff. destruct (topic_scan rest); split; congruence.
Qed.

Lemma truthy_true_iff (s : str) : truthy s = true <-> s <> [].
Proof. destruct s; simpl; split; congruence. Qed.

Lemma split_message_subject msg pre subject rest :
  splitlines msg = pre ++ subject :: rest ->
  forallb is_blank pre = true -> is_blank subject = false ->
  split_message msg = Some (subject, rstrip (join nl (drop_leading_blank rest))).
Proof.
  intros E Hpre Hsub. unfold split_message. rewrite E.
  rewrite first_nonblank_app by assumption.
  rewrite truthy_strip, Hsub. cbn [negb]. simpl Nat.add.
  rewrite skipn_subject. unfold drop_leading_blank.
  destruct rest as [|l rest]; [reflexivity|].
  rewrite truthy_strip, negb_involutive. destruct (is_blank l); reflexivity.
Qed.

Lemma split_message_blank msg :
  forallb is_blank (splitlines msg) = true -> split_message msg = None.
Proof.
  intros H. unfold split_message. rewrite first_nonblank_none by exact H. reflexivity.
Qed.

Lemma confirm_and_commit_blank `{PyRuntime} (w : world) msg :
  forallb is_blank (splitlines msg) = true -> accepted w = true ->
  confirm_and_commit w msg =
    ([Input (lit "Accept this commit message? [y]es/[n]o/[e]dit: ");
      Stderr (lit "[error] Empty commit subject from model output")], Exit 1).
Proof.
  intros Hb Ha. unfold confirm_and_commit. unfold accepted in Ha.
  cbn [bind emit]. rewrite Ha, (split_message_blank msg Hb). reflexivity.
Qed.

Lemma kth_changed_split (k : nat) (lines : list str) :
  (1 <= k <= count_changed lines)%nat ->
  exists pre line post,
    lines = pre ++ line :: post /\ is_changed_line line = true
    /\ (count_changed pre + 1 = k)%nat.
Proof.
  revert k. induction lines as [|l rest IH]; intros k Hk.
  - unfold count_changed in Hk. simpl in Hk. lia.
  - rewrite count_changed_cons in Hk. destruct (is_changed_line l) eqn:Hl.
    + destruct (Nat.eq_dec k 1%nat) as [->|Hne].
      * exists [], l, rest. repeat split. exact Hl.
      * destruct (IH (k - 1)%nat) as (pre & line & post & -> & Hline & Hc); [lia|].
        exists (l :: pre), line, post. rewrite count_changed_cons, Hl.
        repeat split; [exact Hline | lia].
    + destruct (IH k Hk) as (pre & line & post & -> & Hline & Hc).
      exists (l :: pre), line, post. rewrite count_changed_cons, Hl.
      repeat split; assumption.
Qed.

Lemma rstrip_rev s : rstrip s = rev (lstrip (rev s)).
Proof.
  assert (Happ : forall t c,
             lstrip (t ++ [c]) =
             match lstrip t with
             | [] => if isspace c then [] else [c]
             | r => r ++ [c]
             end).
  { induction t as [|d t IH]; intros c; simpl.
    - destruct (isspace c); reflexivity.
    - destruct (isspace d); [apply IH | reflexivity]. }
  induction s as [|c s IH]; [reflexivity|].
  simpl rev. rewrite Happ. simpl rstrip. rewrite IH.
  destruct (lstrip (rev s)) as [|a x].
  - destruct (isspace c); reflexivity.
  - rewrite rev_unit. destruct (rev (a :: x)) eqn:E; [|reflexivity].
    apply (f_equal (@length _)) in E. rewrite length_rev in E. discriminate.
Qed.

(** The cost of the run quoted in the documentation, in exact arithmetic:
    1000 prompt tokens and 200 completion tokens of gpt-5-mini. *)
Example estimate_cost_usd_sample :
  exists cost,
    @estimate_cost_usd sample_runtime (sample_config 360) (lit "gpt-5-mini")
      (@JObj sample_runtime
         (<[lit "prompt_tokens" := @JInt sample_runtime 1000]>
            (<[lit "completion_tokens" := @JInt sample_runtime 200]> ∅)))
    = Ret (Some (1000, 200, 1200, cost))
    /\ (cost == 65 # 100000)%Q.
Proof. eexists. split; [vm_compute; reflexivity | reflexivity]. Qed.

(** A limit of 0 for [simplify_diff_for_local] still keeps the first
    changed line. *)
Example simplify_diff_for_local_limit_0 :
  simplify_diff_for_local (lit "+a" ++ nl ++ lit "+b") 0
  = lit "+a" ++ nl ++ nl ++ lit "[... truncated after 0 changed lines ...]"
  /\ simplify_diff_for_local (lit "") 0 = lit "".
Proof. split; vm_compute; reflexivity. Qed.

(** ** The loop's test against the counted lines of the statements *)

(** The last [elif] of the loop selects the counted lines, no more and no
    less. *)
Lemma is_changed_line_counted line :
  is_changed_line line = is_counted_line line.
Proof.
  unfold is_changed_line, is_counted_line, is_marker, lit.
  cbn [list_ascii_of_string startswith].
  destruct line as [|c [|c2 [|c3 rest]]]; try reflexivity.
  - destruct (Ascii.eqb c "+"), (Ascii.eqb c "-"); reflexivity.
  - destruct (Ascii.eqb c "+"), (Ascii.eqb c "-"), (Ascii.eqb c2 "+"),
      (Ascii.eqb c2 "-"); reflexivity.
  - destruct (Ascii.eqb_spec c "+") as [->|Hp].
    + cbn. destruct (Ascii.eqb c2 "+"), (Ascii.eqb c3 "+"); reflexivity.
    + destruct (Ascii.eqb_spec c "-") as [->|Hm].
      * cbn. destruct (Ascii.eqb c2 "-"), (Ascii.eqb c3 "-"); reflexivity.
      * reflexivity.
Qed.

Lemma count_changed_counted lines :
  count_changed lines = count_lines is_counted_line lines.
Proof.
  unfold count_changed, count_lines. f_equal.
  apply List.filter_ext, is_changed_line_counted.
Qed.

Lemma filter_kept_digest lines :
  List.filter is_kept_line lines = List.filter is_digest_line lines.
Proof.
  apply List.filter_ext. intros l. unfold is_kept_line, is_digest_line.
  rewrite is_changed_line_counted. reflexivity.
Qed.






(** The lines of the digest, in the vocabulary of the statements. *)
Lemma simplify_lines_at_limit diff m pre line post :
  splitlines diff = pre ++ line :: post ->
  is_counted_line line = true ->
  Z.of_nat (count_lines is_counted_line pre) + 1 = Z.max 1 m ->
  simplify_loop m (splitlines diff) [] 0
  = List.filter is_digest_line pre ++ [line; lit ""; simplify_marker m].
Proof.
  intros E Hline Hk. rewrite <- count_changed_counted in Hk.
  rewrite <- is_changed_line_counted in Hline.
  rewrite E, simplify_loop_spec, app_nil_l, Z.sub_0_r.
  rewrite upto_changed_kth by (try assumption; lia).
  rewrite List.filter_app, filter_cons_if.
  unfold is_kept_line at 2. rewrite Hline, orb_true_r. cbn [List.filter].
  unfold marker_lines. rewrite count_changed_app, count_changed_cons, Hline.
  destruct (Nat.leb_spec (Nat.max 1 (Z.to_nat m))
              (count_changed pre + S (count_changed post))); [|lia].
  rewrite <- app_assoc, filter_kept_digest. reflexivity.
Qed.


Lemma kth_counted_split (n : Z) (lines : list str) :
  1 <= n <= Z.of_nat (count_lines is_counted_line lines) ->
  exists pre line post,
    lines = pre ++ line :: post /\ is_counted_line line = true
    /\ Z.of_nat (count_lines is_counted_line pre) + 1 = n.
Proof.
  intros Hn. rewrite <- count_changed_counted in Hn.
  destruct (kth_changed_split (Z.to_nat n) lines)
    as (pre & line & post & E & Hline & Hc); [lia|].
  exists pre, line, post. rewrite <- count_changed_counted.
  rewrite <- is_changed_line_counted. repeat split; [exact E | exact Hline | lia].
Qed.


(* ================================================================== *)
(** * Part IV: the claims                                              *)
(* ================================================================== *)

(** ** Diff reducers *)




(** C10, as stated, does not hold: a diff that removes the two lines
    "--i;" and "--j;" has two removed content lines, and with a limit of
    one the digest keeps neither of them and has no marker. *)
Lemma simplify_uncounted_content_lines :
  let diff := lit "@@ -1,2 +0,0 @@" ++ nl ++ lit "---i;" ++ nl ++ lit "---j;" in
  let out := simplify_diff_for_local diff 1 in
  count_lines is_content_line (splitlines diff) = 2%nat
  /\ (1 <= 2)%nat
  /\ out = lit "@@ -1,2 +0,0 @@"
  /\ ~ In (lit "[... truncated after 1 changed lines ...]") (splitlines out).
Proof.
  cbv zeta. split; [reflexivity|]. split; [lia|].
  split; [vm_compute; reflexivity|].
  vm_compute. intuition discriminate.
Qed.

(** C10 (amended): let n be [max_changed_lines], or 1 when that is below
    1.  When the input has an n-th counted line (a line that starts with
    "+" or "-" but not with "+++" or "---"), [simplify_diff_for_local]
    returns the header and counted lines before it, that line, an empty
    line and the line
    "[... truncated after <max_changed_lines> changed lines ...]",
    whatever follows in the input, also when nothing follows; and an
    input with at least n counted lines has an n-th counted line. *)
Theorem simplify_marker_at_limit :
  (forall (diff : str) (max_changed_lines : Z) (pre : list str) (line : str)
          (post : list str),
      splitlines diff = pre ++ line :: post ->
      is_counted_line line = true ->
      Z.of_nat (count_lines is_counted_line pre) + 1 = Z.max 1 max_changed_lines ->
      simplify_diff_for_local diff max_changed_lines
      = join nl (List.filter is_digest_line pre
                 ++ [line; lit "";
                     lit "[... truncated after " ++ str_of_Z max_changed_lines
                     ++ lit " changed lines ...]"]))
  /\ (forall (diff : str) (max_changed_lines : Z),
         Z.max 1 max_changed_lines
         <= Z.of_nat (count_lines is_counted_line (splitlines diff)) ->
         exists pre line post,
           splitlines diff = pre ++ line :: post
           /\ is_counted_line line = true
           /\ Z.of_nat (count_lines is_counted_line pre) + 1
              = Z.max 1 max_changed_lines).
Proof.
  split.
  - intros diff max_changed_lines pre line post E Hline Hk.
    unfold simplify_diff_for_local. f_equal.
    exact (simplify_lines_at_limit diff max_changed_lines pre line post E Hline Hk).
  - intros diff max_changed_lines Hm. apply kth_counted_split. lia.
Qed.

(** The marker although nothing was left out: the input is a hunk header
    and one added line, both kept, nothing follows, and the limit is
    one. *)
Lemma simplify_marker_at_limit_witness :
  simplify_diff_for_local (lit "@@ a" ++ nl ++ lit "+a") 1
  = lit "@@ a" ++ nl ++ lit "+a" ++ nl ++ nl
    ++ lit "[... truncated after 1 changed lines ...]".
Proof.
  apply (proj1 simplify_marker_at_limit
           (lit "@@ a" ++ nl ++ lit "+a") 1 [lit "@@ a"] (lit "+a") []);
    reflexivity.
Defined.

(** C2, as stated, does not hold: with a limit of -1 a diff of two lines
    is longer than the limit; the text returned keeps one line, so one
    line is left out, and the marker speaks of three; no split of the
    lines into a kept part of -1 lines and an omitted part gives the
    text. *)
Lemma truncate_diff_negative_limit_miscounts :
  let cfg := sample_config (-1) in
  let diff := lit "a" ++ nl ++ lit "b" in
  Z.of_nat (length (splitlines diff)) > MAX_DIFF_LINES cfg
  /\ truncate_diff cfg diff
     = (lit "a" ++ nl ++ nl ++ lit "[... truncated 3 diff lines ...]", true, 2, -1)
  /\ splitlines diff = [lit "a"] ++ [lit "b"]
  /\ Z.of_nat (length [lit "b"]) <> 3
  /\ ~ (exists kept omitted,
           splitlines diff = kept ++ omitted
           /\ Z.of_nat (length kept) = MAX_DIFF_LINES cfg
           /\ fst (fst (fst (truncate_diff cfg diff)))
              = join nl (kept ++ [lit "";
                                  lit "[... truncated "
                                  ++ str_of_Z (Z.of_nat (length omitted))
                                  ++ lit " diff lines ...]"])).
Proof.
  cbv zeta. split; [vm_compute; reflexivity|]. split; [vm_compute; reflexivity|].
  split; [reflexivity|]. split; [discriminate|].
  intros (kept & omitted & _ & Hlen & _). cbn in Hlen. lia.
Qed.

(** C2 (amended): with a limit [MAX_DIFF_LINES] that is not negative,
    [truncate_diff] returns its input unchanged and [truncated = false]
    when the diff has at most [MAX_DIFF_LINES] lines; otherwise the lines
    split into the first [MAX_DIFF_LINES] and the omitted ones, and it
    returns the first part followed by an empty line and the line
    "[... truncated <n> diff lines ...]" where [n] is the number of
    omitted lines, with [truncated = true]; the text returned reads back
    as these lines. *)
Theorem truncate_diff_spec `{PyRuntime} (cfg : config) (diff : str) :
  0 <= MAX_DIFF_LINES cfg ->
  let limit := MAX_DIFF_LINES cfg in
  let lines := splitlines diff in
  let total := Z.of_nat (length lines) in
  (total <= limit -> truncate_diff cfg diff = (diff, false, total, total))
  /\ (total > limit ->
      let kept := firstn (Z.to_nat limit) lines in
      let omitted := skipn (Z.to_nat limit) lines in
      let marker :=
        [lit "";
         lit "[... truncated " ++ str_of_Z (Z.of_nat (length omitted))
         ++ lit " diff lines ...]"] in
      truncate_diff cfg diff = (join nl (kept ++ marker), true, total, limit)
      /\ splitlines (join nl (kept ++ marker)) = kept ++ marker
      /\ lines = kept ++ omitted
      /\ Z.of_nat (length kept) = limit).
Proof.
  intros Hlimit. unfold truncate_diff. cbv zeta.
  set (limit := MAX_DIFF_LINES cfg) in *.
  set (lines := splitlines diff).
  set (total := Z.of_nat (length lines)).
  split.
  - intros Hle. destruct (Z.leb_spec total limit); [reflexivity | lia].
  - intros Hgt. destruct (Z.leb_spec total limit); [lia|].
    rewrite slice_to_nonneg by exact Hlimit.
    assert (Hom : Z.of_nat (length (skipn (Z.to_nat limit) lines)) = total - limit)
      by (rewrite length_skipn; unfold total; lia).
    rewrite Hom.
    change (lit "[... truncated " ++ str_of_Z (total - limit)
            ++ lit " diff lines ...]") with (truncate_marker (total - limit)).
    rewrite <- app_assoc. simpl app. split; [reflexivity|]. split; [|split].
    + apply splitlines_join.
      * apply Forall_app. split.
        -- apply firstn_Forall, splitlines_nobreak.
        -- constructor; [constructor|].
           constructor; [apply nobreak_truncate_marker | constructor].
      * rewrite last_app_two. discriminate.
    + symmetry. apply firstn_skipn.
    + rewrite length_firstn. unfold total in *. lia.
Qed.

Lemma truncate_diff_spec_witness :
  @truncate_diff sample_runtime (sample_config 2) (lit "a" ++ nl ++ lit "b")
  = (lit "a" ++ nl ++ lit "b", false, 2, 2)
  /\ @truncate_diff sample_runtime (sample_config 2)
       (lit "a" ++ nl ++ lit "b" ++ nl ++ lit "c" ++ nl ++ lit "d")
     = (lit "a" ++ nl ++ lit "b" ++ nl ++ nl ++ lit "[... truncated 2 diff lines ...]",
        true, 4, 2).
Proof.
  split.
  - apply (@truncate_diff_spec sample_runtime (sample_config 2)
             (lit "a" ++ nl ++ lit "b")); [simpl; lia | vm_compute; discriminate].
  - apply (@truncate_diff_spec sample_runtime (sample_config 2)
             (lit "a" ++ nl ++ lit "b" ++ nl ++ lit "c" ++ nl ++ lit "d"));
      [simpl; lia | vm_compute; reflexivity].
Defined.

(** C7: the digest returned by [truncate_diff] satisfies
    keptLines <= totalLines and truncated = (keptLines < totalLines). *)
Theorem truncate_diff_invariant `{PyRuntime} (cfg : config) (diff : str) :
  let '(text, truncated, totalLines, keptLines) := truncate_diff cfg diff in
  keptLines <= totalLines /\ truncated = (keptLines <? totalLines).
Proof.
  unfold truncate_diff.
  destruct (Z.leb_spec (Z.of_nat (length (splitlines diff))) (MAX_DIFF_LINES cfg)).
  - split; [lia|]. symmetry. apply Z.ltb_irrefl.
  - split; [lia|]. symmetry. apply Z.ltb_lt. lia.
Qed.

(** ** Message post-processor *)

(** C3: the subject is the first non-blank line; the body is what follows
    it, less one leading blank line if there is one, joined by "\n" and
    with trailing whitespace removed; a message without a non-blank line
    has no split, and an accepted commit then ends in exit code 1 with no
    call of git commit; and the documented example. *)
Theorem split_message_spec `{PyRuntime} :
  (forall msg pre subject rest,
      splitlines msg = pre ++ subject :: rest ->
      forallb is_blank pre = true -> is_blank subject = false ->
      split_message msg
      = Some (subject, rstrip (join nl (drop_leading_blank rest))))
  /\ (forall msg,
         forallb is_blank (splitlines msg) = true ->
         split_message msg = None
         /\ forall w : world,
             accepted w = true ->
             confirm_and_commit w msg
             = ([Input (lit "Accept this commit message? [y]es/[n]o/[e]dit: ");
                 Stderr (lit "[error] Empty commit subject from model output")],
                Exit 1)
             /\ existsb is_git_commit (fst (confirm_and_commit w msg)) = false)
  /\ split_message
       (lit "Subject line" ++ nl ++ nl ++ lit "CHANGES:" ++ nl ++ lit "- a"
        ++ nl ++ nl ++ lit "Files changed:" ++ nl ++ lit "- x")
     = Some (lit "Subject line",
             lit "CHANGES:" ++ nl ++ lit "- a" ++ nl ++ nl
             ++ lit "Files changed:" ++ nl ++ lit "- x").
Proof.
  split; [|split].
  - intros msg pre subject rest. apply split_message_subject.
  - intros msg Hb. split; [apply split_message_blank, Hb|].
    intros w Ha. rewrite (confirm_and_commit_blank w msg Hb Ha).
    split; reflexivity.
  - vm_compute. reflexivity.
Qed.

Lemma split_message_spec_witness :
  split_message (lit "  " ++ nl ++ lit "fix: a" ++ nl ++ nl ++ nl ++ lit "body  ")
  = Some (lit "fix: a", lit "" ++ nl ++ lit "body")
  /\ split_message (lit " " ++ nl ++ lit "  ") = None
  /\ @confirm_and_commit sample_runtime (sample_world (lit "+a") (lit "y")) (lit "")
     = ([Input (lit "Accept this commit message? [y]es/[n]o/[e]dit: ");
         Stderr (lit "[error] Empty commit subject from model output")],
        Exit 1).
Proof.
  split; [|split].
  - apply (proj1 (@split_message_spec sample_runtime)
             (lit "  " ++ nl ++ lit "fix: a" ++ nl ++ nl ++ nl ++ lit "body  ")
             [lit "  "] (lit "fix: a") [lit ""; lit ""; lit "body  "]);
      reflexivity.
  - apply (proj1 (proj2 (@split_message_spec sample_runtime))
             (lit " " ++ nl ++ lit "  ")). reflexivity.
  - apply (proj2 (proj1 (proj2 (@split_message_spec sample_runtime))
                    (lit "") eq_refl)
             (sample_world (lit "+a") (lit "y"))). reflexivity.
Defined.




(** C5, as stated, does not hold: with an empty manual topic a message
    that starts with a space comes back without it; and a message that
    already has its Topic line and ends with a line terminator comes back
    without the terminator. *)
Lemma ensure_topic_line_not_identity :
  (lit "" = []
   /\ ensure_topic_line (lit " fix: a") (lit "") = lit "fix: a"
   /\ ensure_topic_line (lit " fix: a") (lit "") <> lit " fix: a")
  /\ (let msg := lit "fix: a" ++ nl ++ lit "TOPIC: x" ++ nl in
      splitlines msg = [] ++ lit "fix: a" :: [lit "TOPIC: x"]
      /\ is_blank (lit "fix: a") = false
      /\ topic_in_block [lit "TOPIC: x"]
      /\ ensure_topic_line msg (lit "T1") <> msg).
Proof.
  split.
  - split; [reflexivity|]. split; [vm_compute; reflexivity | vm_compute; discriminate].
  - cbv zeta. split; [reflexivity|]. split; [reflexivity|].
    split; [apply topic_scan_true_iff; reflexivity | vm_compute; discriminate].
Qed.

(** C5 (amended): whenever the manual topic is empty or only whitespace,
    and whenever a "Topic:" line (in any letter case) is among the
    contiguous non-blank lines that follow the subject, [ensure_topic_line]
    returns the message stripped of leading and trailing whitespace, with
    no other change; so a message without leading or trailing whitespace
    comes back unchanged. *)
Theorem ensure_topic_line_strips (msg manual_topic : str) :
  strip manual_topic = []
  \/ (exists pre subject rest,
         splitlines msg = pre ++ subject :: rest
         /\ forallb is_blank pre = true /\ is_blank subject = false
         /\ topic_in_block rest) ->
  ensure_topic_line msg manual_topic = strip msg
  /\ (strip msg = msg -> ensure_topic_line msg manual_topic = msg).
Proof.
  intros Hcase.
  assert (E : ensure_topic_line msg manual_topic = strip msg).
  { apply ensure_topic_line_noop. destruct Hcase as [Ht | Hfound].
    - rewrite Ht. reflexivity.
    - destruct Hfound as (pre & subject & rest & -> & Hpre & Hsub & Hin).
      rewrite topic_missing_app by assumption.
      apply topic_scan_true_iff in Hin. rewrite Hin. apply andb_false_r. }
  split; [exact E | intros Hs; rewrite E; exact Hs].
Qed.

Lemma ensure_topic_line_strips_witness :
  (ensure_topic_line (lit "fix: a ") (lit "  ") = strip (lit "fix: a ")
   /\ (strip (lit "fix: a ") = lit "fix: a " ->
       ensure_topic_line (lit "fix: a ") (lit "  ") = lit "fix: a "))
  /\ (ensure_topic_line (lit "fix: a" ++ nl ++ lit "why" ++ nl ++ lit " topiC: x") (lit "T1")
      = strip (lit "fix: a" ++ nl ++ lit "why" ++ nl ++ lit " topiC: x")
      /\ (strip (lit "fix: a" ++ nl ++ lit "why" ++ nl ++ lit " topiC: x")
          = lit "fix: a" ++ nl ++ lit "why" ++ nl ++ lit " topiC: x" ->
          ensure_topic_line (lit "fix: a" ++ nl ++ lit "why" ++ nl ++ lit " topiC: x") (lit "T1")
          = lit "fix: a" ++ nl ++ lit "why" ++ nl ++ lit " topiC: x")).
Proof.
  split.
  - apply (ensure_topic_line_strips (lit "fix: a ") (lit "  ")).
    left. reflexivity.
  - apply (ensure_topic_line_strips
             (lit "fix: a" ++ nl ++ lit "why" ++ nl ++ lit " topiC: x") (lit "T1")).
    right. exists [], (lit "fix: a"), [lit "why"; lit " topiC: x"].
    split; [reflexivity|]. split; [reflexivity|]. split; [reflexivity|].
    exists [lit "why"], (lit " topiC: x"), [].
    split; [reflexivity|]. split; [|reflexivity].
    constructor; [reflexivity | constructor].
Defined.

(** C6: [ensure_topic_line] is idempotent: applied twice with the same
    manual topic it returns what it returns applied once. *)
Theorem ensure_topic_line_idempotent msg manual_topic :
  ensure_topic_line (ensure_topic_line msg manual_topic) manual_topic
  = ensure_topic_line msg manual_topic.
Proof.
  destruct (truthy (strip manual_topic) && topic_missing (splitlines msg)) eqn:H.
  - apply andb_prop in H as [Ht Hm].
    destruct (topic_missing_split _ Hm) as (pre & subject & rest & E & Bpre & Bsub & Hscan).
    rewrite (ensure_topic_line_insert msg manual_topic pre subject rest) by assumption.
    rewrite ensure_topic_line_noop; [apply strip_idem|].
    pose proof (splitlines_nobreak msg) as Hnb. rewrite E in Hnb.
    apply Forall_app in Hnb as [Hpre Hrest]. inversion Hrest; subst.
    rewrite topic_missing_strip, topic_missing_after_insert by assumption.
    apply andb_false_r.
  - rewrite (ensure_topic_line_noop msg) by exact H.
    rewrite ensure_topic_line_noop; [apply strip_idem|].
    rewrite topic_missing_strip. exact H.
Qed.

(** ** Control flow of main *)

(** C8: when the command is "commit" and the staged diff is empty or only
    whitespace, [main] reads the staged diff and file list, reports the
    error, leaves with exit code 1, and calls neither the remote API nor
    the local backend. *)
Theorem main_no_staged_changes `{PyRuntime} (cfg : config) (w : world) :
  arg_command w = Some (lit "commit") ->
  is_blank (staged_diff w) = true ->
  main cfg w =
    ([GitRead [lit "git"; lit "diff"; lit "--cached"];
      GitRead [lit "git"; lit "diff"; lit "--cached"; lit "--name-only"];
      Stderr (lit "[error] No staged changes. Run: git add <files>")],
     Exit 1)
  /\ existsb is_backend_call (fst (main cfg w)) = false.
Proof.
  intros Hcmd Hblank.
  assert (E : main cfg w =
    ([GitRead [lit "git"; lit "diff"; lit "--cached"];
      GitRead [lit "git"; lit "diff"; lit "--cached"; lit "--name-only"];
      Stderr (lit "[error] No staged changes. Run: git add <files>")],
     Exit 1)).
  { unfold main. rewrite Hcmd. 
    change (str_eqb (lit "commit") (lit "commit")) with true. cbn [negb].
    unfold get_staged_diff, get_staged_files. cbn [bind emit ret app].
    fold (staged_diff w). unfold is_blank in Hblank.
    destruct (truthy (strip (staged_diff w))); [discriminate|]. reflexivity. }
  rewrite E. split; reflexivity.
Qed.

Lemma main_no_staged_changes_witness :
  @main sample_runtime (sample_config 360) (sample_world (lit " " ++ nl) (lit "y"))
  = ([GitRead [lit "git"; lit "diff"; lit "--cached"];
      GitRead [lit "git"; lit "diff"; lit "--cached"; lit "--name-only"];
      Stderr (lit "[error] No staged changes. Run: git add <files>")],
     Exit 1)
  /\ existsb is_backend_call
       (fst (@main sample_runtime (sample_config 360)
               (sample_world (lit " " ++ nl) (lit "y")))) = false.
Proof.
  apply (@main_no_staged_changes sample_runtime (sample_config 360)
           (sample_world (lit " " ++ nl) (lit "y"))); reflexivity.
Defined.

(** ** Cost estimator *)

(** C9, as stated, does not hold: a pricing file that holds a JSON list
    (or null) has no entry for any model, and the lookup itself raises
    AttributeError. *)
Lemma estimate_cost_usd_table_not_a_mapping :
  @estimate_cost_usd sample_runtime
    (sample_config_with 360 (@JArr sample_runtime []))
    (lit "gpt-5-mini") (@JObj sample_runtime ∅)
  = Raise AttributeError
  /\ @estimate_cost_usd sample_runtime
       (sample_config_with 360 (@JNull sample_runtime))
       (lit "gpt-5-mini") (@JObj sample_runtime ∅)
     = Raise AttributeError.
Proof. split; reflexivity. Qed.

(** C9 (amended): when the pricing table is a mapping (the built-in empty
    table, or a pricing file that holds a JSON object) and the model id is
    absent from it, [estimate_cost_usd] returns [None] and does not raise,
    whatever the usage value is, a mapping or not. *)
Theorem estimate_cost_usd_unknown_model `{PyRuntime} (cfg : config)
    (model : str) (usage : json) (table : gmap str json) :
  OPENAI_API_PRICING_PER_1M cfg = JObj table ->
  table !! model = None ->
  estimate_cost_usd cfg model usage = Ret None.
Proof.
  intros Ht H0. unfold estimate_cost_usd, py_get. rewrite Ht, H0. reflexivity.
Qed.

Lemma estimate_cost_usd_unknown_model_witness :
  @estimate_cost_usd sample_runtime (sample_config 360) (lit "no-such-model")
    (@JNull sample_runtime) = Ret None.
Proof.
  apply (@estimate_cost_usd_unknown_model sample_runtime (sample_config 360)
           (lit "no-such-model") (@JNull sample_runtime) sample_pricing).
  - reflexivity.
  - vm_compute. reflexivity.
Defined.

(* ================================================================== *)
(** * Part V: further properties of the code                           *)
(* ================================================================== *)

(** ** More on simplify_diff_for_local *)

Lemma upto_changed_incl k lines l : In l (upto_changed k lines) -> In l lines.
Proof.
  revert k. induction lines as [|x rest IH]; intros k; [tauto|].
  rewrite upto_changed_cons. destruct (is_changed_line x).
  - destruct k as [|[|k]]; simpl; intros [H|H]; auto; try tauto. right. eauto.
  - simpl. intros [H|H]; auto. right. eauto.
Qed.

Lemma filter_kept_idem lines :
  List.filter is_kept_line (List.filter is_kept_line lines)
  = List.filter is_kept_line lines.
Proof.
  induction lines as [|l rest IH]; [reflexivity|].
  rewrite filter_cons_if. destruct (is_kept_line l) eqn:E; [|exact IH].
  rewrite filter_cons_if, E, IH. reflexivity.
Qed.

Lemma simplify_lines_spec diff m :
  splitlines (simplify_diff_for_local diff m)
  = List.filter is_kept_line (upto_changed (Z.to_nat m) (splitlines diff))
    ++ marker_lines m (Z.to_nat m) (splitlines diff).
Proof.
  rewrite simplify_lines_roundtrip, simplify_loop_spec, app_nil_l, Z.sub_0_r.
  reflexivity.
Qed.



(** X2: every line of the output of [simplify_diff_for_local] is a header or content line of the input, or one of the two marker lines (the empty line and the truncation notice): no context line reaches the prompt. *)
Theorem simplify_output_lines (diff : str) (max_changed_lines : Z) (l : str) :
  In l (splitlines (simplify_diff_for_local diff max_changed_lines)) ->
  (In l (splitlines diff) /\ is_kept_line l = true)
  \/ l = lit "" \/ l = simplify_marker max_changed_lines.
Proof.
  rewrite simplify_lines_spec. intros H. apply in_app_or in H as [H|H].
  - left. apply List.filter_In in H as [H Hk]. split; [|exact Hk].
    eapply upto_changed_incl, H.
  - right. unfold marker_lines in H. destruct (_ <=? _)%nat; cbn [In] in H.
    + destruct H as [H|[H|[]]]; [left | right]; symmetry; exact H.
    + contradiction.
Qed.

Lemma simplify_output_lines_witness :
  (In (lit "+new") (splitlines (lit " context" ++ nl ++ lit "+new"))
   /\ is_kept_line (lit "+new") = true)
  \/ lit "+new" = lit "" \/ lit "+new" = simplify_marker 5.
Proof.
  apply (simplify_output_lines (lit " context" ++ nl ++ lit "+new") 5 (lit "+new")).
  vm_compute. left. reflexivity.
Defined.

Lemma marker_lines_present m k lines :
  (Nat.max 1 k <= count_changed lines)%nat ->
  marker_lines m k lines = [lit ""; simplify_marker m].
Proof.
  intros H. unfold marker_lines.
  destruct (Nat.leb_spec (Nat.max 1 k) (count_changed lines)); [reflexivity | lia].
Qed.

Lemma marker_lines_absent m k lines :
  (count_changed lines < Nat.max 1 k)%nat -> marker_lines m k lines = [].
Proof.
  intros H. unfold marker_lines.
  destruct (Nat.leb_spec (Nat.max 1 k) (count_changed lines)); [lia | reflexivity].
Qed.

(** The digest of a list of lines, and the digest of that digest. *)
Lemma digest_lines_fixpoint m k lines :
  let out := List.filter is_kept_line (upto_changed k lines)
             ++ marker_lines m k lines in
  List.filter is_kept_line (upto_changed k out) ++ marker_lines m k out = out.
Proof.
  cbv zeta.
  destruct (Nat.leb_spec (Nat.max 1 k) (count_changed lines)) as [Hge|Hlt].
  - destruct (kth_changed_split (Nat.max 1 k) lines)
      as (pre & line & post & -> & Hline & Hc); [lia|].
    assert (Hk : is_kept_line line = true)
      by (unfold is_kept_line; rewrite Hline; apply orb_true_r).
    rewrite (marker_lines_present m k (pre ++ line :: post) Hge).
    rewrite (upto_changed_kth k pre line post Hline Hc).
    rewrite List.filter_app, (filter_cons_if is_kept_line line []), Hk.
    cbn [List.filter]. rewrite <- app_assoc.
    change ([line] ++ [lit ""; simplify_marker m])
      with (line :: [lit ""; simplify_marker m]).
    assert (Hc' : (count_changed (List.filter is_kept_line pre) + 1
                   = Nat.max 1 k)%nat)
      by (rewrite count_changed_kept; exact Hc).
    rewrite (upto_changed_kth k _ line [lit ""; simplify_marker m] Hline Hc').
    rewrite List.filter_app, filter_kept_idem, filter_cons_if, Hk.
    cbn [List.filter]. rewrite <- app_assoc. f_equal.
    rewrite marker_lines_present; [reflexivity|].
    rewrite count_changed_app, count_changed_cons, Hline. lia.
  - rewrite (marker_lines_absent m k lines Hlt), app_nil_r.
    rewrite (upto_changed_all k lines Hlt).
    assert (Hlt' : (count_changed (List.filter is_kept_line lines)
                    < Nat.max 1 k)%nat)
      by (rewrite count_changed_kept; exact Hlt).
    rewrite (upto_changed_all k _ Hlt'), filter_kept_idem.
    rewrite (marker_lines_absent m k _ Hlt'). apply app_nil_r.
Qed.

(** X3: [simplify_diff_for_local] is idempotent for every limit: the digest of a digest is the digest. *)
Theorem simplify_idempotent (diff : str) (max_changed_lines : Z) :
  simplify_diff_for_local
    (simplify_diff_for_local diff max_changed_lines) max_changed_lines
  = simplify_diff_for_local diff max_changed_lines.
Proof.
  unfold simplify_diff_for_local at 1 3. f_equal.
  rewrite simplify_lines_roundtrip.
  rewrite (simplify_loop_spec _ (simplify_loop _ _ _ _)), app_nil_l, Z.sub_0_r.
  rewrite (simplify_loop_spec _ (splitlines diff)), app_nil_l, Z.sub_0_r.
  apply digest_lines_fixpoint.
Qed.

(** ** More on lines *)

Lemma forallb_blank_push c ls :
  forallb is_blank (push_char c ls) = isspace c && forallb is_blank ls.
Proof.
  destruct ls as [|l ls]; cbn [push_char forallb]; rewrite is_blank_cons.
  - rewrite is_blank_nil, !andb_true_r. reflexivity.
  - rewrite andb_assoc. reflexivity.
Qed.

(** The lines of a string are all blank exactly when the string is. *)
Lemma forallb_blank_splitlines s :
  forallb is_blank (splitlines s) = is_blank s.
Proof.
  rewrite (is_blank_forallb s).
  induction s as [| s IH | c s Hb Hcr IH | c s Hc IH] using splitlines_ind.
  - reflexivity.
  - rewrite splitlines_crlf. cbn [forallb]. rewrite IH. reflexivity.
  - rewrite splitlines_break by assumption. cbn [forallb].
    rewrite IH, (linebreak_isspace c Hb). reflexivity.
  - rewrite splitlines_char, forallb_blank_push, IH by assumption. reflexivity.
Qed.

Lemma splitlines_join_cases ls :
  Forall nobreak ls ->
  splitlines (join nl ls) = ls
  \/ exists ls', ls = ls' ++ [[]] /\ splitlines (join nl ls) = ls'.
Proof.
  induction ls as [|l ls IH]; intros Hnb; [left; reflexivity|].
  inversion Hnb as [|? ? Hl Hls]; subst.
  destruct ls as [|l2 ls].
  - destruct l as [|c l].
    + right. exists []. split; reflexivity.
    + left. apply splitlines_one; [exact Hl | discriminate].
  - rewrite join_cons_nl by discriminate. rewrite splitlines_line by exact Hl.
    destruct (IH Hls) as [E | (ls' & E1 & E2)].
    + left. rewrite E. reflexivity.
    + right. exists (l :: ls'). rewrite E2, E1. split; reflexivity.
Qed.

Lemma rstrip_lines_app_empty ls : rstrip_lines (ls ++ [[]]) = rstrip_lines ls.
Proof.
  induction ls as [|l ls IH]; [reflexivity|].
  simpl app. cbn [rstrip_lines]. rewrite IH. reflexivity.
Qed.

Lemma rstrip_lines_join ls :
  Forall nobreak ls -> rstrip_lines (splitlines (join nl ls)) = rstrip_lines ls.
Proof.
  intros Hnb. destruct (splitlines_join_cases ls Hnb) as [E | (ls' & E1 & E2)].
  - rewrite E. reflexivity.
  - rewrite E2, E1, rstrip_lines_app_empty. reflexivity.
Qed.

Lemma rstrip_app_space s c : isspace c = true -> rstrip (s ++ [c]) = rstrip s.
Proof.
  intros Hc. induction s as [|d s IH]; simpl app.
  - simpl. rewrite Hc. reflexivity.
  - cbn [rstrip]. rewrite IH. reflexivity.
Qed.

Lemma join_app_empty (ls : list str) :
  join nl (ls ++ [[]])
  = match ls with [] => [] | _ :: _ => join nl ls ++ [LF] end.
Proof.
  induction ls as [|l ls IH]; [reflexivity|].
  destruct ls as [|l2 ls]; [reflexivity|].
  change ((l :: l2 :: ls) ++ [[]]) with (l :: ((l2 :: ls) ++ [[]])).
  rewrite (join_cons_nl l ((l2 :: ls) ++ [[]])) by discriminate.
  rewrite IH, (join_cons_nl l (l2 :: ls)) by discriminate.
  rewrite <- app_assoc. reflexivity.
Qed.

Lemma rstrip_join_splitlines ls :
  Forall nobreak ls -> rstrip (join nl (splitlines (join nl ls))) = rstrip (join nl ls).
Proof.
  intros Hnb. destruct (splitlines_join_cases ls Hnb) as [E | (ls' & E1 & E2)].
  - rewrite E. reflexivity.
  - rewrite E2, E1, join_app_empty. destruct ls' as [|l ls']; [reflexivity|].
    symmetry. apply rstrip_app_space. reflexivity.
Qed.

Lemma rstrip_lines_nil_iff ls : rstrip_lines ls = [] <-> forallb is_blank ls = true.
Proof.
  induction ls as [|l ls IH]; [simpl; tauto|].
  cbn [rstrip_lines forallb]. destruct (rstrip_lines ls) as [|r rs].
  - destruct (is_blank l); simpl.
    + rewrite <- IH. tauto.
    + split; discriminate.
  - split; [discriminate|]. intros H. apply andb_prop in H as [_ H].
    apply IH in H. discriminate.
Qed.

Lemma rstrip_lines_cons_nonblank l ls :
  is_blank l = false ->
  rstrip_lines (l :: ls)
  = match rstrip_lines ls with [] => [rstrip l] | r => l :: r end.
Proof. intros H. cbn [rstrip_lines]. rewrite H. reflexivity. Qed.

Lemma rstrip_lines_app_blank pre ls :
  rstrip_lines ls <> [] -> rstrip_lines (pre ++ ls) = pre ++ rstrip_lines ls.
Proof.
  intros H. induction pre as [|p pre IH]; [reflexivity|].
  simpl app. cbn [rstrip_lines]. rewrite IH.
  destruct (pre ++ rstrip_lines ls) eqn:E; [|reflexivity].
  apply app_eq_nil in E as [_ E]. contradiction.
Qed.

Lemma lstrip_lines_app_blank pre l ls :
  forallb is_blank pre = true -> is_blank l = false ->
  lstrip_lines (pre ++ l :: ls) = lstrip l :: ls.
Proof.
  intros Hpre Hl. induction pre as [|p pre IH]; simpl app; cbn [lstrip_lines].
  - rewrite Hl. reflexivity.
  - simpl in Hpre. apply andb_prop in Hpre as [-> Hpre]. auto.
Qed.

Lemma rstrip_app_nonnil a s : rstrip s <> [] -> rstrip (a ++ s) = a ++ rstrip s.
Proof.
  intros H. induction a as [|c a IH]; [reflexivity|].
  simpl app. cbn [rstrip]. rewrite IH.
  destruct (a ++ rstrip s) eqn:E; [|reflexivity].
  apply app_eq_nil in E as [_ E]. contradiction.
Qed.

Lemma rstrip_strip s : rstrip (strip s) = strip s.
Proof. unfold strip. apply rstrip_idem. Qed.

Lemma lstrip_strip s : lstrip (strip s) = strip s.
Proof. unfold strip. rewrite lstrip_rstrip, lstrip_idem. reflexivity. Qed.

Lemma strip_as_lstrip_rstrip s : strip s = lstrip (rstrip s).
Proof. unfold strip. symmetry. apply lstrip_rstrip. Qed.

(** The lines of a stripped, "\n"-joined list of lines. *)
Lemma splitlines_strip_join ls :
  Forall nobreak ls ->
  splitlines (strip (join nl ls)) = lstrip_lines (rstrip_lines ls).
Proof.
  intros Hnb. rewrite strip_as_lstrip_rstrip, splitlines_lstrip, splitlines_rstrip.
  rewrite rstrip_lines_join by exact Hnb. reflexivity.
Qed.

Lemma nobreak_topic_prefix s : nobreak s -> nobreak (lit "Topic: " ++ s).
Proof. intros H. apply nobreak_app; [|exact H]. repeat constructor. Qed.

Lemma ensure_topic_line_insert_lines msg manual_topic pre subject rest :
  splitlines msg = pre ++ subject :: rest ->
  forallb is_blank pre = true -> is_blank subject = false ->
  strip manual_topic <> [] -> nobreak (strip manual_topic) ->
  topic_scan rest = false ->
  splitlines (ensure_topic_line msg manual_topic)
  = lstrip subject :: (lit "Topic: " ++ strip manual_topic) :: rstrip_lines rest.
Proof.
  intros E Hpre Hsub Ht Hnbt Hscan.
  rewrite (ensure_topic_line_insert msg manual_topic pre subject rest);
    try assumption; [|apply truthy_true_iff, Ht].
  pose proof (splitlines_nobreak msg) as Hnb. rewrite E in Hnb.
  apply Forall_app in Hnb as [Hnpre Hnrest].
  inversion Hnrest as [|? ? Hnsub Hnr]; subst.
  rewrite splitlines_strip_join.
  2:{ apply Forall_app. split; [exact Hnpre|].
      constructor; [exact Hnsub|].
      constructor; [apply nobreak_topic_prefix, Hnbt | exact Hnr]. }
  set (T := lit "Topic: " ++ strip manual_topic).
  assert (HT : is_blank T = false) by apply topic_prefix_line.
  assert (HrT : rstrip T = T).
  { unfold T. rewrite rstrip_app_nonnil; rewrite rstrip_strip; [reflexivity | exact Ht]. }
  assert (E1 : rstrip_lines (T :: rest) = T :: rstrip_lines rest).
  { rewrite rstrip_lines_cons_nonblank by exact HT.
    destruct (rstrip_lines rest); [rewrite HrT|]; reflexivity. }
  assert (E2 : rstrip_lines (subject :: T :: rest) = subject :: T :: rstrip_lines rest).
  { rewrite rstrip_lines_cons_nonblank by exact Hsub. rewrite E1. reflexivity. }
  rewrite rstrip_lines_app_blank by (rewrite E2; discriminate).
  rewrite E2. apply lstrip_lines_app_blank; assumption.
Qed.

Lemma lstrip_length s : (length (lstrip s) <= length s)%nat.
Proof.
  induction s as [|c s IH]; simpl; [lia|]. destruct (isspace c); simpl; lia.
Qed.

Lemma lstrip_fixed_head c s : lstrip (c :: s) = c :: s -> isspace c = false.
Proof.
  intros H. destruct (isspace c) eqn:E; [|reflexivity].
  rewrite (lstrip_space c s E) in H. pose proof (lstrip_length s) as Hl.
  rewrite H in Hl. simpl in Hl. lia.
Qed.

Lemma stripped_first_line s :
  lstrip s = s -> s <> [] ->
  exists l rest, splitlines s = l :: rest /\ is_blank l = false.
Proof.
  intros Hs Hne. destruct s as [|c s]; [congruence|].
  pose proof (lstrip_fixed_head c s Hs) as Hc.
  rewrite splitlines_char by (apply isspace_not_linebreak, Hc).
  destruct (splitlines s) as [|l rest]; cbn [push_char]; eexists _, _;
    (split; [reflexivity|]); rewrite is_blank_cons, Hc; reflexivity.
Qed.

Lemma topic_missing_result msg manual_topic :
  truthy (strip manual_topic) = true ->
  topic_missing (splitlines (ensure_topic_line msg manual_topic)) = false.
Proof.
  intros Ht. destruct (topic_missing (splitlines msg)) eqn:Hm.
  - destruct (topic_missing_split _ Hm) as (pre & subject & rest & E & Bpre & Bsub & Hscan).
    rewrite (ensure_topic_line_insert msg manual_topic pre subject rest) by assumption.
    pose proof (splitlines_nobreak msg) as Hnb. rewrite E in Hnb.
    apply Forall_app in Hnb as [Hpre Hrest]. inversion Hrest; subst.
    rewrite topic_missing_strip. apply topic_missing_after_insert; assumption.
  - rewrite ensure_topic_line_noop by (rewrite Hm; apply andb_false_r).
    rewrite topic_missing_strip. exact Hm.
Qed.

Lemma ensure_topic_line_is_strip msg manual_topic :
  exists x, ensure_topic_line msg manual_topic = strip x.
Proof.
  destruct (truthy (strip manual_topic) && topic_missing (splitlines msg)) eqn:H.
  - apply andb_prop in H as [Ht Hm].
    destruct (topic_missing_split _ Hm) as (pre & subject & rest & E & Bpre & Bsub & Hscan).
    rewrite (ensure_topic_line_insert msg manual_topic pre subject rest) by assumption.
    eauto.
  - rewrite ensure_topic_line_noop by exact H. eauto.
Qed.

(** *** Statements *)

(** X7: the message returned by [ensure_topic_line] has no leading and no trailing whitespace. *)
Theorem ensure_topic_line_stripped (msg manual_topic : str) :
  strip (ensure_topic_line msg manual_topic) = ensure_topic_line msg manual_topic
  /\ lstrip (ensure_topic_line msg manual_topic) = ensure_topic_line msg manual_topic
  /\ rstrip (ensure_topic_line msg manual_topic) = ensure_topic_line msg manual_topic.
Proof.
  destruct (ensure_topic_line_is_strip msg manual_topic) as [x ->].
  split; [apply strip_idem|]. split; [apply lstrip_strip | apply rstrip_strip].
Qed.

(** X8: when the manual topic is not blank, the message returned by [ensure_topic_line] is empty, or its first line is its subject and a Topic line is among the contiguous non-blank lines that follow it. *)
Theorem ensure_topic_line_has_topic (msg manual_topic : str) :
  strip manual_topic <> [] ->
  ensure_topic_line msg manual_topic = []
  \/ exists subject rest,
       splitlines (ensure_topic_line msg manual_topic) = subject :: rest
       /\ is_blank subject = false /\ topic_in_block rest.
Proof.
  intros Ht. apply truthy_true_iff in Ht.
  pose proof (topic_missing_result msg manual_topic Ht) as Hm.
  destruct (ensure_topic_line_is_strip msg manual_topic) as [x E].
  destruct (ensure_topic_line msg manual_topic) as [|c r] eqn:Er; [left; reflexivity|].
  right. destruct (stripped_first_line (c :: r)) as (l & rest & El & Hl).
  - rewrite E. apply lstrip_strip.
  - discriminate.
  - exists l, rest. rewrite El in Hm. rewrite topic_missing_cons, Hl in Hm.
    repeat split; [exact El | exact Hl |].
    apply topic_scan_true_iff. destruct (topic_scan rest); [reflexivity | discriminate].
Qed.

Lemma ensure_topic_line_has_topic_witness :
  ensure_topic_line (lit "fix: a" ++ nl ++ nl ++ lit "body") (lit "T1") = []
  \/ exists subject rest,
       splitlines (ensure_topic_line (lit "fix: a" ++ nl ++ nl ++ lit "body") (lit "T1"))
       = subject :: rest
       /\ is_blank subject = false /\ topic_in_block rest.
Proof.
  apply (ensure_topic_line_has_topic (lit "fix: a" ++ nl ++ nl ++ lit "body") (lit "T1")).
  vm_compute. discriminate.
Defined.

(** X9: when [ensure_topic_line] inserts a one-line topic, the lines of the result are the subject without its leading whitespace, then the line Topic: <stripped topic>, then the lines that followed the subject, less trailing blank lines and trailing whitespace. *)
Theorem ensure_topic_line_result_lines
    (msg manual_topic : str) (pre : list str) (subject : str) (rest : list str) :
  splitlines msg = pre ++ subject :: rest ->
  forallb is_blank pre = true -> is_blank subject = false ->
  strip manual_topic <> [] -> nobreak (strip manual_topic) ->
  ~ topic_in_block rest ->
  splitlines (ensure_topic_line msg manual_topic)
  = lstrip subject :: (lit "Topic: " ++ strip manual_topic) :: rstrip_lines rest.
Proof.
  intros E Hpre Hsub Ht Hnb Hno.
  apply (ensure_topic_line_insert_lines msg manual_topic pre subject rest);
    try assumption.
  apply topic_scan_false_iff, Hno.
Qed.

Lemma ensure_topic_line_result_lines_witness :
  splitlines (ensure_topic_line
                (nl ++ lit "  fix: a" ++ [CR; LF] ++ lit "why " ++ nl ++ nl ++ lit "more" ++ nl ++ lit "  ")
                (lit " T1 "))
  = [lit "fix: a"; lit "Topic: T1"; lit "why "; lit ""; lit "more"].
Proof.
  apply (ensure_topic_line_result_lines
           (nl ++ lit "  fix: a" ++ [CR; LF] ++ lit "why " ++ nl ++ nl ++ lit "more" ++ nl ++ lit "  ")
           (lit " T1 ") [lit ""] (lit "  fix: a")
           [lit "why "; lit ""; lit "more"; lit "  "]); try reflexivity.
  - vm_compute. discriminate.
  - vm_compute. repeat constructor.
  - apply topic_scan_false_iff. reflexivity.
Defined.

(** The split of the message after an insertion. *)
Lemma split_message_after_insert
    (msg manual_topic : str) (pre : list str) (subject : str) (rest : list str) :
  splitlines msg = pre ++ subject :: rest ->
  forallb is_blank pre = true -> is_blank subject = false ->
  strip manual_topic <> [] -> nobreak (strip manual_topic) ->
  ~ topic_in_block rest ->
  split_message (ensure_topic_line msg manual_topic)
  = Some (lstrip subject,
          rstrip (join nl ((lit "Topic: " ++ strip manual_topic)
                           :: rstrip_lines rest))).
Proof.
  intros E Hpre Hsub Ht Hnb Hno.
  rewrite (split_message_subject _ [] (lstrip subject)
             ((lit "Topic: " ++ strip manual_topic) :: rstrip_lines rest)).
  - unfold drop_leading_blank.
    destruct (topic_prefix_line (strip manual_topic)) as [-> _]. reflexivity.
  - apply (ensure_topic_line_insert_lines msg manual_topic pre subject rest);
      try assumption. apply topic_scan_false_iff, Hno.
  - reflexivity.
  - rewrite is_blank_lstrip. exact Hsub.
Qed.

Lemma topic_body_not_blank (y : str) (ls : list str) :
  truthy (strip (rstrip (join nl ((lit "Topic: " ++ y) :: ls)))) = true.
Proof.
  rewrite truthy_strip, is_blank_rstrip, is_blank_forallb.
  destruct ls; reflexivity.
Qed.

(** X10: what is committed after an insertion.  When [ensure_topic_line] has inserted a one-line topic and the user accepts the message, git commit is run once, with the arguments -m <subject without its leading whitespace> -m <body>, where the body is the line Topic: <stripped topic> followed by the lines that came after the subject (less trailing blank lines and trailing whitespace), joined by newlines; --edit --cleanup=strip follow when the answer was e, and GIT_EDITOR is set to notepad only then and on Windows. *)
Theorem commit_after_ensure_topic_line `{PyRuntime} (w : world)
    (msg manual_topic : str) (pre : list str) (subject : str) (rest : list str) :
  accepted w = true ->
  splitlines msg = pre ++ subject :: rest ->
  forallb is_blank pre = true -> is_blank subject = false ->
  strip manual_topic <> [] -> nobreak (strip manual_topic) ->
  ~ topic_in_block rest ->
  let body :=
    rstrip (join nl ((lit "Topic: " ++ strip manual_topic) :: rstrip_lines rest)) in
  let edit := str_eqb (lower (strip (stdin_line w))) (lit "e") in
  let cmd :=
    [lit "git"; lit "commit"; lit "-m"; lstrip subject; lit "-m"; body]
    ++ (if edit then [lit "--edit"; lit "--cleanup=strip"] else []) in
  let git_editor :=
    if edit && str_eqb (os_name w) (lit "nt") then Some (lit "notepad") else None in
  List.filter is_git_commit
    (fst (confirm_and_commit w (ensure_topic_line msg manual_topic)))
  = [GitCommit cmd git_editor].
Proof.
  intros Ha E Hpre Hsub Ht Hnb Hno. cbv zeta.
  unfold confirm_and_commit. unfold accepted in Ha.
  cbn [bind emit]. rewrite Ha.
  rewrite (split_message_after_insert msg manual_topic pre subject rest)
    by assumption.
  cbv beta iota zeta. rewrite topic_body_not_blank.
  unfold info, error, sys_exit, emit, bind.
  destruct (str_eqb (lower (strip (stdin_line w))) (lit "e"));
    destruct (git_commit_returncode w _ _ =? 0); reflexivity.
Qed.

(** The answer is e on a system that is not Windows. *)
Lemma commit_after_ensure_topic_line_witness :
  List.filter is_git_commit
    (fst (@confirm_and_commit sample_runtime
            (sample_world_with false None (inl (lit "")) (inl ValueError) (lit "e"))
            (ensure_topic_line (lit " fix: a" ++ nl ++ nl ++ lit "body" ++ nl)
               (lit " T1 "))))
  = [GitCommit
       [lit "git"; lit "commit"; lit "-m"; lit "fix: a"; lit "-m";
        lit "Topic: T1" ++ nl ++ nl ++ lit "body";
        lit "--edit"; lit "--cleanup=strip"]
       None].
Proof.
  apply (@commit_after_ensure_topic_line sample_runtime
           (sample_world_with false None (inl (lit "")) (inl ValueError) (lit "e"))
           (lit " fix: a" ++ nl ++ nl ++ lit "body" ++ nl) (lit " T1 ")
           [] (lit " fix: a") [lit ""; lit "body"]); try reflexivity.
  - vm_compute. discriminate.
  - vm_compute. repeat constructor.
  - apply topic_scan_false_iff. reflexivity.
Defined.

(** X11: a subject returned by [split_message] is a line of the message, is not blank and holds no line terminator; the body has no trailing whitespace. *)
Theorem split_message_some_inv (msg subject body : str) :
  split_message msg = Some (subject, body) ->
  In subject (splitlines msg) /\ is_blank subject = false
  /\ nobreak subject /\ rstrip body = body.
Proof.
  intros H. pose proof (first_nonblank_spec (splitlines msg) 0) as Hs.
  destruct (first_nonblank (splitlines msg) 0) as [[i ln]|] eqn:Ef.
  - destruct Hs as (pre & rest & E & Hpre & Hln & _).
    rewrite (split_message_subject msg pre ln rest E Hpre Hln) in H.
    injection H as <- <-. split; [rewrite E; apply in_elt|].
    split; [exact Hln|]. split; [|apply rstrip_idem].
    pose proof (splitlines_nobreak msg) as Hnb. rewrite E in Hnb.
    apply Forall_app in Hnb as [_ Hnb]. inversion Hnb; assumption.
  - rewrite (split_message_blank msg Hs) in H. discriminate.
Qed.

Lemma split_message_some_inv_witness :
  In (lit "fix: a") (splitlines (lit "fix: a" ++ nl ++ lit "b "))
  /\ is_blank (lit "fix: a") = false
  /\ nobreak (lit "fix: a") /\ rstrip (lit "b") = lit "b".
Proof.
  apply (split_message_some_inv (lit "fix: a" ++ nl ++ lit "b ") (lit "fix: a") (lit "b")).
  vm_compute. reflexivity.
Defined.

(** X12: [split_message] has no result (the empty-subject exit of main) exactly when the message is blank. *)
Theorem split_message_none_iff (msg : str) :
  split_message msg = None <-> is_blank msg = true.
Proof.
  rewrite <- forallb_blank_splitlines. split.
  - intros H. pose proof (first_nonblank_spec (splitlines msg) 0) as Hs.
    destruct (first_nonblank (splitlines msg) 0) as [[i ln]|]; [|exact Hs].
    destruct Hs as (pre & rest & E & Hpre & Hln & _).
    rewrite (split_message_subject msg pre ln rest E Hpre Hln) in H. discriminate.
  - apply split_message_blank.
Qed.

Lemma split_message_none_iff_witness :
  split_message (lit " " ++ nl ++ lit "  ") = None.
Proof.
  apply (proj2 (split_message_none_iff (lit " " ++ nl ++ lit "  "))).
  reflexivity.
Defined.

(** X13: a message laid out as subject, empty line, body lines splits into that subject and the body lines joined by newlines, less trailing whitespace. *)
Theorem split_message_canonical (subject : str) (body_lines : list str) :
  nobreak subject -> is_blank subject = false -> Forall nobreak body_lines ->
  split_message (join nl (subject :: lit "" :: body_lines))
  = Some (subject, rstrip (join nl body_lines)).
Proof.
  intros Hns Hsub Hnb.
  rewrite (join_cons_nl subject) by discriminate.
  destruct body_lines as [|b bs].
  - apply (split_message_subject _ [] subject []); [|reflexivity | exact Hsub].
    rewrite splitlines_line by exact Hns. reflexivity.
  - rewrite (join_cons_nl (lit "")) by discriminate.
    rewrite (split_message_subject _ [] subject
               (lit "" :: splitlines (join nl (b :: bs))));
      [| | reflexivity | exact Hsub].
    + unfold drop_leading_blank. change (is_blank (lit "")) with true. cbv iota.
      rewrite rstrip_join_splitlines by exact Hnb. reflexivity.
    + rewrite splitlines_line by exact Hns.
      change (lit "" ++ LF :: join nl (b :: bs)) with ([] ++ LF :: join nl (b :: bs)).
      rewrite splitlines_line by constructor. reflexivity.
Qed.

Lemma split_message_canonical_witness :
  split_message (join nl [lit "fix: a"; lit ""; lit "CHANGES:"; lit "- x"; lit ""])
  = Some (lit "fix: a", rstrip (join nl [lit "CHANGES:"; lit "- x"; lit ""])).
Proof.
  apply (split_message_canonical (lit "fix: a") [lit "CHANGES:"; lit "- x"; lit ""]).
  - vm_compute. repeat constructor.
  - reflexivity.
  - vm_compute. repeat constructor.
Defined.

Section Traces.
Context `{PyRuntime}.

Lemma fst_bind {A B} (m : prog A) (k : A -> prog B) :
  fst (bind m k)
  = fst m ++ match snd m with Ret a => fst (k a) | _ => [] end.
Proof.
  unfold bind. destruct m as [t [a|c|e]]; simpl; try (symmetry; apply app_nil_r).
  destruct (k a). reflexivity.
Qed.

Lemma snd_bind {A B} (m : prog A) (k : A -> prog B) :
  snd (bind m k)
  = match snd m with Ret a => snd (k a) | Exit c => Exit c | Raise e => Raise e end.
Proof.
  unfold bind. destruct m as [t [a|c|e]]; simpl; try reflexivity.
  destruct (k a). reflexivity.
Qed.

Lemma at_most_bind {A B} P n1 n2 (m : prog A) (k : A -> prog B) :
  at_most P n1 m -> (forall a, snd m = Ret a -> at_most P n2 (k a)) ->
  at_most P (n1 + n2) (bind m k).
Proof.
  unfold at_most. intros H1 H2. rewrite fst_bind, List.filter_app, length_app.
  destruct (snd m) as [a|c|e]; [specialize (H2 a eq_refl)|..]; simpl; lia.
Qed.

Lemma in_bind_r {A B} (m : prog A) (k : A -> prog B) a e :
  snd m = Ret a -> In e (fst (k a)) -> In e (fst (bind m k)).
Proof.
  intros Hm He. rewrite fst_bind, Hm. apply in_or_app. right. exact He.
Qed.

Lemma at_most_0_1 {A} P (m : prog A) : at_most P 0 m -> at_most P 1 m.
Proof. unfold at_most. lia. Qed.

Lemma at_most_0_existsb {A} P (m : prog A) :
  at_most P 0 m <-> existsb P (fst m) = false.
Proof.
  unfold at_most. induction (fst m) as [|e t IH]; simpl; [intuition lia|].
  destruct (P e); simpl; [split; [lia | discriminate]|exact IH].
Qed.

Lemma at_most_emit P n e : P e = false -> at_most P n (emit e).
Proof. intros He. unfold at_most, emit. simpl. rewrite He. simpl. lia. Qed.

Lemma at_most_emit_1 P e : at_most P 1 (emit e).
Proof. unfold at_most, emit. simpl. destruct (P e); simpl; lia. Qed.

Lemma at_most_nil {A} P n (o : outcome A) : at_most P n ([], o).
Proof. unfold at_most. simpl. lia. Qed.

End Traces.

(** Bound the selected events of a program built from [bind], [if] and
    [match]: [simp] rewrites the hypothesis saying that a step returned, to
    leave out continuations that are never reached; [leaf] closes what is
    left. *)
Ltac bound_events_with simp leaf :=
  cbv beta iota zeta;
  lazymatch goal with
  | |- at_most _ 0%nat (bind _ _) =>
      apply (at_most_bind _ 0 0);
      [ bound_events_with simp leaf
      | let Hret := fresh "Hret" in
        intros ? Hret; cbn [snd fst bind emit] in Hret; simp Hret;
        first [ discriminate | bound_events_with simp leaf ] ]
  | |- at_most _ 1%nat (bind _ _) =>
      first [ apply (at_most_bind _ 0 1);
              [ solve [bound_events_with simp leaf]
              | let Hret := fresh "Hret" in
                intros ? Hret; cbn [snd fst bind emit] in Hret; simp Hret;
                first [ discriminate | bound_events_with simp leaf ] ]
            | apply (at_most_bind _ 1 0);
              [ bound_events_with simp leaf
              | let Hret := fresh "Hret" in
                intros ? Hret; cbn [snd fst bind emit] in Hret; simp Hret;
                first [ discriminate | solve [bound_events_with simp leaf] ] ] ]
  | |- at_most _ _ (if ?b then _ else _) =>
      destruct b eqn:?; bound_events_with simp leaf
  | |- at_most _ _ (match ?x with _ => _ end) =>
      destruct x eqn:?; bound_events_with simp leaf
  | |- at_most _ _ (emit _) =>
      first [ apply at_most_emit; reflexivity | apply at_most_emit_1 ]
  | |- at_most _ _ _ =>
      first [ apply at_most_nil | leaf ]
  end.

Ltac bound_events leaf := bound_events_with ltac:(fun _ => idtac) leaf.

Ltac unfold_steps :=
  unfold call_api, generate_commit_message_local, get_staged_diff,
    get_staged_files, info, warn, error, ret, sys_exit, raise, lift.

Lemma confirm_and_commit_no_backend `{PyRuntime} (w : world) msg :
  at_most is_backend_call 0 (confirm_and_commit w msg).
Proof. unfold confirm_and_commit. unfold_steps. bound_events fail. Qed.

Lemma confirm_and_commit_declined `{PyRuntime} (w : world) msg :
  accepted w = false ->
  confirm_and_commit w msg
  = ([Input (lit "Accept this commit message? [y]es/[n]o/[e]dit: ");
      Stdout (lit "[warn] Commit aborted")], Ret tt).
Proof.
  intros Ha. unfold confirm_and_commit. unfold accepted in Ha.
  cbn [bind emit]. rewrite Ha. reflexivity.
Qed.

(** X14: a run of [main] calls a backend at most once, never the remote API when the local backend is selected (--local, or the configured default without --api), and never the local backend otherwise. *)
Theorem main_one_backend `{PyRuntime} (cfg : config) (w : world) :
  let trace := fst (main cfg w) in
  (length (List.filter is_backend_call trace) <= 1)%nat
  /\ (uses_local cfg w = true -> existsb is_api_call trace = false)
  /\ (uses_local cfg w = false -> existsb is_local_call trace = false).
Proof.
  cbv zeta. split; [|split].
  - change (at_most is_backend_call 1 (main cfg w)).
    unfold main. unfold_steps.
    bound_events ltac:(first [ apply confirm_and_commit_no_backend
                             | apply at_most_0_1, confirm_and_commit_no_backend ]).
  - intros Hl. apply at_most_0_existsb. unfold uses_local in Hl.
    unfold main, confirm_and_commit. unfold_steps. rewrite Hl.
    bound_events fail.
  - intros Hl. apply at_most_0_existsb. unfold uses_local in Hl.
    unfold main, confirm_and_commit. unfold_steps. rewrite Hl.
    bound_events fail.
Qed.

Lemma main_one_backend_witness :
  (length (List.filter is_backend_call
             (fst (@main sample_runtime (sample_config 360)
                     (sample_world_with true None (inl (lit "")) (inl ValueError)
                        (lit "n"))))) <= 1)%nat
  /\ existsb is_api_call
       (fst (@main sample_runtime (sample_config 360)
               (sample_world_with true None (inl (lit "")) (inl ValueError)
                  (lit "n")))) = false.
Proof.
  split.
  - apply (@main_one_backend sample_runtime (sample_config 360)
             (sample_world_with true None (inl (lit "")) (inl ValueError) (lit "n"))).
  - apply (@main_one_backend sample_runtime (sample_config 360)
             (sample_world_with true None (inl (lit "")) (inl ValueError) (lit "n"))).
    reflexivity.
Defined.

Lemma confirm_and_commit_one_commit `{PyRuntime} (w : world) msg :
  at_most is_git_commit 1 (confirm_and_commit w msg).
Proof. unfold confirm_and_commit. unfold_steps. bound_events fail. Qed.

Lemma confirm_and_commit_declined_quiet `{PyRuntime} (w : world) msg :
  accepted w = false -> at_most is_git_commit 0 (confirm_and_commit w msg).
Proof.
  intros Ha. rewrite (confirm_and_commit_declined w msg Ha).
  unfold at_most. simpl. lia.
Qed.

(** X15: a run of [main] runs git commit at most once, and not at all unless the user answers y or e. *)
Theorem main_commit_needs_acceptance `{PyRuntime} (cfg : config) (w : world) :
  let trace := fst (main cfg w) in
  (length (List.filter is_git_commit trace) <= 1)%nat
  /\ (accepted w = false -> existsb is_git_commit trace = false).
Proof.
  cbv zeta. split.
  - change (at_most is_git_commit 1 (main cfg w)).
    unfold main. unfold_steps.
    bound_events ltac:(apply confirm_and_commit_one_commit).
  - intros Ha. apply at_most_0_existsb.
    unfold main. unfold_steps.
    bound_events ltac:(apply (confirm_and_commit_declined_quiet _ _ Ha)).
Qed.

Lemma main_commit_needs_acceptance_witness :
  existsb is_git_commit
    (fst (@main sample_runtime (sample_config 360)
            (sample_world_with false (Some (lit "sk-test"))
               (inr (lit "fix: a", @JObj sample_runtime ∅)) (inl ValueError)
               (lit "no")))) = false.
Proof.
  apply (@main_commit_needs_acceptance sample_runtime (sample_config 360)
           (sample_world_with false (Some (lit "sk-test"))
              (inr (lit "fix: a", @JObj sample_runtime ∅)) (inl ValueError)
              (lit "no"))).
  reflexivity.
Defined.

(** Reading the outcome and the trace of a run along its [bind]s. *)
Ltac run_outcome :=
  repeat (rewrite snd_bind; cbn [snd fst emit]; cbv beta iota).

(** X16: on the remote path, when the environment variable of the API key is unset or empty, [main] leaves with exit code 1 without calling a backend, asking the user or committing. *)
Theorem main_missing_api_key `{PyRuntime} (cfg : config) (w : world) :
  arg_command w = Some (lit "commit") ->
  is_blank (staged_diff w) = false ->
  uses_local cfg w = false ->
  getenv w (API_KEY_ENV_NAME cfg) = None
  \/ getenv w (API_KEY_ENV_NAME cfg) = Some (lit "") ->
  snd (main cfg w) = Exit 1
  /\ existsb is_backend_call (fst (main cfg w)) = false
  /\ existsb is_input (fst (main cfg w)) = false
  /\ existsb is_git_commit (fst (main cfg w)) = false.
Proof.
  intros Hcmd Hdiff Hl Hkey. unfold uses_local in Hl.
  unfold is_blank, staged_diff in Hdiff. apply negb_false_iff in Hdiff.
  split; [|split; [|split]].
  - unfold main. rewrite Hcmd. change (str_eqb (lit "commit") (lit "commit")) with true.
    cbn [negb]. unfold_steps. rewrite Hl.
    run_outcome. rewrite Hdiff. cbn [negb].
    destruct (truncate_diff cfg _) as [[[text truncated] total] kept].
    destruct truncated; run_outcome;
      (destruct Hkey as [Hk | Hk]; rewrite Hk; cbv beta iota;
       change (truthy (lit "")) with false; cbv iota; reflexivity).
  - apply at_most_0_existsb. unfold main. unfold_steps. rewrite Hl.
    destruct Hkey as [Hk | Hk]; rewrite Hk; cbv beta iota;
      change (truthy (lit "")) with false; bound_events fail.
  - apply at_most_0_existsb. unfold main. unfold_steps. rewrite Hl.
    destruct Hkey as [Hk | Hk]; rewrite Hk; cbv beta iota;
      change (truthy (lit "")) with false; bound_events fail.
  - apply at_most_0_existsb. unfold main. unfold_steps. rewrite Hl.
    destruct Hkey as [Hk | Hk]; rewrite Hk; cbv beta iota;
      change (truthy (lit "")) with false; bound_events fail.
Qed.

Lemma main_missing_api_key_witness :
  snd (@main sample_runtime (sample_config 360)
         (sample_world_with false None (inl (lit "")) (inl ValueError) (lit "y")))
  = Exit 1
  /\ existsb is_backend_call
       (fst (@main sample_runtime (sample_config 360)
               (sample_world_with false None (inl (lit "")) (inl ValueError) (lit "y"))))
     = false
  /\ existsb is_input
       (fst (@main sample_runtime (sample_config 360)
               (sample_world_with false None (inl (lit "")) (inl ValueError) (lit "y"))))
     = false
  /\ existsb is_git_commit
       (fst (@main sample_runtime (sample_config 360)
               (sample_world_with false None (inl (lit "")) (inl ValueError) (lit "y"))))
     = false.
Proof.
  apply (@main_missing_api_key sample_runtime (sample_config 360)
           (sample_world_with false None (inl (lit "")) (inl ValueError) (lit "y")));
    try reflexivity.
  left. reflexivity.
Defined.

(** X17: when the API request fails, [main] ends with the RuntimeError of [call_api]; the user is not asked and nothing is committed. *)
Theorem main_api_failure `{PyRuntime} (cfg : config) (w : world)
    (api_key err : str) :
  arg_command w = Some (lit "commit") ->
  is_blank (staged_diff w) = false ->
  uses_local cfg w = false ->
  getenv w (API_KEY_ENV_NAME cfg) = Some api_key ->
  truthy api_key = true ->
  (forall prompt, api_reply w api_key prompt = inl err) ->
  snd (main cfg w) = Raise (RuntimeError err)
  /\ existsb is_input (fst (main cfg w)) = false
  /\ existsb is_git_commit (fst (main cfg w)) = false.
Proof.
  intros Hcmd Hdiff Hl Hkey Htr Hfail. unfold uses_local in Hl.
  unfold is_blank, staged_diff in Hdiff. apply negb_false_iff in Hdiff.
  split; [|split].
  - unfold main. rewrite Hcmd. change (str_eqb (lit "commit") (lit "commit")) with true.
    cbn [negb]. unfold_steps. rewrite Hl.
    run_outcome. rewrite Hdiff. cbn [negb].
    destruct (truncate_diff cfg _) as [[[text truncated] total] kept].
    destruct truncated; run_outcome; rewrite Hkey; cbv beta iota; rewrite Htr;
      run_outcome; rewrite Hfail; reflexivity.
  - apply at_most_0_existsb. unfold main. unfold_steps. rewrite Hl, Hkey.
    cbv beta iota. rewrite Htr.
    bound_events_with ltac:(fun Hr => rewrite ?Hfail in Hr) fail.
  - apply at_most_0_existsb. unfold main. unfold_steps. rewrite Hl, Hkey.
    cbv beta iota. rewrite Htr.
    bound_events_with ltac:(fun Hr => rewrite ?Hfail in Hr) fail.
Qed.

Lemma main_api_failure_witness :
  snd (@main sample_runtime (sample_config 360)
         (sample_world_with false (Some (lit "sk-test")) (inl (lit "API error: 500"))
            (inl ValueError) (lit "y")))
  = Raise (RuntimeError (lit "API error: 500"))
  /\ existsb is_input
       (fst (@main sample_runtime (sample_config 360)
               (sample_world_with false (Some (lit "sk-test")) (inl (lit "API error: 500"))
                  (inl ValueError) (lit "y")))) = false
  /\ existsb is_git_commit
       (fst (@main sample_runtime (sample_config 360)
               (sample_world_with false (Some (lit "sk-test")) (inl (lit "API error: 500"))
                  (inl ValueError) (lit "y")))) = false.
Proof.
  apply (@main_api_failure sample_runtime (sample_config 360)
           (sample_world_with false (Some (lit "sk-test")) (inl (lit "API error: 500"))
              (inl ValueError) (lit "y"))
           (lit "sk-test") (lit "API error: 500"));
    first [ reflexivity | intros; reflexivity ].
Defined.

(** X18: when the local backend fails, [main] ends with its exception; the user is not asked and nothing is committed. *)
Theorem main_local_failure `{PyRuntime} (cfg : config) (w : world) (e : exn) :
  arg_command w = Some (lit "commit") ->
  is_blank (staged_diff w) = false ->
  uses_local cfg w = true ->
  (forall prompt model, local_reply w prompt model = inl e) ->
  snd (main cfg w) = Raise e
  /\ existsb is_input (fst (main cfg w)) = false
  /\ existsb is_git_commit (fst (main cfg w)) = false.
Proof.
  intros Hcmd Hdiff Hl Hfail. unfold uses_local in Hl.
  unfold is_blank, staged_diff in Hdiff. apply negb_false_iff in Hdiff.
  split; [|split].
  - unfold main. rewrite Hcmd. change (str_eqb (lit "commit") (lit "commit")) with true.
    cbn [negb]. unfold_steps. rewrite Hl.
    run_outcome. rewrite Hdiff. cbn [negb].
    destruct (truncate_diff cfg _) as [[[text truncated] total] kept].
    destruct truncated; run_outcome; rewrite Hfail; reflexivity.
  - apply at_most_0_existsb. unfold main. unfold_steps. rewrite Hl.
    bound_events_with ltac:(fun Hr => rewrite ?Hfail in Hr) fail.
  - apply at_most_0_existsb. unfold main. unfold_steps. rewrite Hl.
    bound_events_with ltac:(fun Hr => rewrite ?Hfail in Hr) fail.
Qed.

Lemma main_local_failure_witness :
  snd (@main sample_runtime (sample_config 360)
         (sample_world_with true None (inl (lit ""))
            (inl (RuntimeError (lit "down"))) (lit "y")))
  = Raise (RuntimeError (lit "down"))
  /\ existsb is_input
       (fst (@main sample_runtime (sample_config 360)
               (sample_world_with true None (inl (lit ""))
                  (inl (RuntimeError (lit "down"))) (lit "y")))) = false
  /\ existsb is_git_commit
       (fst (@main sample_runtime (sample_config 360)
               (sample_world_with true None (inl (lit ""))
                  (inl (RuntimeError (lit "down"))) (lit "y")))) = false.
Proof.
  apply (@main_local_failure sample_runtime (sample_config 360)
           (sample_world_with true None (inl (lit ""))
              (inl (RuntimeError (lit "down"))) (lit "y"))
           (RuntimeError (lit "down")));
    first [ reflexivity | intros; reflexivity ].
Defined.

Lemma estimate_cost_usd_bad_usage `{PyRuntime} (cfg : config) model table pricing
    usage :
  OPENAI_API_PRICING_PER_1M cfg = JObj table ->
  table !! model = Some pricing ->
  json_truthy pricing = true ->
  (forall u, usage <> JObj u) ->
  estimate_cost_usd cfg model usage = Raise AttributeError.
Proof.
  intros Htab Hp Ht Hu. unfold estimate_cost_usd.
  rewrite Htab. cbn [py_get obind]. rewrite Hp, Ht. cbn [negb].
  destruct usage; try reflexivity. exfalso. eapply Hu. reflexivity.
Qed.

(** X19: on the remote path, when the reply carries a usage value that is not a mapping (JSON null, say) and the model is priced (the pricing table is a mapping with a truthy entry for it), [main] prints the message and then ends with AttributeError from [estimate_cost_usd]; the user is not asked and nothing is committed. *)
Theorem main_usage_not_a_mapping `{PyRuntime} (cfg : config) (w : world)
    (api_key content : str) (usage pricing : json) (table : gmap str json) :
  arg_command w = Some (lit "commit") ->
  is_blank (staged_diff w) = false ->
  uses_local cfg w = false ->
  getenv w (API_KEY_ENV_NAME cfg) = Some api_key ->
  truthy api_key = true ->
  (forall prompt, api_reply w api_key prompt = inr (content, usage)) ->
  OPENAI_API_PRICING_PER_1M cfg = JObj table ->
  table !! API_MODEL cfg = Some pricing ->
  json_truthy pricing = true ->
  (forall u, usage <> JObj u) ->
  snd (main cfg w) = Raise AttributeError
  /\ In (Stdout (ensure_topic_line (strip content) (arg_manual_message w)))
        (fst (main cfg w))
  /\ existsb is_input (fst (main cfg w)) = false
  /\ existsb is_git_commit (fst (main cfg w)) = false.
Proof.
  intros Hcmd Hdiff Hl Hkey Htr Hok Htab Hp Hpt Hu. unfold uses_local in Hl.
  unfold is_blank, staged_diff in Hdiff. apply negb_false_iff in Hdiff.
  pose proof (estimate_cost_usd_bad_usage cfg _ _ _ usage Htab Hp Hpt Hu) as He.
  split; [|split; [|split]].
  - unfold main. rewrite Hcmd. change (str_eqb (lit "commit") (lit "commit")) with true.
    cbn [negb]. unfold_steps. rewrite Hl.
    run_outcome. rewrite Hdiff. cbn [negb].
    destruct (truncate_diff cfg _) as [[[text truncated] total] kept].
    destruct truncated; run_outcome; rewrite Hkey; cbv beta iota; rewrite Htr;
      run_outcome; rewrite Hok; cbn [snd negb]; cbv beta iota; run_outcome;
      rewrite He; reflexivity.
  - unfold main. rewrite Hcmd. change (str_eqb (lit "commit") (lit "commit")) with true.
    cbn [negb]. unfold_steps. rewrite Hl, Hkey. cbv beta iota. rewrite Htr.
    eapply in_bind_r; [run_outcome; reflexivity|]. cbv beta.
    eapply in_bind_r; [run_outcome; reflexivity|]. cbv beta.
    rewrite Hdiff. cbn [negb].
    destruct (truncate_diff cfg _) as [[[text truncated] total] kept].
    eapply in_bind_r; [destruct truncated; reflexivity|]. cbv beta.
    eapply in_bind_r; [reflexivity|]. cbv beta.
    eapply in_bind_r; [run_outcome; rewrite Hok; reflexivity|]. cbv beta iota.
    eapply in_bind_r; [reflexivity|]. cbv beta.
    rewrite fst_bind. left. reflexivity.
  - apply at_most_0_existsb. unfold main. unfold_steps. rewrite Hl, Hkey.
    cbv beta iota. rewrite Htr. cbn [negb].
    bound_events_with
      ltac:(fun Hr => rewrite ?Hok, ?He in Hr; cbn [snd fst bind emit] in Hr;
                      try (injection Hr as <-)) fail.
  - apply at_most_0_existsb. unfold main. unfold_steps. rewrite Hl, Hkey.
    cbv beta iota. rewrite Htr. cbn [negb].
    bound_events_with
      ltac:(fun Hr => rewrite ?Hok, ?He in Hr; cbn [snd fst bind emit] in Hr;
                      try (injection Hr as <-)) fail.
Qed.

Lemma main_usage_not_a_mapping_witness :
  snd (@main sample_runtime (sample_config 360)
         (sample_world_with false (Some (lit "sk-test"))
            (inr (lit " fix: a ", @JNull sample_runtime)) (inl ValueError) (lit "y")))
  = Raise AttributeError
  /\ In (Stdout (ensure_topic_line (strip (lit " fix: a ")) (lit "")))
        (fst (@main sample_runtime (sample_config 360)
                (sample_world_with false (Some (lit "sk-test"))
                   (inr (lit " fix: a ", @JNull sample_runtime)) (inl ValueError)
                   (lit "y"))))
  /\ existsb is_input
       (fst (@main sample_runtime (sample_config 360)
               (sample_world_with false (Some (lit "sk-test"))
                  (inr (lit " fix: a ", @JNull sample_runtime)) (inl ValueError)
                  (lit "y")))) = false
  /\ existsb is_git_commit
       (fst (@main sample_runtime (sample_config 360)
               (sample_world_with false (Some (lit "sk-test"))
                  (inr (lit " fix: a ", @JNull sample_runtime)) (inl ValueError)
                  (lit "y")))) = false.
Proof.
  apply (@main_usage_not_a_mapping sample_runtime (sample_config 360)
           (sample_world_with false (Some (lit "sk-test"))
              (inr (lit " fix: a ", @JNull sample_runtime)) (inl ValueError) (lit "y"))
           (lit "sk-test") (lit " fix: a ") (@JNull sample_runtime)
           (@JObj sample_runtime
              (<[lit "input" := @JFloat sample_runtime (25 # 100)]>
                 (<[lit "output" := @JFloat sample_runtime (2 # 1)]> ∅)))
           sample_pricing);
    first [ reflexivity | intros; reflexivity | vm_compute; reflexivity
          | intros; discriminate ].
Defined.

(** X20: once the user accepts a message that has a subject, git commit is run with -m <subject> first; a return code of 0 ends the run normally, any other return code is the exit code of the process. *)
Theorem confirm_and_commit_exit_code `{PyRuntime} (w : world) (msg subject body : str) :
  accepted w = true ->
  split_message msg = Some (subject, body) ->
  exists cmd git_editor,
    In (GitCommit cmd git_editor) (fst (confirm_and_commit w msg))
    /\ firstn 4 cmd = [lit "git"; lit "commit"; lit "-m"; subject]
    /\ snd (confirm_and_commit w msg)
       = (if git_commit_returncode w cmd git_editor =? 0 then Ret tt
          else Exit (git_commit_returncode w cmd git_editor)).
Proof.
  intros Ha Hs. unfold confirm_and_commit. unfold accepted in Ha.
  cbn [bind emit]. rewrite Ha, Hs. cbv beta iota zeta.
  match goal with
  | |- context [GitCommit ?c ?e] => exists c, e
  end.
  unfold info, error, sys_exit, emit, bind.
  destruct (git_commit_returncode w _ _ =? 0) eqn:Erc; cbn [negb fst snd app].
  - split; [right; left; reflexivity|].
    split; [|reflexivity].
    destruct (truthy (strip body)), (str_eqb _ (lit "e")); reflexivity.
  - split; [right; left; reflexivity|].
    split; [|reflexivity].
    destruct (truthy (strip body)), (str_eqb _ (lit "e")); reflexivity.
Qed.

Lemma confirm_and_commit_exit_code_witness :
  exists cmd git_editor,
    In (GitCommit cmd git_editor)
       (fst (@confirm_and_commit sample_runtime
               (sample_world_with false None (inl (lit "")) (inl ValueError) (lit "y"))
               (lit "fix: a")))
    /\ firstn 4 cmd = [lit "git"; lit "commit"; lit "-m"; lit "fix: a"]
    /\ snd (@confirm_and_commit sample_runtime
              (sample_world_with false None (inl (lit "")) (inl ValueError) (lit "y"))
              (lit "fix: a"))
       = (if git_commit_returncode
               (sample_world_with false None (inl (lit "")) (inl ValueError) (lit "y"))
               cmd git_editor =? 0
          then Ret tt
          else Exit (git_commit_returncode
                       (sample_world_with false None (inl (lit "")) (inl ValueError)
                          (lit "y")) cmd git_editor)).
Proof.
  apply (@confirm_and_commit_exit_code sample_runtime
           (sample_world_with false None (inl (lit "")) (inl ValueError) (lit "y"))
           (lit "fix: a") (lit "fix: a") (lit "")); reflexivity.
Defined.

(** X21: [get_staged_files] runs one git command and returns names that are not blank and hold no line terminator, so that the file list of the prompt (the names joined by newlines) splits back into the same names. *)
Theorem get_staged_files_clean `{PyRuntime} (w : world) :
  exists files,
    get_staged_files w
    = ([GitRead [lit "git"; lit "diff"; lit "--cached"; lit "--name-only"]],
       Ret files)
    /\ Forall (fun f => is_blank f = false /\ nobreak f) files
    /\ splitlines (join nl files) = files.
Proof.
  unfold get_staged_files. cbn [bind emit ret app].
  eexists. split; [reflexivity|].
  assert (Hf : Forall (fun f => is_blank f = false /\ nobreak f)
                 match git_diff_name_only w with
                 | Some out => List.filter (fun f => truthy (strip f)) (splitlines out)
                 | None => []
                 end).
  { destruct (git_diff_name_only w) as [out|]; [|constructor].
    apply List.Forall_forall. intros f Hin. apply List.filter_In in Hin as [Hin Hf].
    split.
    - rewrite truthy_strip in Hf. apply negb_true_iff, Hf.
    - pose proof (splitlines_nobreak out) as Hnb.
      rewrite List.Forall_forall in Hnb. apply Hnb, Hin. }
  split; [exact Hf|]. apply splitlines_join.
  - eapply List.Forall_impl; [|exact Hf]. simpl. tauto.
  - apply last_nonempty. eapply List.Forall_impl; [|exact Hf].
    simpl. intros f [Hb _] ->. discriminate.
Qed.

Lemma strip_truthy_eq t : truthy (strip (strip t)) = truthy (strip t).
Proof. rewrite strip_idem. reflexivity. Qed.

(** X22: the prompt and the post-processing depend on the manual topic only through its stripped form; a blank topic gives the prompt of no topic. *)
Theorem manual_topic_whitespace_ignored `{PyRuntime} (cfg : config)
    (files : list str) (diff msg manual_topic : str) :
  build_prompt cfg files diff manual_topic
  = build_prompt cfg files diff (strip manual_topic)
  /\ ensure_topic_line msg manual_topic
     = ensure_topic_line msg (strip manual_topic)
  /\ (strip manual_topic = [] ->
      build_prompt cfg files diff manual_topic
      = build_prompt cfg files diff (lit "")).
Proof.
  split; [|split].
  - unfold build_prompt. rewrite strip_idem. reflexivity.
  - unfold ensure_topic_line. rewrite strip_idem. reflexivity.
  - intros E. unfold build_prompt. rewrite E. reflexivity.
Qed.

Lemma manual_topic_whitespace_ignored_witness :
  @build_prompt sample_runtime (sample_config 360) [lit "a.txt"] (lit "+a") (lit "  ")
  = @build_prompt sample_runtime (sample_config 360) [lit "a.txt"] (lit "+a") (lit "").
Proof.
  apply (@manual_topic_whitespace_ignored sample_runtime (sample_config 360)
           [lit "a.txt"] (lit "+a") (lit "fix: a") (lit "  ")).
  reflexivity.
Defined.



(** ** More on estimate_cost_usd *)

Lemma obind_not_none {A B} (o : outcome A) (k : A -> outcome (option B)) :
  (forall a, k a <> Ret None) -> obind o k <> Ret None.
Proof. intros Hk. destruct o; simpl; [apply Hk | discriminate | discriminate]. Qed.

(** X5: [estimate_cost_usd] returns [None] exactly when the pricing table is a mapping that has no entry for the model or a falsy one; with a truthy entry it returns a tuple or raises; and when the pricing table is not a mapping (the pricing file holds a list, a string, a number or null) it raises AttributeError, whatever the model and the usage. *)
Theorem estimate_cost_usd_none_iff `{PyRuntime} (cfg : config) (model : str)
    (usage : json) :
  (estimate_cost_usd cfg model usage = Ret None
   <-> exists table,
         OPENAI_API_PRICING_PER_1M cfg = JObj table
         /\ (table !! model = None
             \/ exists pricing,
                  table !! model = Some pricing /\ json_truthy pricing = false))
  /\ ((forall table, OPENAI_API_PRICING_PER_1M cfg <> JObj table) ->
      estimate_cost_usd cfg model usage = Raise AttributeError).
Proof.
  unfold estimate_cost_usd. split.
  - destruct (OPENAI_API_PRICING_PER_1M cfg) as [| | | | | |table] eqn:Etab;
      try (split; [discriminate | intros (t & Ht & _); discriminate]).
    cbn [py_get obind].
    destruct (table !! model) as [pricing|] eqn:E.
    + destruct (json_truthy pricing) eqn:Et; cbn [negb].
      * split.
        -- intros Hn. exfalso. revert Hn.
           repeat (apply obind_not_none; intros ?). discriminate.
        -- intros (t & Ht & Hcase). injection Ht as <-.
           destruct Hcase as [Hn | (p & Hp & Hf)]; [congruence|].
           rewrite E in Hp. injection Hp as <-. congruence.
      * split; [|reflexivity]. intros _. exists table. split; [reflexivity|].
        right. exists pricing. split; [exact E | exact Et].
    + split; [|reflexivity]. intros _. exists table. split; [reflexivity|].
      left. exact E.
  - intros Hno.
    destruct (OPENAI_API_PRICING_PER_1M cfg) as [| | | | | |table];
      try reflexivity.
    exfalso. apply (Hno table). reflexivity.
Qed.

(** A model that the table does not have, and a table whose entry for the
    model is null. *)
Lemma estimate_cost_usd_none_iff_witness :
  @estimate_cost_usd sample_runtime (sample_config 360) (lit "no-such-model")
    (@JNull sample_runtime) = Ret None
  /\ @estimate_cost_usd sample_runtime
       (sample_config_with 360
          (@JObj sample_runtime (<[lit "gpt-5-mini" := @JNull sample_runtime]> ∅)))
       (lit "gpt-5-mini") (@JObj sample_runtime ∅) = Ret None
  /\ @estimate_cost_usd sample_runtime
       (sample_config_with 360 (@JStr sample_runtime (lit "none")))
       (lit "gpt-5-mini") (@JObj sample_runtime ∅) = Raise AttributeError.
Proof.
  split; [|split].
  - apply (proj2 (proj1 (@estimate_cost_usd_none_iff sample_runtime
                           (sample_config 360) (lit "no-such-model")
                           (@JNull sample_runtime)))).
    exists sample_pricing. split; [reflexivity|]. left. vm_compute. reflexivity.
  - apply (proj2 (proj1 (@estimate_cost_usd_none_iff sample_runtime
                           (sample_config_with 360
                              (@JObj sample_runtime
                                 (<[lit "gpt-5-mini" := @JNull sample_runtime]> ∅)))
                           (lit "gpt-5-mini") (@JObj sample_runtime ∅)))).
    eexists. split; [reflexivity|]. right. exists (@JNull sample_runtime).
    split; [vm_compute; reflexivity | reflexivity].
  - apply (proj2 (@estimate_cost_usd_none_iff sample_runtime
                    (sample_config_with 360 (@JStr sample_runtime (lit "none")))
                    (lit "gpt-5-mini") (@JObj sample_runtime ∅))).
    intros table. discriminate.
Defined.

Lemma obind_ret_inv {A B} (o : outcome A) (k : A -> outcome B) b :
  obind o k = Ret b -> exists a, o = Ret a /\ k a = Ret b.
Proof. destruct o; simpl; intros Hk; try discriminate. eauto. Qed.

(** X6: when [estimate_cost_usd] returns a tuple, the usage is a mapping, a missing prompt_tokens or completion_tokens key counts as 0, and a missing total_tokens key gives the sum of the two. *)
Theorem estimate_cost_usd_defaults `{PyRuntime} (cfg : config) (model : str)
    (usage : json) (pt ct total : Z) (cost : float) :
  estimate_cost_usd cfg model usage = Ret (Some (pt, ct, total, cost)) ->
  exists u,
    usage = JObj u
    /\ (u !! lit "prompt_tokens" = None -> pt = 0)
    /\ (u !! lit "completion_tokens" = None -> ct = 0)
    /\ (u !! lit "total_tokens" = None -> total = pt + ct).
Proof.
  unfold estimate_cost_usd. intros Hr.
  apply obind_ret_inv in Hr as (pricing & _ & Hr).
  destruct (negb (json_truthy pricing)); [discriminate|].
  apply obind_ret_inv in Hr as (v1 & Hv1 & Hr).
  apply obind_ret_inv in Hr as (pt' & Hpt & Hr).
  apply obind_ret_inv in Hr as (v2 & Hv2 & Hr).
  apply obind_ret_inv in Hr as (ct' & Hct & Hr).
  apply obind_ret_inv in Hr as (v3 & Hv3 & Hr).
  apply obind_ret_inv in Hr as (tt' & Htt & Hr).
  apply obind_ret_inv in Hr as (x & Hx & Hr).
  apply obind_ret_inv in Hr as (p_in & Hpin & Hr).
  apply obind_ret_inv in Hr as (a & Ha & Hr).
  apply obind_ret_inv in Hr as (y & Hy & Hr).
  apply obind_ret_inv in Hr as (p_out & Hpout & Hr).
  apply obind_ret_inv in Hr as (b & Hb & Hr).
  injection Hr as -> -> -> <-.
  destruct usage as [| | | | | |u]; try discriminate.
  exists u. split; [reflexivity|].
  cbn [py_get] in Hv1, Hv2, Hv3.
  injection Hv1 as <-. injection Hv2 as <-. injection Hv3 as <-.
  repeat split.
  - intros E. unfold lit in E. cbn [list_ascii_of_string] in E.
    rewrite E in Hpt. cbn in Hpt. congruence.
  - intros E. unfold lit in E. cbn [list_ascii_of_string] in E.
    rewrite E in Hct. cbn in Hct. congruence.
  - intros E. unfold lit in E. cbn [list_ascii_of_string] in E.
    rewrite E in Htt. cbn in Htt. congruence.
Qed.

Lemma estimate_cost_usd_defaults_witness :
  exists u,
    @JObj sample_runtime (<[lit "prompt_tokens" := @JInt sample_runtime 1000]> ∅)
    = @JObj sample_runtime u
    /\ (u !! lit "prompt_tokens" = None -> 1000 = 0)
    /\ (u !! lit "completion_tokens" = None -> 0 = 0)
    /\ (u !! lit "total_tokens" = None -> 1000 = 1000 + 0).
Proof.
  eapply (@estimate_cost_usd_defaults sample_runtime (sample_config 360)
            (lit "gpt-5-mini")
            (@JObj sample_runtime
               (<[lit "prompt_tokens" := @JInt sample_runtime 1000]> ∅))
            1000 0 1000).
  vm_compute. reflexivity.
Defined.

(** ** truncate_diff with a negative limit *)

(** X4: with a negative [MAX_DIFF_LINES], [truncate_diff] reports every diff as truncated; the text keeps the first total + limit lines (none when that is negative), the reported keptLines is the negative limit, which is not the number of lines kept, and the marker names more omitted lines than the diff has. *)
Theorem truncate_diff_negative_limit_spec `{PyRuntime} (cfg : config) (diff : str) :
  MAX_DIFF_LINES cfg < 0 ->
  let lines := splitlines diff in
  let total := Z.of_nat (length lines) in
  let kept := firstn (length lines - Z.to_nat (- MAX_DIFF_LINES cfg)) lines in
  truncate_diff cfg diff
  = (join nl (kept ++ [lit ""; truncate_marker (total - MAX_DIFF_LINES cfg)]),
     true, total, MAX_DIFF_LINES cfg)
  /\ Z.of_nat (length kept) = Z.max 0 (total + MAX_DIFF_LINES cfg)
  /\ Z.of_nat (length kept) <> MAX_DIFF_LINES cfg
  /\ total < total - MAX_DIFF_LINES cfg.
Proof.
  intros Hneg. cbv zeta. unfold truncate_diff. cbv zeta.
  destruct (Z.leb_spec (Z.of_nat (length (splitlines diff))) (MAX_DIFF_LINES cfg)); [lia|].
  unfold slice_to. destruct (Z.ltb_spec (MAX_DIFF_LINES cfg) 0); [|lia].
  rewrite <- app_assoc. simpl app.
  split; [reflexivity|]. rewrite length_firstn. repeat split; lia.
Qed.

Lemma truncate_diff_negative_limit_spec_witness :
  @truncate_diff sample_runtime (sample_config (-1))
    (lit "a" ++ nl ++ lit "b" ++ nl ++ lit "c")
  = (join nl ([lit "a"; lit "b"] ++ [lit ""; truncate_marker 4]), true, 3, -1)
  /\ Z.of_nat (length [lit "a"; lit "b"]) = Z.max 0 (3 + -1)
  /\ Z.of_nat (length [lit "a"; lit "b"]) <> -1
  /\ 3 < 3 - -1.
Proof.
  apply (@truncate_diff_negative_limit_spec sample_runtime (sample_config (-1))
           (lit "a" ++ nl ++ lit "b" ++ nl ++ lit "c")).
  simpl. lia.
Defined.

(** ** split_ws *)

Lemma split_ws_tokens s :
  Forall (fun p => p <> [] /\ forallb (fun c => negb (isspace c)) p = true)
         (split_ws s).
Proof.
  induction s as [|c s IH]; [constructor|].
  cbn [split_ws]. destruct (isspace c) eqn:Ec; [exact IH|].
  destruct s as [|d s]; [repeat constructor; [discriminate | simpl; rewrite Ec; reflexivity]|].
  destruct (isspace d) eqn:Ed.
  - constructor; [|exact IH]. split; [discriminate|]. simpl. rewrite Ec. reflexivity.
  - destruct (split_ws (d :: s)) as [|p ps]; cbn [push_char].
    + repeat constructor; [discriminate | simpl; rewrite Ec; reflexivity].
    + inversion IH as [|? ? [Hp1 Hp2] Hps]; subst. constructor; [|exact Hps].
      split; [discriminate|]. simpl. rewrite Ec, Hp2. reflexivity.
Qed.

Lemma strip_no_space p :
  forallb (fun c => negb (isspace c)) p = true -> strip p = p.
Proof.
  intros H. unfold strip.
  assert (Hl : lstrip p = p).
  { destruct p as [|c p]; [reflexivity|]. simpl in H.
    apply andb_prop in H as [Hc _]. apply negb_true_iff in Hc.
    apply lstrip_nonspace, Hc. }
  rewrite Hl. induction p as [|c p IH]; [reflexivity|].
  simpl in H. apply andb_prop in H as [Hc Hp]. apply negb_true_iff in Hc.
  rewrite (rstrip_nonspace c p Hc). f_equal. apply IH; [exact Hp|].
  destruct p as [|d p]; [reflexivity|]. simpl in Hp.
  apply andb_prop in Hp as [Hd _]. apply negb_true_iff in Hd.
  apply lstrip_nonspace, Hd.
Qed.

Lemma split_ws_hd_strip line part rest :
  split_ws line = part :: rest -> strip part = part.
Proof.
  intros E. pose proof (split_ws_tokens line) as H. rewrite E in H.
  inversion H as [|? ? [_ Hp] _]; subst. apply strip_no_space, Hp.
Qed.

(** ** _pull_if_missing *)

Lemma installed_iff out model : model ∈ Ollama.installed out <-> listed out model.
Proof.
  unfold Ollama.installed, listed. induction (tl (splitlines out)) as [|line ls IH].
  - simpl. split; [intros H; exfalso; revert H; apply not_elem_of_empty|].
    intros (line & [] & _).
  - cbn [fold_right]. destruct (split_ws line) as [|part rest] eqn:E.
    + rewrite IH. split.
      * intros (l & Hin & Hl). exists l. split; [right; exact Hin | exact Hl].
      * intros (l & [<- | Hin] & Hl); [rewrite E in Hl; discriminate|].
        exists l. split; assumption.
    + rewrite elem_of_union, elem_of_singleton, IH, (split_ws_hd_strip line part rest E).
      split.
      * intros [-> | (l & Hin & Hl)].
        -- exists line. split; [left; reflexivity | rewrite E; reflexivity].
        -- exists l. split; [right; exact Hin | exact Hl].
      * intros (l & [<- | Hin] & Hl).
        -- left. rewrite E in Hl. simpl in Hl. congruence.
        -- right. exists l. split; assumption.
Qed.

(** X24: [_pull_if_missing] pulls the model exactly when no line of the listing but the first names it in its first field; a failing pull raises CalledProcessError; when the list command fails the model is always pulled. *)
Theorem pull_if_missing_spec `{PyRuntime} (w : Ollama.world) (model : str)
    (s : Ollama.probes) :
  let out := match Ollama.list_reply w with Some out => out | None => lit "" end in
  (listed out model ->
   Ollama._pull_if_missing w model s = ([Ollama.ListModels], s, Ollama.Ok tt))
  /\ (~ listed out model ->
      Ollama._pull_if_missing w model s
      = ([Ollama.ListModels; Ollama.Pull model], s,
         if Ollama.pull_ok w then Ollama.Ok tt
         else Ollama.Err Ollama.CalledProcessError))
  /\ (Ollama.list_reply w = None -> ~ listed out model).
Proof.
  cbv zeta. split; [|split].
  - intros Hl. apply installed_iff in Hl.
    unfold Ollama._pull_if_missing, Ollama.bind, Ollama.emit, Ollama.ret.
    rewrite bool_decide_eq_true_2 by exact Hl. reflexivity.
  - intros Hl. rewrite <- installed_iff in Hl.
    unfold Ollama._pull_if_missing, Ollama.bind, Ollama.emit, Ollama.ret, Ollama.raise.
    rewrite bool_decide_eq_false_2 by exact Hl.
    destruct (Ollama.pull_ok w); reflexivity.
  - intros ->. intros (line & [] & _).
Qed.

Lemma pull_if_missing_spec_witness :
  @Ollama._pull_if_missing sample_runtime
    (sample_ollama (Some sample_listing) false 3 (inl Ollama.CalledProcessError))
    (lit "gpt-oss:20b") []
  = ([Ollama.ListModels], [], Ollama.Ok tt)
  /\ @Ollama._pull_if_missing sample_runtime
       (sample_ollama None true 3 (inl Ollama.CalledProcessError))
       (lit "gpt-oss:20b") []
     = ([Ollama.ListModels; Ollama.Pull (lit "gpt-oss:20b")], [], Ollama.Ok tt).
Proof.
  split.
  - apply (@pull_if_missing_spec sample_runtime
             (sample_ollama (Some sample_listing) false 3 (inl Ollama.CalledProcessError))
             (lit "gpt-oss:20b") []).
    exists (lit "gpt-oss:20b    aa4295  13 GB").
    split; [vm_compute; auto | vm_compute; reflexivity].
  - apply (@pull_if_missing_spec sample_runtime
             (sample_ollama None true 3 (inl Ollama.CalledProcessError))
             (lit "gpt-oss:20b") []).
    intros (line & [] & _).
Defined.

(** ** generate_commit_message_local *)

Lemma pull_run `{PyRuntime} (w : Ollama.world) model s :
  exists t r,
    Ollama._pull_if_missing w model s = (t, s, r)
    /\ Forall (fun e => e = Ollama.ListModels \/ e = Ollama.Pull model) t
    /\ (r = Ollama.Ok tt \/ r = Ollama.Err Ollama.CalledProcessError).
Proof.
  unfold Ollama._pull_if_missing, Ollama.bind, Ollama.emit, Ollama.ret, Ollama.raise.
  destruct (bool_decide _); [|destruct (Ollama.pull_ok w)];
    eexists _, _; (split; [reflexivity|]); (split; [|auto]).
  - constructor; [left; reflexivity | constructor].
  - constructor; [left; reflexivity|].
    constructor; [right; reflexivity | constructor].
  - constructor; [left; reflexivity|].
    constructor; [right; reflexivity | constructor].
Qed.

Lemma is_server_up_run s :
  Ollama._is_server_up s = ([Ollama.Probe], tl s, Ollama.Ok (probe_up (hd None s))).
Proof. destruct s as [|[st|] s]; reflexivity. Qed.

Lemma wait_all_down rounds : forall s,
  Forall (fun a => probe_up a = false) (firstn rounds s) ->
  Ollama._wait_for_server rounds s
  = (rounds_trace rounds, skipn rounds s,
     Ollama.Err (Ollama.RuntimeError
        (lit "Ollama server did not become ready (http://localhost:11434)"))).
Proof.
  induction rounds as [|n IH]; intros s Hdown; [reflexivity|].
  cbn [Ollama._wait_for_server]. unfold Ollama.bind at 1.
  rewrite is_server_up_run.
  assert (Hhd : probe_up (hd None s) = false).
  { destruct s as [|a s]; [reflexivity|]. inversion Hdown; assumption. }
  rewrite Hhd. unfold Ollama.bind, Ollama.emit.
  rewrite (IH (tl s)).
  - destruct s as [|a s]; [destruct n|]; reflexivity.
  - destruct s as [|a s]; [destruct n; constructor|]. inversion Hdown; assumption.
Qed.

Lemma wait_run rounds : forall s,
  exists t s' r,
    Ollama._wait_for_server rounds s = (t, s', r)
    /\ Forall (fun e => e = Ollama.Probe \/ e = Ollama.Sleep) t.
Proof.
  induction rounds as [|n IH]; intros s.
  - eexists _, _, _. split; [reflexivity | constructor].
  - cbn [Ollama._wait_for_server]. unfold Ollama.bind at 1.
    rewrite is_server_up_run. destruct (probe_up (hd None s)).
    + eexists _, _, _. split; [reflexivity|].
      constructor; [left; reflexivity | constructor].
    + unfold Ollama.bind, Ollama.emit.
      destruct (IH (tl s)) as (t & s' & r & E & Ht). rewrite E.
      destruct r; eexists _, _, _; (split; [reflexivity|]);
        (constructor; [left; reflexivity|]);
        (constructor; [right; reflexivity | exact Ht]).
Qed.

Lemma wait_comes_up rounds : forall s j a,
  (j < rounds)%nat ->
  Forall (fun a => probe_up a = false) (firstn j s) ->
  nth_error s j = Some a -> probe_up a = true ->
  Ollama._wait_for_server rounds s
  = (rounds_trace j ++ [Ollama.Probe], skipn (S j) s, Ollama.Ok tt).
Proof.
  induction rounds as [|n IH]; intros s j a Hj Hdown Hnth Hup; [lia|].
  cbn [Ollama._wait_for_server]. unfold Ollama.bind at 1.
  rewrite is_server_up_run. destruct j as [|j].
  - destruct s as [|b s]; [discriminate|]. simpl in Hnth.
    injection Hnth as Hba. subst b. cbn [hd]. rewrite Hup. reflexivity.
  - destruct s as [|b s]; [discriminate|]. simpl in Hnth.
    inversion Hdown as [|? ? Hb Hrest]; subst. cbn [hd tl]. rewrite Hb.
    unfold Ollama.bind, Ollama.emit.
    rewrite (IH s j a) by (assumption || lia). reflexivity.
Qed.

Lemma pull_ok_run `{PyRuntime} (w : Ollama.world) model s :
  listed (match Ollama.list_reply w with Some out => out | None => lit "" end) model
  \/ Ollama.pull_ok w = true ->
  exists t,
    Ollama._pull_if_missing w model s = (t, s, Ollama.Ok tt)
    /\ Forall (fun e => e = Ollama.ListModels \/ e = Ollama.Pull model) t.
Proof.
  intros Hok. destruct (pull_run w model s) as (t & r & E & Ht & Hr).
  exists t. split; [|exact Ht]. rewrite E. f_equal.
  destruct Hr as [-> | ->]; [reflexivity|]. exfalso.
  revert E. unfold Ollama._pull_if_missing, Ollama.bind, Ollama.emit,
    Ollama.ret, Ollama.raise.
  destruct (bool_decide _) eqn:Eb; [discriminate|].
  destruct Hok as [Hl | Hp].
  - apply installed_iff in Hl. apply bool_decide_eq_false in Eb. contradiction.
  - rewrite Hp. discriminate.
Qed.

Ltac forall_in H :=
  rewrite List.Forall_forall in H.

(** X25: when the model is available, [generate_commit_message_local] starts the server exactly when the first liveness probe finds it down, and the flag it returns says so. *)
Theorem generate_starts_server_when_down `{PyRuntime} (w : Ollama.world)
    (prompt model : str) (s : Ollama.probes) :
  listed (match Ollama.list_reply w with Some out => out | None => lit "" end) model
  \/ Ollama.pull_ok w = true ->
  let '(t, _, r) := Ollama.generate_commit_message_local w prompt model s in
  (In Ollama.StartServer t <-> probe_up (hd None s) = false)
  /\ (forall msg usage started,
         r = Ollama.Ok (msg, usage, started) ->
         started = negb (probe_up (hd None s))).
Proof.
  intros Hok. destruct (pull_ok_run w model s Hok) as (tp & Ep & Htp).
  forall_in Htp.
  assert (Hnp : ~ In Ollama.StartServer tp).
  { intros Hin. destruct (Htp _ Hin); discriminate. }
  unfold Ollama.generate_commit_message_local.
  unfold Ollama.bind at 1. rewrite Ep.
  unfold Ollama.bind at 1. rewrite is_server_up_run.
  destruct (probe_up (hd None s)) eqn:Eup; cbn [negb].
  - unfold Ollama.bind, Ollama.ret, Ollama.call_ollama_chat, Ollama.emit, Ollama.raise.
    destruct (Ollama.chat_reply w prompt model) as [e | [content usage]].
    + split; [|discriminate]. rewrite !in_app_iff. cbn [In].
      split; [|discriminate]. intros Hin. exfalso.
      intuition discriminate.
    + split.
      * rewrite !in_app_iff. cbn [In]. split; [|discriminate].
        intros Hin. exfalso. intuition discriminate.
      * intros msg u st E. injection E as _ _ <-. reflexivity.
  - unfold Ollama._start_server_cmd_window.
    destruct (wait_run (Ollama.wait_rounds w) (tl s)) as (tw & sw & rw & Ew & Htw).
    unfold Ollama.bind, Ollama.ret, Ollama.call_ollama_chat, Ollama.emit, Ollama.raise.
    rewrite Ew. destruct rw as [[]|e].
    + destruct (Ollama.chat_reply w prompt model) as [e | [content usage]].
      * split; [|discriminate]. rewrite !in_app_iff. cbn [In].
        split; [reflexivity|]. intros _. auto 12.
      * split.
        -- rewrite !in_app_iff. cbn [In]. split; [reflexivity|].
           intros _. auto 12.
        -- intros msg u st E. injection E as _ _ <-. reflexivity.
    + split; [|discriminate]. rewrite !in_app_iff. cbn [In].
      split; [reflexivity|]. intros _. auto 12.
Qed.

Lemma generate_starts_server_when_down_witness :
  let '(t, _, r) :=
    @Ollama.generate_commit_message_local sample_runtime
      (sample_ollama None true 3 (inr (lit " fix: a ", None)))
      (lit "prompt") (lit "gpt-oss:20b") [None; Some 200] in
  (In Ollama.StartServer t <-> probe_up (hd None [None; Some 200]) = false)
  /\ (forall msg usage started,
         r = Ollama.Ok (msg, usage, started) ->
         started = negb (probe_up (hd None [None; Some 200]))).
Proof.
  apply (@generate_starts_server_when_down sample_runtime
           (sample_ollama None true 3 (inr (lit " fix: a ", None)))
           (lit "prompt") (lit "gpt-oss:20b") [None; Some 200]).
  right. reflexivity.
Defined.

(** X26: [generate_commit_message_local] runs the stop command exactly when it returns a result; the trace then ends with the chat request and the stop, the message is stripped, and the usage is truthy or the empty mapping. *)
Theorem generate_stops_model_iff_success `{PyRuntime} (w : Ollama.world)
    (prompt model : str) (s : Ollama.probes) :
  let '(t, _, r) := Ollama.generate_commit_message_local w prompt model s in
  (In (Ollama.Stop model) t <-> exists v, r = Ollama.Ok v)
  /\ (forall msg usage started,
         r = Ollama.Ok (msg, usage, started) ->
         strip msg = msg
         /\ (json_truthy usage = true \/ usage = JObj ∅)
         /\ exists t0, t = t0 ++ [Ollama.Chat prompt model; Ollama.Stop model]).
Proof.
  destruct (pull_run w model s) as (tp & rp & Ep & Htp & Hrp).
  forall_in Htp.
  assert (Hnp : ~ In (Ollama.Stop model) tp).
  { intros Hin. destruct (Htp _ Hin); discriminate. }
  assert (Hchat : forall (t0 : list Ollama.event) (s0 : Ollama.probes) (b : bool),
             ~ In (Ollama.Stop model) t0 ->
             let '(t, _, r) :=
               Ollama.bind (Ollama.call_ollama_chat w prompt model)
                 (fun reply => let '(msg, usage) := reply in
                    Ollama.bind (Ollama.emit (Ollama.Stop model))
                      (fun _ => Ollama.ret (msg, usage, b))) s0 in
             (In (Ollama.Stop model) (t0 ++ t) <-> exists v, r = Ollama.Ok v)
             /\ (forall msg usage started,
                    r = Ollama.Ok (msg, usage, started) ->
                    strip msg = msg
                    /\ (json_truthy usage = true \/ usage = JObj ∅)
                    /\ exists t1, t0 ++ t
                                  = t1 ++ [Ollama.Chat prompt model; Ollama.Stop model])).
  { intros t0 s0 b Hn0.
    unfold Ollama.bind, Ollama.ret, Ollama.call_ollama_chat, Ollama.emit, Ollama.raise.
    destruct (Ollama.chat_reply w prompt model) as [e | [content usage]].
    - split; [|discriminate]. rewrite in_app_iff. cbn [In]. split.
      + intros [Hin | [Hin | []]]; [contradiction | discriminate].
      + intros [v Hv]. discriminate.
    - split.
      + rewrite in_app_iff. cbn [In app]. split; [eauto | auto 6].
      + intros msg u st E. injection E as <- <- <-.
        split; [apply strip_idem|]. split.
        * destruct usage as [u|]; [|right; reflexivity].
          destruct (json_truthy u) eqn:Eu; [left; exact Eu | right; reflexivity].
        * exists t0. reflexivity. }
  unfold Ollama.generate_commit_message_local.
  unfold Ollama.bind at 1. rewrite Ep.
  destruct Hrp as [-> | ->].
  2:{ split; [|discriminate]. split; [contradiction | intros [v Hv]; discriminate]. }
  unfold Ollama.bind at 1. rewrite is_server_up_run.
  destruct (probe_up (hd None s)); cbn [negb].
  - unfold Ollama.bind at 1. unfold Ollama.ret at 1.
    specialize (Hchat (tp ++ [Ollama.Probe] ++ []) (tl s) false).
    destruct (Ollama.bind (Ollama.call_ollama_chat w prompt model) _ (tl s))
      as [[t1 s1] r1].
    rewrite <- !app_assoc in *. apply Hchat.
    rewrite !in_app_iff. cbn [In]. intuition discriminate.
  - unfold Ollama._start_server_cmd_window.
    destruct (wait_run (Ollama.wait_rounds w) (tl s)) as (tw & sw & rw & Ew & Htw).
    forall_in Htw.
    assert (Hnw : ~ In (Ollama.Stop model) tw).
    { intros Hin. destruct (Htw _ Hin); discriminate. }
    unfold Ollama.bind at 1. unfold Ollama.bind at 1. unfold Ollama.emit at 1.
    unfold Ollama.bind at 1. rewrite Ew. destruct rw as [[]|e].
    + unfold Ollama.ret at 1.
      specialize (Hchat (tp ++ [Ollama.Probe] ++ ([Ollama.StartServer] ++ tw ++ []))
                        sw true).
      destruct (Ollama.bind (Ollama.call_ollama_chat w prompt model) _ sw)
        as [[t1 s1] r1].
      rewrite <- !app_assoc in *. apply Hchat.
      rewrite !in_app_iff. cbn [In]. intuition discriminate.
    + split; [|discriminate]. split; [|intros [v Hv]; discriminate].
      rewrite !in_app_iff. cbn [In]. intuition discriminate.
Qed.

(** X27: when the server is down and stays down for all rounds of the waiting loop, [generate_commit_message_local] ends with the RuntimeError of [_wait_for_server] after one start of the server; no chat request is sent and the model is not stopped. *)
Theorem generate_wait_timeout `{PyRuntime} (w : Ollama.world)
    (prompt model : str) (s : Ollama.probes) :
  listed (match Ollama.list_reply w with Some out => out | None => lit "" end) model
  \/ Ollama.pull_ok w = true ->
  Forall (fun a => probe_up a = false) (firstn (S (Ollama.wait_rounds w)) s) ->
  Ollama.generate_commit_message_local w prompt model s
  = (fst (fst (Ollama._pull_if_missing w model s))
     ++ [Ollama.Probe; Ollama.StartServer] ++ rounds_trace (Ollama.wait_rounds w),
     skipn (S (Ollama.wait_rounds w)) s,
     Ollama.Err (Ollama.RuntimeError
        (lit "Ollama server did not become ready (http://localhost:11434)"))).
Proof.
  intros Hok Hdown. destruct (pull_ok_run w model s Hok) as (tp & Ep & _).
  unfold Ollama.generate_commit_message_local.
  unfold Ollama.bind at 1. rewrite Ep. cbn [fst].
  unfold Ollama.bind at 1. rewrite is_server_up_run.
  assert (Hhd : probe_up (hd None s) = false).
  { destruct s as [|a s]; [reflexivity|]. inversion Hdown; assumption. }
  rewrite Hhd. cbn [negb]. unfold Ollama._start_server_cmd_window.
  unfold Ollama.bind at 1. unfold Ollama.bind at 1. unfold Ollama.emit at 1.
  unfold Ollama.bind at 1. rewrite (wait_all_down _ (tl s)).
  - destruct s as [|a s]; [|reflexivity].
    destruct (Ollama.wait_rounds w); reflexivity.
  - destruct s as [|a s]; [destruct (Ollama.wait_rounds w); constructor|].
    inversion Hdown; assumption.
Qed.

Lemma generate_wait_timeout_witness :
  @Ollama.generate_commit_message_local sample_runtime
    (sample_ollama None true 2 (inr (lit " fix: a ", None)))
    (lit "prompt") (lit "gpt-oss:20b") [None; Some 503; None; Some 200]
  = ([Ollama.ListModels; Ollama.Pull (lit "gpt-oss:20b"); Ollama.Probe;
      Ollama.StartServer; Ollama.Probe; Ollama.Sleep; Ollama.Probe; Ollama.Sleep],
     [Some 200],
     Ollama.Err (Ollama.RuntimeError
        (lit "Ollama server did not become ready (http://localhost:11434)"))).
Proof.
  apply (@generate_wait_timeout sample_runtime
           (sample_ollama None true 2 (inr (lit " fix: a ", None)))
           (lit "prompt") (lit "gpt-oss:20b") [None; Some 503; None; Some 200]).
  - right. reflexivity.
  - simpl. repeat constructor.
Defined.

(** X28: when the model is not listed and the pull fails, [generate_commit_message_local] ends with CalledProcessError right after the pull: no probe, no server start, no chat request. *)
Theorem generate_pull_failure `{PyRuntime} (w : Ollama.world)
    (prompt model : str) (s : Ollama.probes) :
  ~ listed (match Ollama.list_reply w with Some out => out | None => lit "" end) model ->
  Ollama.pull_ok w = false ->
  Ollama.generate_commit_message_local w prompt model s
  = ([Ollama.ListModels; Ollama.Pull model], s,
     Ollama.Err Ollama.CalledProcessError).
Proof.
  intros Hl Hp. rewrite <- installed_iff in Hl.
  unfold Ollama.generate_commit_message_local, Ollama._pull_if_missing.
  unfold Ollama.bind, Ollama.emit, Ollama.ret, Ollama.raise.
  rewrite bool_decide_eq_false_2 by exact Hl. rewrite Hp. reflexivity.
Qed.

Lemma generate_pull_failure_witness :
  @Ollama.generate_commit_message_local sample_runtime
    (sample_ollama None false 2 (inr (lit " fix: a ", None)))
    (lit "prompt") (lit "gpt-oss:20b") [Some 200]
  = ([Ollama.ListModels; Ollama.Pull (lit "gpt-oss:20b")], [Some 200],
     Ollama.Err Ollama.CalledProcessError).
Proof.
  apply (@generate_pull_failure sample_runtime
           (sample_ollama None false 2 (inr (lit " fix: a ", None)))
           (lit "prompt") (lit "gpt-oss:20b") [Some 200]).
  - intros (line & [] & _).
  - reflexivity.
Defined.

(** X29: [_wait_for_server] returns at the first probe that finds the server up, after one sleep for each failed probe before it. *)
Theorem wait_for_server_first_up (rounds : nat) (s : Ollama.probes)
    (j : nat) (a : option Z) :
  (j < rounds)%nat ->
  Forall (fun a => probe_up a = false) (firstn j s) ->
  nth_error s j = Some a -> probe_up a = true ->
  Ollama._wait_for_server rounds s
  = (rounds_trace j ++ [Ollama.Probe], skipn (S j) s, Ollama.Ok tt).
Proof. apply wait_comes_up. Qed.

Lemma wait_for_server_first_up_witness :
  Ollama._wait_for_server 5 [None; Some 404; Some 200; None]
  = ([Ollama.Probe; Ollama.Sleep; Ollama.Probe; Ollama.Sleep; Ollama.Probe],
     [None], Ollama.Ok tt).
Proof.
  apply (wait_for_server_first_up 5 [None; Some 404; Some 200; None] 2 (Some 200)).
  - lia.
  - simpl. repeat constructor.
  - reflexivity.
  - reflexivity.
Defined.
